(** * Smart License API: the booking, credential and recovery handlers of main.py

    A shallow embedding of the request handlers of [main.py] and of the seeding
    loops of [main.py] and [init_db.py].  The database is an explicit value
    threaded through the handlers; a handler either returns a value or raises. *)

From Stdlib Require Import ZArith List String Ascii Bool Lia.
Import ListNotations.

Local Open Scope string_scope.
Local Open Scope list_scope.
Local Open Scope Z_scope.

(** ** What a handler raises, and what it gives back *)

(** [HTTPException] is raised by the handlers themselves.  [IntegrityError] is
    what the database raises when it refuses a row (primary key, unique
    constraint, foreign key); its argument names the constraint.  [DataError]
    is what it raises for a value that a column cannot take or a text that it
    cannot read (an integer beyond 32 bits, a text that is no date).
    [PythonError] is any other exception, by the name of its class. *)
Inductive Exn : Type :=
| HTTPException (status_code : Z) (detail : string)
| IntegrityError (constraint : string)
| DataError (detail : string)
| PythonError (class_name : string).

Inductive outcome (A : Type) : Type :=
| Return (a : A)
| Raise (e : Exn).

Arguments Return {A} a.
Arguments Raise {A} e.

(** Column types: [Date] values are kept in their ISO text form (YYYY-MM-DD);
    [DateTime] values are seconds on the server clock. *)
Definition date := string.
Definition datetime := Z.

(** ** Models (the tables of main.py)

    [role] and [result] are text columns, so they are strings here; the
    closed sets of values are those of the request schemas below.
    [is_active] is written by every handler that stores a user, so it is a
    plain boolean. *)

Module User.
Record row : Type := mk {
  id : Z;
  username : string;
  password : string;
  email : string;
  role : string;
  is_active : bool;
  created_at : datetime
}.
End User.

Module SecurityQuestion.
Record row : Type := mk {
  id : Z;
  question : string
}.
End SecurityQuestion.

Module UserSecurityAnswer.
Record row : Type := mk {
  id : Z;
  user_id : Z;
  question_id : Z;
  answer_hash : string;
  created_at : datetime
}.
End UserSecurityAnswer.

Module Station.
Record row : Type := mk {
  station_id : Z;
  name : string;
  num_grounds : Z
}.
End Station.

Module LearnerTestBooking.
Record row : Type := mk {
  booking_id : Z;
  learner_id : Z;
  instructor_id : Z;
  station_id : Z;
  test_date : date;
  result : string;
  booking_date : datetime;
  license_code : option string;
  registered_on : datetime
}.
End LearnerTestBooking.

(** The database.  Tables are lists of rows in insertion order; every table
    with a generated key carries the next value of its sequence.  The tables
    [learner_profiles] and [instructor_profile] are only referred to by the
    foreign keys of bookings, so they are kept as their key column. *)
Record DB : Type := mkDB {
  users : list User.row;
  users_id_seq : Z;
  security_questions : list SecurityQuestion.row;
  security_questions_id_seq : Z;
  user_security_answers : list UserSecurityAnswer.row;
  user_security_answers_id_seq : Z;
  station : list Station.row;
  station_station_id_seq : Z;
  learner_profiles : list Z;
  instructor_profile : list Z;
  learner_test_bookings : list LearnerTestBooking.row;
  learner_test_bookings_booking_id_seq : Z
}.

Definition set_users (db : DB) (rows : list User.row) (seq : Z) : DB :=
  mkDB rows seq
       (security_questions db) (security_questions_id_seq db)
       (user_security_answers db) (user_security_answers_id_seq db)
       (station db) (station_station_id_seq db)
       (learner_profiles db) (instructor_profile db)
       (learner_test_bookings db) (learner_test_bookings_booking_id_seq db).

Definition set_security_questions (db : DB) (rows : list SecurityQuestion.row) (seq : Z) : DB :=
  mkDB (users db) (users_id_seq db)
       rows seq
       (user_security_answers db) (user_security_answers_id_seq db)
       (station db) (station_station_id_seq db)
       (learner_profiles db) (instructor_profile db)
       (learner_test_bookings db) (learner_test_bookings_booking_id_seq db).

Definition set_user_security_answers (db : DB) (rows : list UserSecurityAnswer.row) (seq : Z) : DB :=
  mkDB (users db) (users_id_seq db)
       (security_questions db) (security_questions_id_seq db)
       rows seq
       (station db) (station_station_id_seq db)
       (learner_profiles db) (instructor_profile db)
       (learner_test_bookings db) (learner_test_bookings_booking_id_seq db).

Definition set_station (db : DB) (rows : list Station.row) (seq : Z) : DB :=
  mkDB (users db) (users_id_seq db)
       (security_questions db) (security_questions_id_seq db)
       (user_security_answers db) (user_security_answers_id_seq db)
       rows seq
       (learner_profiles db) (instructor_profile db)
       (learner_test_bookings db) (learner_test_bookings_booking_id_seq db).

Definition set_learner_test_bookings (db : DB) (rows : list LearnerTestBooking.row) (seq : Z) : DB :=
  mkDB (users db) (users_id_seq db)
       (security_questions db) (security_questions_id_seq db)
       (user_security_answers db) (user_security_answers_id_seq db)
       (station db) (station_station_id_seq db)
       (learner_profiles db) (instructor_profile db)
       rows seq.

(** ** Schemas (the request bodies of main.py) *)

(** [Literal["learner", "instructor", "admin", "super_admin"]] *)
Module Role.
Inductive t : Type := learner | instructor | admin | super_admin.
Definition str (r : t) : string :=
  match r with
  | learner => "learner"
  | instructor => "instructor"
  | admin => "admin"
  | super_admin => "super_admin"
  end.
End Role.

(** [Literal['passed', 'failed', 'absent', 'pending']] *)
Module Result.
Inductive t : Type := passed | failed | absent | pending.
Definition str (r : t) : string :=
  match r with
  | passed => "passed"
  | failed => "failed"
  | absent => "absent"
  | pending => "pending"
  end.
End Result.

Module UserCreate.
Record t : Type := mk {
  username : string;
  password : string;
  email : string;
  role : Role.t;
  is_active : bool
}.
End UserCreate.

Module LoginRequest.
Record t : Type := mk {
  username : string;
  password : string;
  role : string
}.
End LoginRequest.

(** A field of type [option] that is [None] was left out of the request;
    [dict(exclude_unset=True)] then has no entry for it. *)
Module LearnerTestBookingSchema.
Record t : Type := mk {
  booking_id : option Z;
  learner_id : Z;
  instructor_id : Z;
  station_id : Z;
  test_date : date;
  result : option Result.t;
  booking_date : option datetime;
  license_code : option string;
  registered_on : option datetime
}.
End LearnerTestBookingSchema.

Module SecurityAnswerCreate.
Record t : Type := mk {
  user_id : Z;
  question_id : Z;
  answer : string
}.
End SecurityAnswerCreate.

Module ResultUpdateSchema.
Record t : Type := mk {
  result : Result.t
}.
End ResultUpdateSchema.

(** ** Python helpers *)

(** [len(xs)] *)
Definition len {A : Type} (xs : list A) : Z := Z.of_nat (List.length xs).

(** A [dict] with string keys, in insertion order. *)
Definition dict (V : Type) : Type := list (string * V).

(** [k in d] *)
Definition dict_contains {V : Type} (d : dict V) (k : string) : bool :=
  existsb (fun kv => fst kv =? k)%string d.

(** [d[k]] for a dict of lists; the empty list stands for a missing key (the
    handlers only index the four keys the dict is built with, and
    [dict_append_keys] shows that appending keeps the keys). *)
Fixpoint dict_getitem {V : Type} (d : dict (list V)) (k : string) : list V :=
  match d with
  | [] => []
  | (k', v) :: d' => if (k' =? k)%string then v else dict_getitem d' k
  end.

(** [d[k].append(x)] *)
Fixpoint dict_append {V : Type} (d : dict (list V)) (k : string) (x : V) : dict (list V) :=
  match d with
  | [] => []
  | (k', v) :: d' =>
      if (k' =? k)%string then (k', v ++ [x]) :: d' else (k', v) :: dict_append d' k x
  end.

(** ** The database side: INSERT and UPDATE with the declared constraints *)

(** [users]: generated [id], [unique=True] on [username] and on [email]. *)
Definition insert_user (username password email role : string) (is_active : bool)
    (now : datetime) (db : DB) : outcome (User.row * DB) :=
  if existsb (fun u => User.username u =? username)%string (users db) then
    Raise (IntegrityError "users_username_key")
  else if existsb (fun u => User.email u =? email)%string (users db) then
    Raise (IntegrityError "users_email_key")
  else
    let row := User.mk (users_id_seq db) username password email role is_active now in
    Return (row, set_users db (users db ++ [row]) (users_id_seq db + 1)).

(** A text with a NUL byte is not sent to the server: the driver (psycopg2)
    raises [ValueError] while it builds the statement. *)
Fixpoint has_nul (s : string) : bool :=
  match s with
  | EmptyString => false
  | String c rest => Ascii.eqb c Ascii.zero || has_nul rest
  end.

(** An [Integer] column holds 32 bits; a larger value in an INSERT is
    refused with a [DataError] before a row is formed. *)
Definition fits_integer (z : Z) : bool :=
  (-2147483648 <=? z) && (z <=? 2147483647).

(** The catalog with one more question, keyed by the next value of the
    sequence: what an accepted INSERT leaves. *)
Definition append_security_question (question : string) (db : DB) : DB :=
  set_security_questions db
    (security_questions db ++ [SecurityQuestion.mk (security_questions_id_seq db) question])
    (security_questions_id_seq db + 1).

(** [security_questions]: generated [id], the primary key is the only
    constraint.  The INSERT draws the next value of the sequence, which stays
    drawn when the row is refused. *)
Definition insert_security_question (question : string) (db : DB) : DB * outcome unit :=
  if existsb (fun r => SecurityQuestion.id r =? security_questions_id_seq db)
             (security_questions db) then
    (set_security_questions db (security_questions db) (security_questions_id_seq db + 1),
     Raise (IntegrityError "security_questions_pkey"))
  else
    (append_security_question question db, Return tt).

(** The stations with one more, keyed by the next value of the sequence: what
    an accepted INSERT leaves. *)
Definition append_station (name : string) (num_grounds : Z) (db : DB) : DB :=
  set_station db
    (station db ++ [Station.mk (station_station_id_seq db) name num_grounds])
    (station_station_id_seq db + 1).

(** [station]: generated [station_id], the primary key is the only
    constraint (a station may have been stored under an id of the client's
    choice, which the sequence knows nothing of). *)
Definition insert_station (name : string) (num_grounds : Z) (db : DB) : DB * outcome unit :=
  if existsb (fun s => Station.station_id s =? station_station_id_seq db) (station db) then
    (set_station db (station db) (station_station_id_seq db + 1),
     Raise (IntegrityError "station_pkey"))
  else
    (append_station name num_grounds db, Return tt).

(** [user_security_answers]: generated [id], foreign keys to [users.id] and
    [security_questions.id], and [UniqueConstraint("user_id", "question_id",
    name="unique_question_per_user")].  The unique index is checked when the
    row is inserted, the foreign keys after it; a refused row has drawn its
    id from the sequence all the same. *)
Definition insert_security_answer (user_id question_id : Z) (answer_hash : string)
    (now : datetime) (db : DB) : DB * outcome unit :=
  if negb (fits_integer user_id && fits_integer question_id) then
    (db, Raise (DataError "integer out of range"))
  else
    let refused :=
      set_user_security_answers db (user_security_answers db)
        (user_security_answers_id_seq db + 1) in
    if existsb (fun a => (UserSecurityAnswer.user_id a =? user_id)
                         && (UserSecurityAnswer.question_id a =? question_id))
               (user_security_answers db) then
      (refused, Raise (IntegrityError "unique_question_per_user"))
    else if negb (existsb (fun u => User.id u =? user_id) (users db)) then
      (refused, Raise (IntegrityError "user_security_answers_user_id_fkey"))
    else if negb (existsb (fun q => SecurityQuestion.id q =? question_id)
                          (security_questions db)) then
      (refused, Raise (IntegrityError "user_security_answers_question_id_fkey"))
    else
      let row := UserSecurityAnswer.mk (user_security_answers_id_seq db)
                   user_id question_id answer_hash now in
      (set_user_security_answers db (user_security_answers db ++ [row])
         (user_security_answers_id_seq db + 1),
       Return tt).

(** The row that the [LearnerTestBooking] built from
    [booking.dict(exclude_unset=True)] becomes once flushed: a field that was
    left out takes the column's default
    ([booking_id] from the sequence, [result] "pending", the two timestamps
    [utcnow], [license_code] NULL). *)
Definition booking_row (booking : LearnerTestBookingSchema.t) (seq : Z) (now : datetime)
    : LearnerTestBooking.row :=
  LearnerTestBooking.mk
    (match LearnerTestBookingSchema.booking_id booking with Some i => i | None => seq end)
    (LearnerTestBookingSchema.learner_id booking)
    (LearnerTestBookingSchema.instructor_id booking)
    (LearnerTestBookingSchema.station_id booking)
    (LearnerTestBookingSchema.test_date booking)
    (match LearnerTestBookingSchema.result booking with
     | Some r => Result.str r
     | None => "pending"
     end)
    (match LearnerTestBookingSchema.booking_date booking with Some d => d | None => now end)
    (LearnerTestBookingSchema.license_code booking)
    (match LearnerTestBookingSchema.registered_on booking with Some d => d | None => now end).

(** The one free text of the request can be sent. *)
Definition booking_sendable (booking : LearnerTestBookingSchema.t) : bool :=
  match LearnerTestBookingSchema.license_code booking with
  | Some code => negb (has_nul code)
  | None => true
  end.

(** The integers of the request fit their columns. *)
Definition booking_fits (booking : LearnerTestBookingSchema.t) : bool :=
  match LearnerTestBookingSchema.booking_id booking with
  | Some i => fits_integer i
  | None => true
  end
  && fits_integer (LearnerTestBookingSchema.learner_id booking)
  && fits_integer (LearnerTestBookingSchema.instructor_id booking)
  && fits_integer (LearnerTestBookingSchema.station_id booking).

(** The sequence after the INSERT: a generated id is drawn whether the row is
    then accepted or refused. *)
Definition booking_seq_after (booking : LearnerTestBookingSchema.t) (db : DB) : Z :=
  match LearnerTestBookingSchema.booking_id booking with
  | Some _ => learner_test_bookings_booking_id_seq db
  | None => learner_test_bookings_booking_id_seq db + 1
  end.

(** [learner_test_bookings]: primary key [booking_id] (generated unless the
    request carries one), foreign keys to [learner_profiles.user_id],
    [instructor_profile.user_id] and [station.station_id]. *)
Definition insert_booking (booking : LearnerTestBookingSchema.t) (now : datetime) (db : DB)
    : DB * outcome LearnerTestBooking.row :=
  if negb (booking_sendable booking) then
    (db, Raise (PythonError "ValueError"))
  else if negb (booking_fits booking) then
    (db, Raise (DataError "integer out of range"))
  else
    let row := booking_row booking (learner_test_bookings_booking_id_seq db) now in
    let refused :=
      set_learner_test_bookings db (learner_test_bookings db) (booking_seq_after booking db) in
    if existsb (fun b => LearnerTestBooking.booking_id b =? LearnerTestBooking.booking_id row)
               (learner_test_bookings db) then
      (refused, Raise (IntegrityError "learner_test_bookings_pkey"))
    else if negb (existsb (Z.eqb (LearnerTestBooking.learner_id row)) (learner_profiles db)) then
      (refused, Raise (IntegrityError "learner_test_bookings_learner_id_fkey"))
    else if negb (existsb (Z.eqb (LearnerTestBooking.instructor_id row))
                          (instructor_profile db)) then
      (refused, Raise (IntegrityError "learner_test_bookings_instructor_id_fkey"))
    else if negb (existsb (fun s => Station.station_id s =? LearnerTestBooking.station_id row)
                          (station db)) then
      (refused, Raise (IntegrityError "learner_test_bookings_station_id_fkey"))
    else
      (set_learner_test_bookings db (learner_test_bookings db ++ [row])
         (booking_seq_after booking db),
       Return row).

(** [booking.result = value] followed by [db.commit()]: the UPDATE of the row
    that [.first()] returned. *)
Definition set_result (value : string) (b : LearnerTestBooking.row) : LearnerTestBooking.row :=
  LearnerTestBooking.mk
    (LearnerTestBooking.booking_id b) (LearnerTestBooking.learner_id b)
    (LearnerTestBooking.instructor_id b) (LearnerTestBooking.station_id b)
    (LearnerTestBooking.test_date b) value (LearnerTestBooking.booking_date b)
    (LearnerTestBooking.license_code b) (LearnerTestBooking.registered_on b).

Fixpoint update_first {A : Type} (p : A -> bool) (f : A -> A) (rows : list A) : list A :=
  match rows with
  | [] => []
  | r :: rows' => if p r then f r :: rows' else r :: update_first p f rows'
  end.

(** ** Response bodies *)

(** What [login] returns. *)
Module Identity.
Record t : Type := mk {
  userid : Z;
  username : string;
  role : string;
  email : string
}.
End Identity.

(** What [update_test_result] returns. *)
Module ResultUpdated.
Record t : Type := mk {
  message : string;
  booking_id : Z;
  result : string
}.
End ResultUpdated.

(** One entry of a bucket of [get_all_results_by_date]. *)
Module ResultEntry.
Record t : Type := mk {
  booking_id : Z;
  learner_id : Z;
  instructor_id : Z;
  result : string;
  license_code : option string;
  test_date : date;
  booking_date : datetime
}.
End ResultEntry.

(** What [get_all_results_by_date] returns. *)
Module ResultsByDate.
Record t : Type := mk {
  date_ : string;
  total_bookings : Z;
  results : dict (list ResultEntry.t);
  summary : dict Z
}.
End ResultsByDate.

(** ** Handlers *)

Section Handlers.

(** The credential store: [pwd_context] of passlib, bcrypt scheme.  Hashing
    draws a fresh salt, which is an explicit argument here.  Verifying answers
    [True] or [False], or raises (passlib does for a password with a NUL byte
    and for a stored text in which it recognises no hash). *)
Variable pwd_context_hash : string -> string -> string.
Variable pwd_context_verify : string -> string -> outcome bool.

(** The server's reading of a text as a [Date]: the queries compare the
    [test_date] column with the path parameter, a [str], which PostgreSQL
    reads as a date first.  [None] is a text it cannot read. *)
Variable date_in : string -> option date.

(** What becomes of the path parameter of a query by date: the driver
    refuses a text with a NUL byte, the server one that it cannot read as a
    date. *)
Definition date_parameter (text : string) : outcome date :=
  if has_nul text then Raise (PythonError "ValueError")
  else match date_in text with
       | Some day => Return day
       | None => Raise (DataError "invalid input syntax for type date")
       end.

Definition verify_password (plain_password hashed_password : string) : outcome bool :=
  pwd_context_verify plain_password hashed_password.

Definition get_password_hash (salt password : string) : string :=
  pwd_context_hash salt password.

(** The body of [login], inside its [try].  A username with a NUL byte never
    reaches the server: the driver raises [ValueError] on the query.  No
    stored username has a NUL byte (the column cannot hold one), so this is a
    case of a username that is not found. *)
Definition login_try (req : LoginRequest.t) (db : DB) : outcome Identity.t :=
  match find (fun u => User.username u =? LoginRequest.username req)%string (users db) with
  | None =>
      if has_nul (LoginRequest.username req) then Raise (PythonError "ValueError")
      else Raise (HTTPException 401 "Invalid credentials")
  | Some user =>
      match verify_password (LoginRequest.password req) (User.password user) with
      | Raise e => Raise e
      | Return verified =>
          if negb verified then
            Raise (HTTPException 401 "Invalid credentials")
          else if negb (existsb (String.eqb (User.role user))
                                ["instructor"; "admin"; "super_admin"]) then
            Raise (HTTPException 403
                     "Only instructors, admins, and super admins can access this application")
          else if negb (User.is_active user) then
            Raise (HTTPException 403 "User inactive")
          else
            Return (Identity.mk (User.id user) (User.username user) (User.role user)
                      (User.email user))
      end
  end.

(** [login]: an [HTTPException] is raised again as it is, any other
    exception becomes a 500. *)
Definition login (req : LoginRequest.t) (db : DB) : outcome Identity.t :=
  match login_try req db with
  | Return identity => Return identity
  | Raise (HTTPException status_code detail) => Raise (HTTPException status_code detail)
  | Raise _ => Raise (HTTPException 500 "Internal Server Error")
  end.

Definition create_user (salt : string) (now : datetime) (user : UserCreate.t) (db : DB)
    : DB * outcome User.row :=
  if existsb (fun u => (User.username u =? UserCreate.username user)%string
                       || (User.email u =? UserCreate.email user)%string) (users db) then
    (db, Raise (HTTPException 400 "Username or email already exists"))
  else
    let hashed_password := get_password_hash salt (UserCreate.password user) in
    match insert_user (UserCreate.username user) hashed_password (UserCreate.email user)
            (Role.str (UserCreate.role user)) (UserCreate.is_active user) now db with
    | Return (db_user, db') => (db', Return db_user)
    | Raise e => (db, Raise e)
    end.

(** The [db_user] that [create_user] adds and, once refreshed, returns. *)
Definition created_user (salt : string) (now : datetime) (user : UserCreate.t) (db : DB)
    : User.row :=
  User.mk (users_id_seq db) (UserCreate.username user)
    (get_password_hash salt (UserCreate.password user))
    (UserCreate.email user) (Role.str (UserCreate.role user))
    (UserCreate.is_active user) now.

Definition create_test_booking (now : datetime) (booking : LearnerTestBookingSchema.t)
    (db : DB) : DB * outcome LearnerTestBookingSchema.t :=
  match insert_booking booking now db with
  | (db', Return _) => (db', Return booking)
  | (db', Raise e) => (db', Raise e)
  end.

(** The row that [create_test_booking] adds. *)
Definition created_booking (now : datetime) (booking : LearnerTestBookingSchema.t) (db : DB)
    : LearnerTestBooking.row :=
  booking_row booking (learner_test_bookings_booking_id_seq db) now.

Definition update_test_result (booking_id : Z) (result_update : ResultUpdateSchema.t)
    (db : DB) : DB * outcome ResultUpdated.t :=
  let has_id := fun b => LearnerTestBooking.booking_id b =? booking_id in
  match find has_id (learner_test_bookings db) with
  | None => (db, Raise (HTTPException 404 "Booking not found"))
  | Some _ =>
      let value := Result.str (ResultUpdateSchema.result result_update) in
      (set_learner_test_bookings db
         (update_first has_id (set_result value) (learner_test_bookings db))
         (learner_test_bookings_booking_id_seq db),
       Return (ResultUpdated.mk ("Test result updated to " ++ value)%string booking_id value))
  end.

Definition get_test_booking (booking_id : Z) (db : DB) : outcome LearnerTestBooking.row :=
  match find (fun b => LearnerTestBooking.booking_id b =? booking_id)
             (learner_test_bookings db) with
  | None => Raise (HTTPException 404 "Booking not found")
  | Some booking => Return booking
  end.

Definition get_bookings_by_learner (learner_id : Z) (db : DB)
    : outcome (list LearnerTestBooking.row) :=
  let bookings := filter (fun b => LearnerTestBooking.learner_id b =? learner_id)
                         (learner_test_bookings db) in
  match bookings with
  | [] => Raise (HTTPException 404 "No bookings found for this learner")
  | _ :: _ => Return bookings
  end.

Definition get_pending_learners (date : string) (db : DB)
    : outcome (list LearnerTestBooking.row) :=
  match date_parameter date with
  | Raise e => Raise e
  | Return day =>
      let pending_bookings :=
        filter (fun b => (LearnerTestBooking.test_date b =? day)%string
                         && (LearnerTestBooking.result b =? "pending")%string)
               (learner_test_bookings db) in
      Return pending_bookings
  end.

Definition get_completed_learners (date : string) (db : DB)
    : outcome (list LearnerTestBooking.row) :=
  match date_parameter date with
  | Raise e => Raise e
  | Return day =>
      let completed_bookings :=
        filter (fun b => (LearnerTestBooking.test_date b =? day)%string
                         && negb (LearnerTestBooking.result b =? "pending")%string)
               (learner_test_bookings db) in
      Return completed_bookings
  end.

(** The dict appended to a bucket for [booking]. *)
Definition result_entry (booking : LearnerTestBooking.row) : ResultEntry.t :=
  ResultEntry.mk
    (LearnerTestBooking.booking_id booking) (LearnerTestBooking.learner_id booking)
    (LearnerTestBooking.instructor_id booking) (LearnerTestBooking.result booking)
    (LearnerTestBooking.license_code booking) (LearnerTestBooking.test_date booking)
    (LearnerTestBooking.booking_date booking).

(** One turn of the loop [for booking in all_bookings]. *)
Definition group_booking (results_summary : dict (list ResultEntry.t))
    (booking : LearnerTestBooking.row) : dict (list ResultEntry.t) :=
  let result_status := LearnerTestBooking.result booking in
  if dict_contains results_summary result_status then
    dict_append results_summary result_status (result_entry booking)
  else results_summary.

Definition get_all_results_by_date (date : string) (db : DB) : outcome ResultsByDate.t :=
  match date_parameter date with
  | Raise e => Raise e
  | Return day =>
      let all_bookings :=
        filter (fun b => (LearnerTestBooking.test_date b =? day)%string)
               (learner_test_bookings db) in
      let results_summary :=
        fold_left group_booking all_bookings
          [("pending", []); ("passed", []); ("failed", []); ("absent", [])] in
      Return (ResultsByDate.mk date (len all_bookings) results_summary
                [("pending", len (dict_getitem results_summary "pending"));
                 ("passed", len (dict_getitem results_summary "passed"));
                 ("failed", len (dict_getitem results_summary "failed"));
                 ("absent", len (dict_getitem results_summary "absent"))])
  end.

Definition create_security_answer (salt : string) (now : datetime)
    (answer : SecurityAnswerCreate.t) (db : DB) : DB * outcome string :=
  let hashed := get_password_hash salt (SecurityAnswerCreate.answer answer) in
  match insert_security_answer (SecurityAnswerCreate.user_id answer)
          (SecurityAnswerCreate.question_id answer) hashed now db with
  | (db', Return _) => (db', Return "Answer saved")
  | (db', Raise e) => (db', Raise e)
  end.

(** The [db_answer] that [create_security_answer] adds. *)
Definition created_answer (salt : string) (now : datetime) (answer : SecurityAnswerCreate.t)
    (db : DB) : UserSecurityAnswer.row :=
  UserSecurityAnswer.mk (user_security_answers_id_seq db)
    (SecurityAnswerCreate.user_id answer) (SecurityAnswerCreate.question_id answer)
    (get_password_hash salt (SecurityAnswerCreate.answer answer)) now.

(** Some stored answer is for this user and this question. *)
Definition answered (user_id question_id : Z) (db : DB) : bool :=
  existsb (fun a => (UserSecurityAnswer.user_id a =? user_id)
                    && (UserSecurityAnswer.question_id a =? question_id))
          (user_security_answers db).

Definition get_security_answers_by_user (user_id : Z) (db : DB)
    : outcome (list UserSecurityAnswer.row) :=
  let answers := filter (fun a => UserSecurityAnswer.user_id a =? user_id)
                        (user_security_answers db) in
  match answers with
  | [] => Raise (HTTPException 404 "Answers not found")
  | _ :: _ => Return answers
  end.

Definition default_qs : list string :=
  ["What is the name of your first pet?";
   "What was the model of your first car?";
   "In what city were you born?";
   "What is your mother's maiden name?";
   "What is the name of the street you grew up?";
   "What is the name of your primary school?"].

(** The question texts of the catalog, in table order. *)
Definition question_texts (db : DB) : list string :=
  map SecurityQuestion.question (security_questions db).

(** What is left when a session ends without its commit: the rows are those
    of [before] again, the values that the session drew from the sequences
    stay drawn. *)
Definition rollback (before session : DB) : DB :=
  mkDB (users before) (users_id_seq session)
       (security_questions before) (security_questions_id_seq session)
       (user_security_answers before) (user_security_answers_id_seq session)
       (station before) (station_station_id_seq session)
       (learner_profiles before) (instructor_profile before)
       (learner_test_bookings before) (learner_test_bookings_booking_id_seq session).

(** One turn of the loop [for q in default_qs], on what the session sees and
    what the loop has raised so far.  Each query first flushes the row added
    in the turn before (autoflush), the commit flushes the last one: every row
    is inserted before the next text is looked up, and a refused row ends the
    loop. *)
Definition add_question_if_absent (session : DB * outcome unit) (q : string)
    : DB * outcome unit :=
  match session with
  | (db, Raise e) => (db, Raise e)
  | (db, Return _) =>
      if existsb (fun r => SecurityQuestion.question r =? q)%string (security_questions db)
      then (db, Return tt)
      else insert_security_question q db
  end.

(** The startup hook of main.py: the loop, then the commit.  The hook catches
    nothing, so a refused row leaves it as the [IntegrityError], with nothing
    committed. *)
Definition insert_default_questions (db : DB) : DB * outcome unit :=
  match fold_left add_question_if_absent default_qs (db, Return tt) with
  | (db', Return _) => (db', Return tt)
  | (db', Raise e) => (rollback db db', Raise e)
  end.

Definition default_stations : list (string * Z) :=
  [("Main Station", 5); ("North Station", 3); ("South Station", 4);
   ("East Station", 2); ("West Station", 3)].

(** One turn of the loop [for station_data in default_stations]. *)
Definition add_station_if_absent (session : DB * outcome unit) (station_data : string * Z)
    : DB * outcome unit :=
  match session with
  | (db, Raise e) => (db, Raise e)
  | (db, Return _) =>
      if existsb (fun s => Station.name s =? fst station_data)%string (station db)
      then (db, Return tt)
      else insert_station (fst station_data) (snd station_data) db
  end.

Definition default_questions : list string :=
  ["What is the name of your first pet?";
   "What was the model of your first car?";
   "In what city were you born?";
   "What is your mother's maiden name?";
   "What is the name of the street you grew up?";
   "What is the name of your primary school?"].

(** [init_database] of init_db.py, on a server that is reached and has its
    tables: the stations, then the questions, then one commit.  A refused row
    ends the loops; the inner handler rolls back and raises again, the outer
    one ends the process with [sys.exit(1)]. *)
Definition init_database (db : DB) : DB * outcome unit :=
  match fold_left add_question_if_absent default_questions
          (fold_left add_station_if_absent default_stations (db, Return tt)) with
  | (db', Return _) => (db', Return tt)
  | (db', Raise _) => (rollback db db', Raise (PythonError "SystemExit"))
  end.

(** The loops when no row is refused: one turn for a question, one for a
    station, and the six questions in a row.  The properties of the seeding
    are derived from these. *)
Definition seed_question (db : DB) (q : string) : DB :=
  if existsb (fun r => SecurityQuestion.question r =? q)%string (security_questions db)
  then db
  else append_security_question q db.

Definition seed_station (db : DB) (station_data : string * Z) : DB :=
  if existsb (fun s => Station.name s =? fst station_data)%string (station db)
  then db
  else append_station (fst station_data) (snd station_data) db.

Definition seed_questions (db : DB) : DB :=
  fold_left seed_question default_qs db.

(** Every key of the table was drawn from its sequence. *)
Definition question_ids_drawn (db : DB) : Prop :=
  Forall (fun r => SecurityQuestion.id r < security_questions_id_seq db)
         (security_questions db).

Definition station_ids_drawn (db : DB) : Prop :=
  Forall (fun s => Station.station_id s < station_station_id_seq db) (station db).

End Handlers.

(** ** Sample data *)

Module Sample.

(** A stand-in for bcrypt with the same shape: a fixed prefix, a salt of 22
    characters, then the digest (here the secret itself). *)
Definition bcrypt_hash (salt secret : string) : string :=
  ("$2b$12$" ++ salt ++ secret)%string.

(** Verifying as passlib does it: a stored text that is no bcrypt hash is not
    identified, a secret with a NUL byte is refused; both are raised as
    subclasses of [ValueError]. *)
Definition bcrypt_verify (secret hashed : string) : outcome bool :=
  if negb (prefix "$2b$12$" hashed) then Raise (PythonError "ValueError")
  else if has_nul secret then Raise (PythonError "ValueError")
  else Return (hashed =? bcrypt_hash (substring 7 22 hashed) secret)%string.

(** A text with a NUL byte in it. *)
Definition nul_text : string := String "p"%char (String Ascii.zero "w").

(** The server's reading of dates, on the spellings used below: ISO with and
    without leading zeros and without dashes.  Every other text stands for
    one that the server cannot read. *)
Definition date_in (text : string) : option date :=
  if existsb (String.eqb text) ["2024-05-01"; "2024-5-1"; "20240501"] then Some "2024-05-01"
  else if existsb (String.eqb text) ["2024-05-02"; "2024-5-2"; "20240502"] then Some "2024-05-02"
  else if existsb (String.eqb text) ["2024-06-01"; "2024-6-1"; "20240601"] then Some "2024-06-01"
  else None.

Definition salt1 : string := "N9qo8uLOickgx2ZMRZoMye".
Definition salt2 : string := "IjZAgcfl7p92ldGxad68LJ".

Definition alice : User.row :=
  User.mk 1 "alice" (bcrypt_hash salt1 "wonderland") "alice@example.org" "instructor" true 100.
Definition bob : User.row :=
  User.mk 2 "bob" (bcrypt_hash salt2 "builder") "bob@example.org" "learner" true 110.
Definition carol : User.row :=
  User.mk 3 "carol" (bcrypt_hash salt1 "singer") "carol@example.org" "admin" false 120.

Definition main_station : Station.row := Station.mk 1 "Main Station" 5.

(** Three users, one station, learner profile 2, instructor profile 1, no
    question, answer or booking yet. *)
Definition db0 : DB :=
  mkDB [alice; bob; carol] 4
       [] 1
       [] 1
       [main_station] 2
       [2] [1]
       [] 1.

(** A booking request that leaves out every optional field. *)
Definition booking_request (test_date : date) : LearnerTestBookingSchema.t :=
  LearnerTestBookingSchema.mk None 2 1 1 test_date None None None None.

(** A booking request with an explicit result. *)
Definition booking_request_with (test_date : date) (r : Result.t)
    : LearnerTestBookingSchema.t :=
  LearnerTestBookingSchema.mk None 2 1 1 test_date (Some r) None None None.

(** [db0] once the startup hook has run. *)
Definition db_seeded : DB := fst (insert_default_questions db0).

(** Alice's answer to the first question, and the database once it is
    recorded. *)
Definition first_pet : SecurityAnswerCreate.t := SecurityAnswerCreate.mk 1 1 "Rex".
Definition db_answered : DB :=
  fst (create_security_answer bcrypt_hash salt1 300 first_pet db_seeded).

(** [db0] with one booking for 1 May 2024, created at time 1000. *)
Definition db_booked : DB :=
  fst (create_test_booking 1000 (booking_request "2024-05-01") db0).

(** Bookings for 1 May 2024: two pending, one passed, one absent; and one
    failed booking for the day after. *)
Definition db_results : DB :=
  fold_left (fun db booking => fst (create_test_booking 1000 booking db))
    [booking_request "2024-05-01";
     booking_request_with "2024-05-01" Result.passed;
     booking_request_with "2024-05-02" Result.failed;
     booking_request_with "2024-05-01" Result.absent;
     booking_request_with "2024-05-01" Result.pending]
    db0.

(** A catalog that already has one default question and one of its own. *)
Definition db_catalog : DB :=
  set_security_questions db0
    [SecurityQuestion.mk 1 "In what city were you born?";
     SecurityQuestion.mk 2 "What is your favourite colour?"]
    3.


(** [db0] with a second station, stored under an id of the client's choice
    (a station request may carry its [station_id]), which the sequence has
    yet to issue. *)
Definition db_foreign_station : DB :=
  set_station db0 [main_station; Station.mk 2 "Depot" 1] 2.


End Sample.

(** ** The other handlers of the users table *)

(** What [update_user_is_active] and [get_user_is_active] return. *)
Module UserIsActive.
Record t : Type := mk {
  id : Z;
  is_active : bool
}.
End UserIsActive.

(** [setattr(existing_user, field, value)] for the five fields of
    [user.dict()]; [id] and [created_at] are not among them. *)
Definition set_user_fields (username password email role : string) (is_active : bool)
    (u : User.row) : User.row :=
  User.mk (User.id u) username password email role is_active (User.created_at u).

(** [setattr(existing_user, "is_active", value)] *)
Definition set_is_active (value : bool) (u : User.row) : User.row :=
  User.mk (User.id u) (User.username u) (User.password u) (User.email u) (User.role u)
    value (User.created_at u).

(** The UPDATE of the user row with key [user_id]: the unique constraints on
    [username] and [email] are checked against the other rows. *)
Definition update_user_row (user_id : Z) (row : User.row) (db : DB) : outcome DB :=
  if existsb (fun u => (User.username u =? User.username row)%string
                       && negb (User.id u =? user_id)) (users db) then
    Raise (IntegrityError "users_username_key")
  else if existsb (fun u => (User.email u =? User.email row)%string
                            && negb (User.id u =? user_id)) (users db) then
    Raise (IntegrityError "users_email_key")
  else
    Return (set_users db
              (update_first (fun u => User.id u =? user_id) (fun _ => row) (users db))
              (users_id_seq db)).

Section UserHandlers.

Variable pwd_context_hash : string -> string -> string.

Definition get_user_by_id (user_id : Z) (db : DB) : outcome User.row :=
  match find (fun u => User.id u =? user_id) (users db) with
  | None => Raise (HTTPException 404 "User not found")
  | Some user => Return user
  end.

Definition get_user_by_username (username : string) (db : DB) : outcome User.row :=
  match find (fun u => User.username u =? username)%string (users db) with
  | None => Raise (HTTPException 404 "User not found")
  | Some user => Return user
  end.

Definition update_user (salt : string) (user_id : Z) (user : UserCreate.t) (db : DB)
    : DB * outcome User.row :=
  match find (fun u => User.id u =? user_id) (users db) with
  | None => (db, Raise (HTTPException 404 "User not found"))
  | Some existing_user =>
      if existsb (fun u => ((User.username u =? UserCreate.username user)%string
                            || (User.email u =? UserCreate.email user)%string)
                           && negb (User.id u =? user_id)) (users db) then
        (db, Raise (HTTPException 400 "Username or email already exists"))
      else
        let hashed_password :=
          get_password_hash pwd_context_hash salt (UserCreate.password user) in
        let updated :=
          set_user_fields (UserCreate.username user) hashed_password (UserCreate.email user)
            (Role.str (UserCreate.role user)) (UserCreate.is_active user) existing_user in
        match update_user_row user_id updated db with
        | Return db' => (db', Return updated)
        | Raise e => (db, Raise e)
        end
  end.

Definition update_user_is_active (user_id : Z) (user_update : bool) (db : DB)
    : DB * outcome UserIsActive.t :=
  match find (fun u => User.id u =? user_id) (users db) with
  | None => (db, Raise (HTTPException 404 "User not found"))
  | Some existing_user =>
      (set_users db
         (update_first (fun u => User.id u =? user_id) (set_is_active user_update) (users db))
         (users_id_seq db),
       Return (UserIsActive.mk (User.id existing_user) user_update))
  end.

Definition get_user_is_active (user_id : Z) (db : DB) : outcome UserIsActive.t :=
  match find (fun u => User.id u =? user_id) (users db) with
  | None => Raise (HTTPException 404 "User not found")
  | Some existing_user =>
      Return (UserIsActive.mk (User.id existing_user) (User.is_active existing_user))
  end.

End UserHandlers.

(** ** The other handlers of the bookings, questions and answers tables *)

Definition get_all_test_bookings (db : DB) : outcome (list LearnerTestBooking.row) :=
  Return (learner_test_bookings db).

(** [setattr(existing, field, value)] for every field of
    [booking.dict(exclude_unset=True)]: the four required fields always, the
    others when the request carries them. *)
Definition set_booking_fields (booking : LearnerTestBookingSchema.t)
    (existing : LearnerTestBooking.row) : LearnerTestBooking.row :=
  LearnerTestBooking.mk
    (match LearnerTestBookingSchema.booking_id booking with
     | Some i => i
     | None => LearnerTestBooking.booking_id existing
     end)
    (LearnerTestBookingSchema.learner_id booking)
    (LearnerTestBookingSchema.instructor_id booking)
    (LearnerTestBookingSchema.station_id booking)
    (LearnerTestBookingSchema.test_date booking)
    (match LearnerTestBookingSchema.result booking with
     | Some r => Result.str r
     | None => LearnerTestBooking.result existing
     end)
    (match LearnerTestBookingSchema.booking_date booking with
     | Some d => d
     | None => LearnerTestBooking.booking_date existing
     end)
    (match LearnerTestBookingSchema.license_code booking with
     | Some c => Some c
     | None => LearnerTestBooking.license_code existing
     end)
    (match LearnerTestBookingSchema.registered_on booking with
     | Some d => d
     | None => LearnerTestBooking.registered_on existing
     end).

(** The UPDATE of the booking with key [booking_id]: a new key must be free,
    and the three foreign keys must point at rows. *)
Definition update_booking_row (booking_id : Z) (row : LearnerTestBooking.row) (db : DB)
    : outcome DB :=
  if negb (LearnerTestBooking.booking_id row =? booking_id)
     && existsb (fun b => LearnerTestBooking.booking_id b =? LearnerTestBooking.booking_id row)
                (learner_test_bookings db) then
    Raise (IntegrityError "learner_test_bookings_pkey")
  else if negb (existsb (Z.eqb (LearnerTestBooking.learner_id row)) (learner_profiles db)) then
    Raise (IntegrityError "learner_test_bookings_learner_id_fkey")
  else if negb (existsb (Z.eqb (LearnerTestBooking.instructor_id row)) (instructor_profile db)) then
    Raise (IntegrityError "learner_test_bookings_instructor_id_fkey")
  else if negb (existsb (fun s => Station.station_id s =? LearnerTestBooking.station_id row)
                        (station db)) then
    Raise (IntegrityError "learner_test_bookings_station_id_fkey")
  else
    Return (set_learner_test_bookings db
              (update_first (fun b => LearnerTestBooking.booking_id b =? booking_id)
                 (fun _ => row) (learner_test_bookings db))
              (learner_test_bookings_booking_id_seq db)).

Definition update_test_booking (booking_id : Z) (booking : LearnerTestBookingSchema.t)
    (db : DB) : DB * outcome LearnerTestBooking.row :=
  match find (fun b => LearnerTestBooking.booking_id b =? booking_id)
             (learner_test_bookings db) with
  | None => (db, Raise (HTTPException 404 "Booking not found"))
  | Some existing =>
      let updated := set_booking_fields booking existing in
      match update_booking_row booking_id updated db with
      | Return db' => (db', Return updated)
      | Raise e => (db, Raise e)
      end
  end.

(** [db.delete(booking)] followed by [db.commit()]: the DELETE by primary
    key.  No table refers to bookings. *)
Definition delete_test_booking (booking_id : Z) (db : DB) : DB * outcome string :=
  match find (fun b => LearnerTestBooking.booking_id b =? booking_id)
             (learner_test_bookings db) with
  | None => (db, Raise (HTTPException 404 "Booking not found"))
  | Some _ =>
      (set_learner_test_bookings db
         (filter (fun b => negb (LearnerTestBooking.booking_id b =? booking_id))
                 (learner_test_bookings db))
         (learner_test_bookings_booking_id_seq db),
       Return "Deleted"%string)
  end.

Definition get_question_by_id (question_id : Z) (db : DB) : outcome SecurityQuestion.row :=
  match find (fun q => SecurityQuestion.id q =? question_id) (security_questions db) with
  | None => Raise (HTTPException 404 "Question not found")
  | Some question => Return question
  end.

(** ** The profile tables and their handlers *)

Module UserProfile.
Record row : Type := mk {
  user_id : Z;
  name : string;
  surname : string;
  date_of_birth : date;
  gender : string;
  nationality : string;
  id_number : string;
  contact_number : string;
  physical_address : string;
  race : string
}.
End UserProfile.

Module InstructorProfile.
Record row : Type := mk {
  user_id : Z;
  inf_nr : string;
  station_id : Z
}.
End InstructorProfile.

Module LearnerProfile.
Record row : Type := mk {
  user_id : Z;
  test_booking_date : option date;
  learner_status : string;
  registered_on : datetime;
  license_code : option string
}.
End LearnerProfile.

Module UserProfileSchema.
Record t : Type := mk {
  user_id : Z;
  name : string;
  surname : string;
  date_of_birth : date;
  gender : string;
  nationality : string;
  id_number : string;
  contact_number : string;
  physical_address : string;
  race : string
}.
End UserProfileSchema.

Module InstructorProfileSchema.
Record t : Type := mk {
  user_id : Z;
  inf_nr : string;
  station_id : Z
}.
End InstructorProfileSchema.

(** The body as parsed: a field that was left out already holds its schema
    default, so [None] is an explicit null. *)
Module LearnerProfileSchema.
Record t : Type := mk {
  user_id : Z;
  learner_status : option string;
  test_booking_date : option date;
  registered_on : option datetime;
  license_code : option string
}.
End LearnerProfileSchema.

(** The database with the profile tables in full.  [core] keeps the key
    columns of [learner_profiles] and [instructor_profile] that the bookings
    refer to; the rows with all their columns are here, and every write
    below changes both. *)
Record FullDB : Type := mkFullDB {
  core : DB;
  user_profiles : list UserProfile.row;
  instructor_profile_rows : list InstructorProfile.row;
  learner_profile_rows : list LearnerProfile.row
}.

(** The key columns in [core] are those of the rows. *)
Definition coherent (fdb : FullDB) : Prop :=
  instructor_profile (core fdb) = map InstructorProfile.user_id (instructor_profile_rows fdb)
  /\ learner_profiles (core fdb) = map LearnerProfile.user_id (learner_profile_rows fdb).

Definition set_profile_keys (db : DB) (learners instructors : list Z) : DB :=
  mkDB (users db) (users_id_seq db)
       (security_questions db) (security_questions_id_seq db)
       (user_security_answers db) (user_security_answers_id_seq db)
       (station db) (station_station_id_seq db)
       learners instructors
       (learner_test_bookings db) (learner_test_bookings_booking_id_seq db).

Definition set_user_profiles (fdb : FullDB) (rows : list UserProfile.row) : FullDB :=
  mkFullDB (core fdb) rows (instructor_profile_rows fdb) (learner_profile_rows fdb).

Definition set_instructor_profile (fdb : FullDB) (rows : list InstructorProfile.row) : FullDB :=
  mkFullDB
    (set_profile_keys (core fdb) (learner_profiles (core fdb))
       (map InstructorProfile.user_id rows))
    (user_profiles fdb) rows (learner_profile_rows fdb).

Definition UserProfile_of (profile : UserProfileSchema.t) : UserProfile.row :=
  UserProfile.mk
    (UserProfileSchema.user_id profile) (UserProfileSchema.name profile)
    (UserProfileSchema.surname profile) (UserProfileSchema.date_of_birth profile)
    (UserProfileSchema.gender profile) (UserProfileSchema.nationality profile)
    (UserProfileSchema.id_number profile) (UserProfileSchema.contact_number profile)
    (UserProfileSchema.physical_address profile) (UserProfileSchema.race profile).

Definition InstructorProfile_of (profile : InstructorProfileSchema.t) : InstructorProfile.row :=
  InstructorProfile.mk
    (InstructorProfileSchema.user_id profile) (InstructorProfileSchema.inf_nr profile)
    (InstructorProfileSchema.station_id profile).

(** Every text of the row can be sent. *)
Definition profile_sendable (row : UserProfile.row) : bool :=
  negb (has_nul (UserProfile.name row) || has_nul (UserProfile.surname row)
        || has_nul (UserProfile.gender row) || has_nul (UserProfile.nationality row)
        || has_nul (UserProfile.id_number row) || has_nul (UserProfile.contact_number row)
        || has_nul (UserProfile.physical_address row) || has_nul (UserProfile.race row)).

(** [user_profiles]: primary key [user_id], which is also a foreign key to
    [users.id]; [unique=True] on [id_number].  The key is the client's, no
    sequence is involved.  The two indexes are checked when the row is
    inserted, the primary key first; the foreign key after that. *)
Definition insert_user_profile (row : UserProfile.row) (fdb : FullDB) : outcome FullDB :=
  if negb (profile_sendable row) then
    Raise (PythonError "ValueError")
  else if negb (fits_integer (UserProfile.user_id row)) then
    Raise (DataError "integer out of range")
  else if existsb (fun p => UserProfile.user_id p =? UserProfile.user_id row)
                  (user_profiles fdb) then
    Raise (IntegrityError "user_profiles_pkey")
  else if existsb (fun p => (UserProfile.id_number p =? UserProfile.id_number row)%string)
                  (user_profiles fdb) then
    Raise (IntegrityError "user_profiles_id_number_key")
  else if negb (existsb (fun u => User.id u =? UserProfile.user_id row) (users (core fdb))) then
    Raise (IntegrityError "user_profiles_user_id_fkey")
  else
    Return (set_user_profiles fdb (user_profiles fdb ++ [row])).

(** [instructor_profile]: primary key [user_id], which is also a foreign key
    to [user_profiles.user_id]; [unique=True] on [inf_nr]; foreign key to
    [station.station_id]. *)
Definition insert_instructor_profile (row : InstructorProfile.row) (fdb : FullDB)
    : outcome FullDB :=
  if existsb (fun p => InstructorProfile.user_id p =? InstructorProfile.user_id row)
             (instructor_profile_rows fdb) then
    Raise (IntegrityError "instructor_profile_pkey")
  else if negb (existsb (fun p => UserProfile.user_id p =? InstructorProfile.user_id row)
                        (user_profiles fdb)) then
    Raise (IntegrityError "instructor_profile_user_id_fkey")
  else if existsb (fun p => (InstructorProfile.inf_nr p =? InstructorProfile.inf_nr row)%string)
                  (instructor_profile_rows fdb) then
    Raise (IntegrityError "instructor_profile_inf_nr_key")
  else if negb (existsb (fun s => Station.station_id s =? InstructorProfile.station_id row)
                        (station (core fdb))) then
    Raise (IntegrityError "instructor_profile_station_id_fkey")
  else
    Return (set_instructor_profile fdb (instructor_profile_rows fdb ++ [row])).

Definition create_user_profile (profile : UserProfileSchema.t) (fdb : FullDB)
    : FullDB * outcome UserProfileSchema.t :=
  match insert_user_profile (UserProfile_of profile) fdb with
  | Return fdb' => (fdb', Return profile)
  | Raise e => (fdb, Raise e)
  end.

Definition get_user_profile (user_id : Z) (fdb : FullDB) : outcome UserProfile.row :=
  match find (fun p => UserProfile.user_id p =? user_id) (user_profiles fdb) with
  | None => Raise (HTTPException 404 "Profile not found")
  | Some profile => Return profile
  end.

Definition create_instructor_profile (profile : InstructorProfileSchema.t) (fdb : FullDB)
    : FullDB * outcome InstructorProfileSchema.t :=
  match find (fun p => UserProfile.user_id p =? InstructorProfileSchema.user_id profile)
             (user_profiles fdb) with
  | None => (fdb, Raise (HTTPException 404 "User profile not found"))
  | Some _ =>
      match find (fun s => Station.station_id s =? InstructorProfileSchema.station_id profile)
                 (station (core fdb)) with
      | None => (fdb, Raise (HTTPException 404 "Selected station does not exist"))
      | Some _ =>
          if existsb (fun p => InstructorProfile.user_id p
                               =? InstructorProfileSchema.user_id profile)
                     (instructor_profile_rows fdb) then
            (fdb, Raise (HTTPException 400 "Instructor profile already exists"))
          else if existsb (fun p => (InstructorProfile.inf_nr p
                                     =? InstructorProfileSchema.inf_nr profile)%string)
                          (instructor_profile_rows fdb) then
            (fdb, Raise (HTTPException 400 "Instructor number already exists"))
          else
            match insert_instructor_profile (InstructorProfile_of profile) fdb with
            | Return fdb' => (fdb', Return profile)
            | Raise e => (fdb, Raise e)
            end
      end
  end.

Definition get_instructor_profile (user_id : Z) (fdb : FullDB)
    : outcome InstructorProfile.row :=
  match find (fun p => InstructorProfile.user_id p =? user_id) (instructor_profile_rows fdb) with
  | None => Raise (HTTPException 404 "Instructor profile not found")
  | Some profile => Return profile
  end.



(** The DELETE of the instructor profile with key [user_id]: the foreign key
    of [learner_test_bookings.instructor_id] has no ON DELETE action, so a
    profile that a booking refers to stays. *)
Definition delete_instructor_profile_row (user_id : Z) (fdb : FullDB) : outcome FullDB :=
  if existsb (fun b => LearnerTestBooking.instructor_id b =? user_id)
             (learner_test_bookings (core fdb)) then
    Raise (IntegrityError "learner_test_bookings_instructor_id_fkey")
  else
    Return (set_instructor_profile fdb
              (filter (fun p => negb (InstructorProfile.user_id p =? user_id))
                      (instructor_profile_rows fdb))).


Definition delete_instructor_profile (user_id : Z) (fdb : FullDB) : FullDB * outcome string :=
  match find (fun p => InstructorProfile.user_id p =? user_id) (instructor_profile_rows fdb) with
  | None => (fdb, Raise (HTTPException 404 "Instructor profile not found"))
  | Some _ =>
      match delete_instructor_profile_row user_id fdb with
      | Return fdb' => (fdb', Return "Deleted"%string)
      | Raise e => (fdb, Raise e)
      end
  end.

(** The DELETE of the user profile with key [user_id]: the instructor profile
    of that user goes with it (ON DELETE CASCADE), unless a booking refers
    to it. *)
Definition delete_user_profile_row (user_id : Z) (fdb : FullDB) : outcome FullDB :=
  if existsb (fun p => InstructorProfile.user_id p =? user_id) (instructor_profile_rows fdb)
     && existsb (fun b => LearnerTestBooking.instructor_id b =? user_id)
                (learner_test_bookings (core fdb)) then
    Raise (IntegrityError "learner_test_bookings_instructor_id_fkey")
  else
    Return (set_user_profiles
              (set_instructor_profile fdb
                 (filter (fun p => negb (InstructorProfile.user_id p =? user_id))
                         (instructor_profile_rows fdb)))
              (filter (fun p => negb (UserProfile.user_id p =? user_id)) (user_profiles fdb))).

Definition delete_user_profile (user_id : Z) (fdb : FullDB) : FullDB * outcome string :=
  match find (fun p => UserProfile.user_id p =? user_id) (user_profiles fdb) with
  | None => (fdb, Raise (HTTPException 404 "Profile not found"))
  | Some _ =>
      match delete_user_profile_row user_id fdb with
      | Return fdb' => (fdb', Return "Deleted"%string)
      | Raise e => (fdb, Raise e)
      end
  end.

(** Writes [learner_profiles] and, with it, the bookings table. *)
Definition set_learner_profile (fdb : FullDB) (rows : list LearnerProfile.row)
    (bookings : list LearnerTestBooking.row) : FullDB :=
  mkFullDB
    (set_learner_test_bookings
       (set_profile_keys (core fdb) (map LearnerProfile.user_id rows)
          (instructor_profile (core fdb)))
       bookings (learner_test_bookings_booking_id_seq (core fdb)))
    (user_profiles fdb) (instructor_profile_rows fdb) rows.




Definition get_learner_profile (user_id : Z) (fdb : FullDB) : outcome LearnerProfile.row :=
  match find (fun p => LearnerProfile.user_id p =? user_id) (learner_profile_rows fdb) with
  | None => Raise (HTTPException 404 "Profile not found")
  | Some profile => Return profile
  end.

(** [delete_learner_profile]: the bookings of the learner go with the
    profile (ON DELETE CASCADE on [learner_test_bookings.learner_id]). *)
Definition delete_learner_profile (user_id : Z) (fdb : FullDB) : FullDB * outcome string :=
  match find (fun p => LearnerProfile.user_id p =? user_id) (learner_profile_rows fdb) with
  | None => (fdb, Raise (HTTPException 404 "Profile not found"))
  | Some _ =>
      (set_learner_profile fdb
         (filter (fun p => negb (LearnerProfile.user_id p =? user_id))
                 (learner_profile_rows fdb))
         (filter (fun b => negb (LearnerTestBooking.learner_id b =? user_id))
                 (learner_test_bookings (core fdb))),
       Return "Deleted"%string)
  end.

(** ** Sample data with profiles *)

Module SampleProfiles.

Definition alice_profile : UserProfile.row :=
  UserProfile.mk 1 "Alice" "Liddell" "1990-05-04" "F" "ZA" "9005040000001"
    "0820000001" "1 Rabbit Hole" "n/a".
Definition bob_profile : UserProfile.row :=
  UserProfile.mk 2 "Bob" "Builder" "2001-02-03" "M" "ZA" "0102030000002"
    "0820000002" "2 Brick Lane" "n/a".

(** Profiles for [Sample.db0]: user profiles for alice and bob, alice an
    instructor at station 1, bob a learner. *)
Definition fdb0 : FullDB :=
  mkFullDB Sample.db0
    [alice_profile; bob_profile]
    [InstructorProfile.mk 1 "INF-001" 1]
    [LearnerProfile.mk 2 None "pending" 50 None].

(** The same with bob's booking of [Sample.db_booked]. *)
Definition fdb_booked : FullDB :=
  mkFullDB Sample.db_booked
    [alice_profile; bob_profile]
    [InstructorProfile.mk 1 "INF-001" 1]
    [LearnerProfile.mk 2 None "pending" 50 None].

Definition carol_profile : UserProfileSchema.t :=
  UserProfileSchema.mk 3 "Carol" "Singer" "1985-12-24" "F" "ZA" "8512240000003"
    "0820000003" "3 Choir Street" "n/a".

Definition dave : UserCreate.t :=
  UserCreate.mk "dave" "hunter2" "dave@example.org" Role.admin true.

End SampleProfiles.

(** What the users table keeps: usernames, emails and ids are unique, and
    every id is below the next value of the sequence. *)
Definition users_well_formed (db : DB) : Prop :=
  NoDup (map User.username (users db))
  /\ NoDup (map User.email (users db))
  /\ NoDup (map User.id (users db))
  /\ forall u, In u (users db) -> User.id u < users_id_seq db.

(** ** Lists as tables: lookups by key *)

Lemma find_none_forall {A : Type} (p : A -> bool) (rows : list A) :
  (forall r, In r rows -> p r = false) -> find p rows = None.
Proof.
  induction rows as [|r rows IH]; intros H; simpl; [reflexivity|].
  rewrite (H r (or_introl eq_refl)). apply IH. intros r' Hr'. apply H. now right.
Qed.

Lemma find_unique_key {A K : Type} (key : A -> K) (eqb : K -> K -> bool)
    (eqb_eq : forall a b, eqb a b = true <-> a = b) (rows : list A) (r : A) :
  NoDup (map key rows) -> In r rows ->
  find (fun x => eqb (key x) (key r)) rows = Some r.
Proof.
  induction rows as [|x rows IH]; intros Hnd Hin; [destruct Hin|].
  simpl in Hnd. inversion Hnd as [|? ? Hnotin Hnd']; subst.
  simpl. destruct Hin as [->|Hin].
  - now rewrite (proj2 (eqb_eq (key r) (key r)) eq_refl).
  - destruct (eqb (key x) (key r)) eqn:E.
    + apply eqb_eq in E. exfalso. apply Hnotin. rewrite E. now apply in_map.
    + now apply IH.
Qed.

Lemma existsb_false_forall {A : Type} (p : A -> bool) (rows : list A) :
  existsb p rows = false <-> (forall r, In r rows -> p r = false).
Proof.
  split.
  - intros H r Hr. destruct (p r) eqn:E; [|reflexivity].
    rewrite <- H. symmetry. apply existsb_exists. now exists r.
  - intros H. destruct (existsb p rows) eqn:E; [|reflexivity].
    apply existsb_exists in E. destruct E as [r [Hr Hp]]. rewrite (H r Hr) in Hp. discriminate.
Qed.

Lemma existsb_eqb_In (s : string) (l : list string) :
  existsb (String.eqb s) l = true <-> In s l.
Proof.
  rewrite existsb_exists. split.
  - intros [x [Hx E]]. apply String.eqb_eq in E. now subst.
  - intros H. exists s. split; [assumption|apply String.eqb_refl].
Qed.

Lemma NoDup_snoc {A : Type} (l : list A) (a : A) :
  NoDup l -> ~ In a l -> NoDup (l ++ [a]).
Proof.
  intros Hl Ha. apply NoDup_app; [assumption|repeat constructor; intros []|].
  intros x Hx [<-|[]]. now apply Ha.
Qed.

(** ** login *)

Section LoginProperties.

Variable pwd_context_verify : string -> string -> outcome bool.
Variables (req : LoginRequest.t) (db : DB).

Lemma login_reraises (out : outcome Identity.t) :
  login_try pwd_context_verify req db = out ->
  match out with
  | Return _ | Raise (HTTPException _ _) => True
  | Raise _ => False
  end ->
  login pwd_context_verify req db = out.
Proof.
  unfold login. intros <- H.
  destruct (login_try pwd_context_verify req db) as [i|[code detail|c|d|n]];
    [reflexivity|reflexivity|destruct H..].
Qed.


Lemma login_known_username (user : User.row) :
  NoDup (map User.username (users db)) ->
  In user (users db) -> User.username user = LoginRequest.username req ->
  login_try pwd_context_verify req db =
    match verify_password pwd_context_verify (LoginRequest.password req)
            (User.password user) with
    | Raise e => Raise e
    | Return verified =>
        if negb verified
        then Raise (HTTPException 401 "Invalid credentials")
        else if negb (existsb (String.eqb (User.role user))
                              ["instructor"; "admin"; "super_admin"])
        then Raise (HTTPException 403
                      "Only instructors, admins, and super admins can access this application")
        else if negb (User.is_active user) then Raise (HTTPException 403 "User inactive")
        else Return (Identity.mk (User.id user) (User.username user) (User.role user)
                       (User.email user))
    end.
Proof.
  intros Hnd Hin Hname. unfold login_try. rewrite <- Hname.
  now rewrite (find_unique_key User.username String.eqb String.eqb_eq _ _ Hnd Hin).
Qed.




End LoginProperties.

(** ** create_user *)

Section CreateUserProperties.

Variable pwd_context_hash : string -> string -> string.

(** bcrypt never gives back the secret it was given. *)
Hypothesis pwd_context_hash_hides :
  forall salt secret, pwd_context_hash salt secret <> secret.

Variables (salt : string) (now : datetime).

Lemma create_user_conflict (user : UserCreate.t) (db : DB) (u : User.row) :
  In u (users db) ->
  User.username u = UserCreate.username user \/ User.email u = UserCreate.email user ->
  create_user pwd_context_hash salt now user db =
    (db, Raise (HTTPException 400 "Username or email already exists")).
Proof.
  intros Hin Hsame. unfold create_user.
  replace (existsb _ (users db)) with true; [reflexivity|].
  symmetry. apply existsb_exists. exists u. split; [assumption|].
  apply orb_true_iff. destruct Hsame as [H|H]; [left|right]; now apply String.eqb_eq.
Qed.

Lemma create_user_fresh (user : UserCreate.t) (db : DB) :
  (forall u, In u (users db) ->
             User.username u <> UserCreate.username user
             /\ User.email u <> UserCreate.email user) ->
  create_user pwd_context_hash salt now user db =
    (set_users db (users db ++ [created_user pwd_context_hash salt now user db]) (users_id_seq db + 1),
     Return (created_user pwd_context_hash salt now user db)).
Proof.
  intros Hfresh. unfold create_user, insert_user.
  assert (H1 : existsb (fun u => (User.username u =? UserCreate.username user)%string)
                 (users db) = false).
  { apply existsb_false_forall. intros u Hu. apply String.eqb_neq. now apply Hfresh. }
  assert (H2 : existsb (fun u => (User.email u =? UserCreate.email user)%string)
                 (users db) = false).
  { apply existsb_false_forall. intros u Hu. apply String.eqb_neq. now apply Hfresh. }
  assert (H3 : existsb (fun u => (User.username u =? UserCreate.username user)%string
                                 || (User.email u =? UserCreate.email user)%string)
                 (users db) = false).
  { apply existsb_false_forall. intros u Hu. apply orb_false_iff.
    split; apply String.eqb_neq; now apply Hfresh. }
  rewrite H3, H1, H2. reflexivity.
Qed.

Lemma create_user_returns (user : UserCreate.t) (db db' : DB) (db_user : User.row) :
  create_user pwd_context_hash salt now user db = (db', Return db_user) ->
  (forall u, In u (users db) ->
             User.username u <> UserCreate.username user
             /\ User.email u <> UserCreate.email user)
  /\ db_user = created_user pwd_context_hash salt now user db
  /\ db' = set_users db (users db ++ [db_user]) (users_id_seq db + 1).
Proof.
  intros Hrun.
  assert (Hfresh : forall u, In u (users db) ->
             User.username u <> UserCreate.username user
             /\ User.email u <> UserCreate.email user).
  { intros u Hu.
    destruct (String.eqb_spec (User.username u) (UserCreate.username user)) as [E|E].
    - rewrite (create_user_conflict user db u Hu (or_introl E)) in Hrun. discriminate.
    - split; [assumption|]. intros E'.
      rewrite (create_user_conflict user db u Hu (or_intror E')) in Hrun. discriminate. }
  split; [assumption|]. rewrite (create_user_fresh user db Hfresh) in Hrun.
  inversion Hrun; subst. now split.
Qed.

(** The unique constraint on [username] is kept by [create_user]. *)
Lemma create_user_keeps_usernames_unique (user : UserCreate.t) (db : DB) :
  NoDup (map User.username (users db)) ->
  NoDup (map User.username (users (fst (create_user pwd_context_hash salt now user db)))).
Proof.
  intros Hnd. destruct (create_user pwd_context_hash salt now user db) as [db' [row|e]] eqn:E.
  - apply create_user_returns in E. destruct E as [Hfresh [-> ->]]. simpl.
    rewrite map_app. apply NoDup_snoc; [assumption|].
    intros Hin. apply in_map_iff in Hin. destruct Hin as [u [Hname Hu]].
    now apply (proj1 (Hfresh u Hu)).
  - unfold create_user, insert_user in E.
    repeat match type of E with
           | context [if ?c then _ else _] => destruct c
           end; inversion E; subst; assumption.
Qed.


End CreateUserProperties.

(** ** create_security_answer *)

Section SecurityAnswerProperties.

Variable pwd_context_hash : string -> string -> string.

Hypothesis pwd_context_hash_hides :
  forall salt secret, pwd_context_hash salt secret <> secret.

Lemma create_security_answer_cases (salt : string) (now : datetime)
    (answer : SecurityAnswerCreate.t) (db : DB) :
  let user_id := SecurityAnswerCreate.user_id answer in
  let question_id := SecurityAnswerCreate.question_id answer in
  let refused :=
    set_user_security_answers db (user_security_answers db)
      (user_security_answers_id_seq db + 1) in
  create_security_answer pwd_context_hash salt now answer db =
    if negb (fits_integer user_id && fits_integer question_id) then
      (db, Raise (DataError "integer out of range"))
    else if answered user_id question_id db then
      (refused, Raise (IntegrityError "unique_question_per_user"))
    else if negb (existsb (fun u => User.id u =? user_id) (users db)) then
      (refused, Raise (IntegrityError "user_security_answers_user_id_fkey"))
    else if negb (existsb (fun q => SecurityQuestion.id q =? question_id)
                          (security_questions db)) then
      (refused, Raise (IntegrityError "user_security_answers_question_id_fkey"))
    else
      (set_user_security_answers db
         (user_security_answers db ++ [created_answer pwd_context_hash salt now answer db])
         (user_security_answers_id_seq db + 1),
       Return "Answer saved"%string).
Proof.
  intros user_id question_id refused.
  unfold create_security_answer, insert_security_answer, answered, created_answer.
  fold user_id question_id. fold refused.
  destruct (negb (fits_integer user_id && fits_integer question_id)); [reflexivity|].
  destruct (existsb _ (user_security_answers db)); [reflexivity|].
  destruct (negb (existsb (fun u => User.id u =? user_id) (users db))); [reflexivity|].
  now destruct (negb (existsb (fun q => SecurityQuestion.id q =? question_id)
                              (security_questions db))).
Qed.

Lemma answered_iff (user_id question_id : Z) (db : DB) :
  answered user_id question_id db = true <->
  exists a, In a (user_security_answers db)
            /\ UserSecurityAnswer.user_id a = user_id
            /\ UserSecurityAnswer.question_id a = question_id.
Proof.
  unfold answered. rewrite existsb_exists. split; intros [a [Ha H]]; exists a.
  - apply andb_true_iff in H. destruct H as [H1 H2].
    apply Z.eqb_eq in H1, H2. now repeat split.
  - split; [assumption|]. destruct H as [-> ->]. now rewrite !Z.eqb_refl.
Qed.

(** A call for a pair that already has an answer is refused and stores
    nothing: with the [IntegrityError] of the unique constraint when the ids
    fit their columns, which costs one value of the sequence. *)
Lemma create_security_answer_duplicate (salt : string) (now : datetime)
    (answer : SecurityAnswerCreate.t) (db : DB) :
  answered (SecurityAnswerCreate.user_id answer) (SecurityAnswerCreate.question_id answer) db
    = true ->
  fits_integer (SecurityAnswerCreate.user_id answer) = true ->
  fits_integer (SecurityAnswerCreate.question_id answer) = true ->
  create_security_answer pwd_context_hash salt now answer db =
    (set_user_security_answers db (user_security_answers db)
       (user_security_answers_id_seq db + 1),
     Raise (IntegrityError "unique_question_per_user")).
Proof.
  intros H Hu Hq. rewrite create_security_answer_cases. cbv zeta.
  now rewrite Hu, Hq, H.
Qed.

Lemma create_security_answer_returns (salt : string) (now : datetime)
    (answer : SecurityAnswerCreate.t) (db db' : DB) (message : string) :
  create_security_answer pwd_context_hash salt now answer db = (db', Return message) ->
  existsb (fun u => User.id u =? SecurityAnswerCreate.user_id answer) (users db) = true
  /\ existsb (fun q => SecurityQuestion.id q =? SecurityAnswerCreate.question_id answer)
             (security_questions db) = true
  /\ answered (SecurityAnswerCreate.user_id answer) (SecurityAnswerCreate.question_id answer)
              db = false
  /\ db' = set_user_security_answers db
             (user_security_answers db ++ [created_answer pwd_context_hash salt now answer db])
             (user_security_answers_id_seq db + 1)
  /\ message = "Answer saved"%string.
Proof.
  rewrite create_security_answer_cases. cbv zeta.
  destruct (negb _); [discriminate|].
  destruct (answered _ _ db); [discriminate|].
  destruct (existsb _ (users db)); simpl; [|discriminate].
  destruct (existsb _ (security_questions db)); simpl; [|discriminate].
  intros H. inversion H. now repeat split.
Qed.


(** A call that was refused: with a [DataError] and the database as it was,
    or with an [IntegrityError], no row changed and one value of the sequence
    drawn. *)
Lemma create_security_answer_raises (salt : string) (now : datetime)
    (answer : SecurityAnswerCreate.t) (db db' : DB) (e : Exn) :
  create_security_answer pwd_context_hash salt now answer db = (db', Raise e) ->
  (e = DataError "integer out of range" /\ db' = db
   /\ fits_integer (SecurityAnswerCreate.user_id answer)
      && fits_integer (SecurityAnswerCreate.question_id answer) = false)
  \/ (exists constraint,
        e = IntegrityError constraint
        /\ db' = set_user_security_answers db (user_security_answers db)
                   (user_security_answers_id_seq db + 1)
        /\ fits_integer (SecurityAnswerCreate.user_id answer)
           && fits_integer (SecurityAnswerCreate.question_id answer) = true).
Proof.
  rewrite create_security_answer_cases. cbv zeta.
  destruct (fits_integer (SecurityAnswerCreate.user_id answer)
            && fits_integer (SecurityAnswerCreate.question_id answer));
    simpl negb; cbv iota; [|intros H; inversion H; left; now repeat split].
  destruct (answered _ _ db); [intros H; inversion H; right; eexists; now repeat split|].
  destruct (negb (existsb _ (users db)));
    [intros H; inversion H; right; eexists; now repeat split|].
  destruct (negb (existsb _ (security_questions db)));
    [intros H; inversion H; right; eexists; now repeat split|].
  intros H; discriminate H.
Qed.

Lemma answered_after_other (user_id question_id : Z) (db : DB)
    (row : UserSecurityAnswer.row) (seq : Z) :
  answered user_id question_id
    (set_user_security_answers db (user_security_answers db ++ [row]) seq) =
  answered user_id question_id db
  || ((UserSecurityAnswer.user_id row =? user_id)
      && (UserSecurityAnswer.question_id row =? question_id)).
Proof.
  unfold answered. simpl. rewrite existsb_app. simpl. now rewrite orb_false_r.
Qed.


End SecurityAnswerProperties.

(** ** Bookings: update_test_result and the reads that follow it *)

Lemma update_first_absent {A : Type} (p : A -> bool) (f : A -> A) (rows : list A) :
  find p rows = None -> update_first p f rows = rows.
Proof.
  induction rows as [|r rows IH]; simpl; [reflexivity|].
  destruct (p r); [discriminate|]. intros H. now rewrite IH.
Qed.

Lemma find_update_first {A : Type} (p : A -> bool) (f : A -> A) (rows : list A) (r : A) :
  (forall x, p (f x) = p x) ->
  find p rows = Some r -> find p (update_first p f rows) = Some (f r).
Proof.
  intros Hp. induction rows as [|x rows IH]; simpl; [discriminate|].
  destruct (p x) eqn:E.
  - intros H. inversion H; subst. simpl. now rewrite Hp, E.
  - intros H. simpl. rewrite E. now apply IH.
Qed.

Lemma update_first_twice {A : Type} (p : A -> bool) (f g : A -> A) (rows : list A) :
  (forall x, p (g x) = p x) ->
  (forall x, f (g x) = f x) ->
  update_first p f (update_first p g rows) = update_first p f rows.
Proof.
  intros Hp Hfg. induction rows as [|x rows IH]; simpl; [reflexivity|].
  destruct (p x) eqn:E; simpl.
  - now rewrite Hp, E, Hfg.
  - now rewrite E, IH.
Qed.

Lemma update_first_same {A : Type} (p : A -> bool) (f : A -> A) (rows : list A) :
  (forall x, p (f x) = p x) ->
  (forall x, f (f x) = f x) ->
  update_first p f (update_first p f rows) = update_first p f rows.
Proof. intros Hp Hf. now apply update_first_twice. Qed.

Lemma set_result_booking_id (value : string) (b : LearnerTestBooking.row) :
  LearnerTestBooking.booking_id (set_result value b) = LearnerTestBooking.booking_id b.
Proof. reflexivity. Qed.

Lemma set_result_twice (v1 v2 : string) (b : LearnerTestBooking.row) :
  set_result v2 (set_result v1 b) = set_result v2 b.
Proof. reflexivity. Qed.

Lemma set_learner_test_bookings_same (db : DB) :
  set_learner_test_bookings db (learner_test_bookings db)
    (learner_test_bookings_booking_id_seq db) = db.
Proof. now destruct db. Qed.

Section UpdateResultProperties.

Variables (booking_id : Z) (db : DB).

Lemma update_test_result_found (value : Result.t) (booking : LearnerTestBooking.row) :
  get_test_booking booking_id db = Return booking ->
  update_test_result booking_id (ResultUpdateSchema.mk value) db =
    (set_learner_test_bookings db
       (update_first (fun b => LearnerTestBooking.booking_id b =? booking_id)
          (set_result (Result.str value)) (learner_test_bookings db))
       (learner_test_bookings_booking_id_seq db),
     Return (ResultUpdated.mk ("Test result updated to " ++ Result.str value)%string
               booking_id (Result.str value))).
Proof.
  unfold get_test_booking, update_test_result.
  destruct (find _ (learner_test_bookings db)); [reflexivity|discriminate].
Qed.

Lemma get_after_update_test_result (value : Result.t) (booking : LearnerTestBooking.row) :
  get_test_booking booking_id db = Return booking ->
  get_test_booking booking_id
    (fst (update_test_result booking_id (ResultUpdateSchema.mk value) db)) =
    Return (set_result (Result.str value) booking).
Proof.
  intros Hget. rewrite (update_test_result_found value booking Hget).
  unfold get_test_booking in *. simpl.
  destruct (find _ (learner_test_bookings db)) as [b|] eqn:E; [|discriminate].
  inversion Hget; subst.
  rewrite (find_update_first _ (set_result (Result.str value)) _ booking);
    [reflexivity|reflexivity|assumption].
Qed.

Lemma update_test_result_absent (value : Result.t) :
  (forall b, In b (learner_test_bookings db) -> LearnerTestBooking.booking_id b <> booking_id) ->
  update_test_result booking_id (ResultUpdateSchema.mk value) db =
    (db, Raise (HTTPException 404 "Booking not found")).
Proof.
  intros H. unfold update_test_result. rewrite find_none_forall; [reflexivity|].
  intros b Hb. apply Z.eqb_neq. now apply H.
Qed.

(** C4. On a booking id that exists, [update_test_result] succeeds and the
    booking then reads back with the new result, its other fields as before;
    after two calls the booking carries the second value, the database is
    the one the second call alone would have left, and when both values are
    the same the second call changes nothing.  On a booking id that no row
    has, it raises 404 "Booking not found" and the database is as before. *)
Theorem update_test_result_last_write_wins (first second : Result.t) :
  (forall booking,
     get_test_booking booking_id db = Return booking ->
     exists db1 db2 message1 message2,
       update_test_result booking_id (ResultUpdateSchema.mk first) db = (db1, Return message1)
       /\ get_test_booking booking_id db1 = Return (set_result (Result.str first) booking)
       /\ update_test_result booking_id (ResultUpdateSchema.mk second) db1
          = (db2, Return message2)
       /\ get_test_booking booking_id db2 = Return (set_result (Result.str second) booking)
       /\ LearnerTestBooking.result (set_result (Result.str second) booking)
          = Result.str second
       /\ db2 = fst (update_test_result booking_id (ResultUpdateSchema.mk second) db)
       /\ (first = second -> db2 = db1))
  /\
  ((forall b, In b (learner_test_bookings db) ->
              LearnerTestBooking.booking_id b <> booking_id) ->
   update_test_result booking_id (ResultUpdateSchema.mk first) db =
     (db, Raise (HTTPException 404 "Booking not found"))).
Proof.
  split; [|apply update_test_result_absent].
  intros booking Hget.
  pose proof (get_after_update_test_result first booking Hget) as Hget1.
  pose proof (update_test_result_found first booking Hget) as Hrun1.
  rewrite Hrun1 in Hget1. simpl fst in Hget1.
  eexists. eexists. eexists. eexists.
  split; [exact Hrun1|]. split; [exact Hget1|].
  split; [unfold update_test_result; simpl;
          unfold get_test_booking in Hget1; simpl in Hget1;
          destruct (find _ (update_first _ _ _)); [reflexivity|discriminate]|].
  assert (Htwice : forall v,
            update_first (fun b => LearnerTestBooking.booking_id b =? booking_id)
              (set_result (Result.str second))
              (update_first (fun b => LearnerTestBooking.booking_id b =? booking_id)
                 (set_result v) (learner_test_bookings db)) =
            update_first (fun b => LearnerTestBooking.booking_id b =? booking_id)
              (set_result (Result.str second)) (learner_test_bookings db))
    by (intros v; now apply update_first_twice).
  rewrite Htwice.
  pose proof (get_after_update_test_result second booking Hget) as Hget2.
  rewrite (update_test_result_found second booking Hget) in *. simpl fst in *.
  split; [|split; [reflexivity|split; [reflexivity|now intros ->]]].
  unfold get_test_booking in *. simpl in *. exact Hget2.
Qed.

End UpdateResultProperties.

(** ** Bookings: create_test_booking and the queries by date *)

Lemma find_app_absent {A : Type} (p : A -> bool) (rows rows' : list A) :
  find p rows = None -> find p (rows ++ rows') = find p rows'.
Proof.
  induction rows as [|r rows IH]; simpl; [reflexivity|].
  destruct (p r); [discriminate|assumption].
Qed.

Lemma update_first_app_absent {A : Type} (p : A -> bool) (f : A -> A) (rows rows' : list A) :
  find p rows = None ->
  update_first p f (rows ++ rows') = rows ++ update_first p f rows'.
Proof.
  induction rows as [|r rows IH]; simpl; [reflexivity|].
  destruct (p r); [discriminate|]. intros H. now rewrite IH.
Qed.

Section CreateBookingProperties.

Variable date_in : string -> option date.
Variables (now : datetime) (booking : LearnerTestBookingSchema.t) (db : DB).

(** What [create_test_booking] does, case by case. *)
Lemma create_test_booking_cases :
  let row := created_booking now booking db in
  let refused :=
    set_learner_test_bookings db (learner_test_bookings db) (booking_seq_after booking db) in
  create_test_booking now booking db =
    if negb (booking_sendable booking) then
      (db, Raise (PythonError "ValueError"))
    else if negb (booking_fits booking) then
      (db, Raise (DataError "integer out of range"))
    else if existsb (fun b => LearnerTestBooking.booking_id b
                              =? LearnerTestBooking.booking_id row)
                    (learner_test_bookings db) then
      (refused, Raise (IntegrityError "learner_test_bookings_pkey"))
    else if negb (existsb (Z.eqb (LearnerTestBooking.learner_id row))
                          (learner_profiles db)) then
      (refused, Raise (IntegrityError "learner_test_bookings_learner_id_fkey"))
    else if negb (existsb (Z.eqb (LearnerTestBooking.instructor_id row))
                          (instructor_profile db)) then
      (refused, Raise (IntegrityError "learner_test_bookings_instructor_id_fkey"))
    else if negb (existsb (fun s => Station.station_id s
                                    =? LearnerTestBooking.station_id row)
                          (station db)) then
      (refused, Raise (IntegrityError "learner_test_bookings_station_id_fkey"))
    else
      (set_learner_test_bookings db (learner_test_bookings db ++ [row])
         (booking_seq_after booking db),
       Return booking).
Proof.
  intros row refused. unfold create_test_booking, insert_booking.
  fold (created_booking now booking db). fold row. fold refused.
  destruct (negb (booking_sendable booking)); [reflexivity|].
  destruct (negb (booking_fits booking)); [reflexivity|].
  destruct (existsb _ (learner_test_bookings db)); [reflexivity|].
  destruct (negb (existsb _ (learner_profiles db))); [reflexivity|].
  destruct (negb (existsb _ (instructor_profile db))); [reflexivity|].
  now destruct (negb (existsb _ (station db))).
Qed.

Lemma create_test_booking_returns (db' : DB) (response : LearnerTestBookingSchema.t) :
  create_test_booking now booking db = (db', Return response) ->
  response = booking
  /\ learner_test_bookings db' = learner_test_bookings db ++ [(created_booking now booking db)]
  /\ find (fun b => LearnerTestBooking.booking_id b =? LearnerTestBooking.booking_id (created_booking now booking db))
          (learner_test_bookings db) = None.
Proof.
  rewrite create_test_booking_cases. cbv zeta.
  destruct (negb (booking_sendable booking)); [intros H; discriminate H|].
  destruct (negb (booking_fits booking)); [intros H; discriminate H|].
  destruct (existsb _ (learner_test_bookings db)) eqn:Epk; [intros H; discriminate H|].
  destruct (negb (existsb _ (learner_profiles db))); [intros H; discriminate H|].
  destruct (negb (existsb _ (instructor_profile db))); [intros H; discriminate H|].
  destruct (negb (existsb _ (station db))); [intros H; discriminate H|].
  intros H. inversion H; subst. repeat split.
  apply find_none_forall. now apply existsb_false_forall.
Qed.

(** A request that was accepted had integers that fit, and left the
    database with its row appended. *)
Lemma create_test_booking_returns_db (db' : DB) (response : LearnerTestBookingSchema.t) :
  create_test_booking now booking db = (db', Return response) ->
  booking_sendable booking = true
  /\ booking_fits booking = true
  /\ db' = set_learner_test_bookings db
             (learner_test_bookings db ++ [created_booking now booking db])
             (booking_seq_after booking db).
Proof.
  rewrite create_test_booking_cases. cbv zeta.
  destruct (booking_sendable booking); simpl negb; cbv iota; [|intros H; discriminate H].
  destruct (booking_fits booking); simpl negb; cbv iota; [|intros H; discriminate H].
  destruct (existsb _ (learner_test_bookings db)); [intros H; discriminate H|].
  destruct (negb (existsb _ (learner_profiles db))); [intros H; discriminate H|].
  destruct (negb (existsb _ (instructor_profile db))); [intros H; discriminate H|].
  destruct (negb (existsb _ (station db))); [intros H; discriminate H|].
  intros H. inversion H; subst. now repeat split.
Qed.

(** A request that was accepted named a learner profile, an instructor
    profile and a station that exist. *)
Lemma create_test_booking_returns_keys (db' : DB) (response : LearnerTestBookingSchema.t) :
  create_test_booking now booking db = (db', Return response) ->
  In (LearnerTestBookingSchema.learner_id booking) (learner_profiles db)
  /\ In (LearnerTestBookingSchema.instructor_id booking) (instructor_profile db)
  /\ (exists s, In s (station db)
                /\ Station.station_id s = LearnerTestBookingSchema.station_id booking).
Proof.
  rewrite create_test_booking_cases. cbv zeta.
  destruct (negb (booking_sendable booking)); [intros H; discriminate H|].
  destruct (negb (booking_fits booking)); [intros H; discriminate H|].
  destruct (existsb _ (learner_test_bookings db)); [intros H; discriminate H|].
  destruct (existsb _ (learner_profiles db)) eqn:El; [|intros H; discriminate H].
  destruct (existsb _ (instructor_profile db)) eqn:Ei; [|intros H; discriminate H].
  destruct (existsb _ (station db)) eqn:Es; [|intros H; discriminate H].
  intros _. split; [|split].
  - apply existsb_exists in El. destruct El as [x [Hx E]].
    apply Z.eqb_eq in E. simpl in E. now subst.
  - apply existsb_exists in Ei. destruct Ei as [x [Hx E]].
    apply Z.eqb_eq in E. simpl in E. now subst.
  - apply existsb_exists in Es. destruct Es as [s [Hs E]].
    exists s. split; [assumption|]. now apply Z.eqb_eq in E.
Qed.

(** A request that was refused: by the driver or with a [DataError], and the
    database is as it was, or with an [IntegrityError], no row changed and
    the sequence where the INSERT left it. *)
Lemma create_test_booking_raises (db' : DB) (e : Exn) :
  create_test_booking now booking db = (db', Raise e) ->
  (db' = db
   /\ ((e = PythonError "ValueError" /\ booking_sendable booking = false)
       \/ (e = DataError "integer out of range"
           /\ booking_sendable booking = true /\ booking_fits booking = false)))
  \/ (exists constraint,
        e = IntegrityError constraint
        /\ db' = set_learner_test_bookings db (learner_test_bookings db)
                   (booking_seq_after booking db)
        /\ booking_sendable booking = true /\ booking_fits booking = true).
Proof.
  rewrite create_test_booking_cases. cbv zeta.
  destruct (booking_sendable booking); simpl negb; cbv iota;
    [|intros H; inversion H; left; split; [reflexivity|left; now split]].
  destruct (booking_fits booking); simpl negb; cbv iota;
    [|intros H; inversion H; left; split; [reflexivity|right; now repeat split]].
  destruct (existsb _ (learner_test_bookings db));
    [intros H; inversion H; right; eexists; now repeat split|].
  destruct (negb (existsb _ (learner_profiles db)));
    [intros H; inversion H; right; eexists; now repeat split|].
  destruct (negb (existsb _ (instructor_profile db)));
    [intros H; inversion H; right; eexists; now repeat split|].
  destruct (negb (existsb _ (station db)));
    [intros H; inversion H; right; eexists; now repeat split|].
  intros H; discriminate H.
Qed.

Lemma create_test_booking_raises_rows (db' : DB) (e : Exn) :
  create_test_booking now booking db = (db', Raise e) ->
  learner_test_bookings db' = learner_test_bookings db.
Proof.
  intros H. apply create_test_booking_raises in H.
  destruct H as [[-> _]|[c [_ [-> _]]]]; reflexivity.
Qed.

(** The request is accepted when its text can be sent, its integers fit, its
    key is free and the learner profile, the instructor profile and the
    station it names exist. *)
Lemma create_test_booking_accepts :
  booking_sendable booking = true ->
  booking_fits booking = true ->
  (forall b, In b (learner_test_bookings db) ->
             LearnerTestBooking.booking_id b <> LearnerTestBooking.booking_id (created_booking now booking db)) ->
  In (LearnerTestBookingSchema.learner_id booking) (learner_profiles db) ->
  In (LearnerTestBookingSchema.instructor_id booking) (instructor_profile db) ->
  (exists s, In s (station db)
             /\ Station.station_id s = LearnerTestBookingSchema.station_id booking) ->
  exists db', create_test_booking now booking db = (db', Return booking).
Proof.
  intros Hsend Hfits Hpk Hl Hi [s [Hs Hsid]].
  unfold create_test_booking, insert_booking. unfold created_booking in Hpk.
  rewrite Hsend, Hfits. simpl negb. cbv iota.
  replace (existsb _ (learner_test_bookings db)) with false.
  2:{ symmetry. apply existsb_false_forall. intros b Hb. apply Z.eqb_neq. now apply Hpk. }
  replace (existsb _ (learner_profiles db)) with true.
  2:{ symmetry. apply existsb_exists. eexists. split; [exact Hl|apply Z.eqb_refl]. }
  replace (existsb _ (instructor_profile db)) with true.
  2:{ symmetry. apply existsb_exists. eexists. split; [exact Hi|apply Z.eqb_refl]. }
  replace (existsb _ (station db)) with true.
  2:{ symmetry. apply existsb_exists. exists s. split; [exact Hs|]. now apply Z.eqb_eq. }
  simpl. eauto.
Qed.

(** C5. A booking created with [result] left out is stored with result
    "pending"; the pending query for its test date (under any spelling
    [path] that reaches the server and is read as that date) returns it and the
    completed query for that date returns no booking with its id; once
    [update_test_result] has set it to passed, the pending query returns no
    booking with its id and the completed query returns it, now passed. *)
Theorem booking_without_result_is_pending (db' : DB)
    (response : LearnerTestBookingSchema.t) (path : string) :
  LearnerTestBookingSchema.result booking = None ->
  create_test_booking now booking db = (db', Return response) ->
  date_parameter date_in path = Return (LearnerTestBookingSchema.test_date booking) ->
  let row := created_booking now booking db in
  let id := LearnerTestBooking.booking_id row in
  let test_date := LearnerTestBookingSchema.test_date booking in
  learner_test_bookings db' = learner_test_bookings db ++ [row]
  /\ LearnerTestBooking.result row = "pending"%string
  /\ LearnerTestBooking.test_date row = test_date
  /\ (exists pending,
        get_pending_learners date_in path db' = Return pending /\ In row pending)
  /\ (exists completed,
        get_completed_learners date_in path db' = Return completed
        /\ forall b, In b completed -> LearnerTestBooking.booking_id b <> id)
  /\ exists db'' message,
       update_test_result id (ResultUpdateSchema.mk Result.passed) db'
         = (db'', Return message)
       /\ (exists pending,
             get_pending_learners date_in path db'' = Return pending
             /\ forall b, In b pending -> LearnerTestBooking.booking_id b <> id)
       /\ (exists completed,
             get_completed_learners date_in path db'' = Return completed
             /\ In (set_result "passed" row) completed).
Proof.
  intros Hresult Hrun Hpath row id test_date.
  unfold get_pending_learners, get_completed_learners. rewrite Hpath. fold test_date.
  apply create_test_booking_returns in Hrun. destruct Hrun as [_ [Hrows Hfree]].
  fold row in Hrows, Hfree. fold id in Hfree.
  assert (Hold : forall b, In b (learner_test_bookings db) ->
                           LearnerTestBooking.booking_id b <> id).
  { intros b Hb E. apply (find_none _ _ Hfree) in Hb. apply Z.eqb_neq in Hb. now apply Hb. }
  assert (Hpending : LearnerTestBooking.result row = "pending"%string).
  { unfold row, created_booking, booking_row. simpl. now rewrite Hresult. }
  assert (Hdate : LearnerTestBooking.test_date row = test_date) by reflexivity.
  split; [assumption|]. split; [assumption|]. split; [assumption|].
  split; [|split].
  - eexists. split; [reflexivity|]. rewrite Hrows. apply filter_In. split.
    + apply in_or_app. right. now left.
    + now rewrite Hdate, Hpending, !String.eqb_refl.
  - eexists. split; [reflexivity|]. intros b Hb. apply filter_In in Hb.
    destruct Hb as [Hb Hc]. rewrite Hrows in Hb. apply in_app_or in Hb.
    destruct Hb as [Hb|[<-|[]]]; [now apply Hold|].
    rewrite Hpending in Hc. rewrite String.eqb_refl, andb_false_r in Hc. discriminate.
  - assert (Hfind : find (fun b => LearnerTestBooking.booking_id b =? id)
                      (learner_test_bookings db') = Some row).
    { rewrite Hrows, (find_app_absent _ _ _ Hfree). simpl. unfold id.
      now rewrite Z.eqb_refl. }
    assert (Hupd : update_first (fun b => LearnerTestBooking.booking_id b =? id)
                     (set_result "passed") (learner_test_bookings db')
                   = learner_test_bookings db ++ [set_result "passed" row]).
    { rewrite Hrows, (update_first_app_absent _ _ _ _ Hfree). simpl. unfold id.
      now rewrite Z.eqb_refl. }
    eexists. eexists. split; [unfold update_test_result; rewrite Hfind; reflexivity|].
    simpl learner_test_bookings.
    rewrite Hupd. split.
    + eexists. split; [reflexivity|]. intros b Hb. apply filter_In in Hb.
      destruct Hb as [Hb Hc]. apply in_app_or in Hb.
      destruct Hb as [Hb|[<-|[]]]; [now apply Hold|].
      simpl in Hc. rewrite andb_false_r in Hc. discriminate.
    + eexists. split; [reflexivity|]. apply filter_In. split.
      * apply in_or_app. right. now left.
      * simpl. fold test_date. now rewrite String.eqb_refl.
Qed.

End CreateBookingProperties.

(** ** get_all_results_by_date: the buckets in closed form *)

Lemma dict_append_keys {V : Type} (d : dict (list V)) (k : string) (x : V) :
  map fst (dict_append d k x) = map fst d.
Proof.
  induction d as [|[k' v] d IH]; simpl; [reflexivity|].
  destruct (k' =? k)%string; simpl; [reflexivity|now rewrite IH].
Qed.

Lemma dict_contains_keys {V : Type} (d : dict V) (k : string) :
  dict_contains d k = existsb (fun k' => k' =? k)%string (map fst d).
Proof.
  unfold dict_contains. induction d as [|[k' v] d IH]; simpl; [reflexivity|].
  now rewrite IH.
Qed.

Lemma dict_getitem_append_same {V : Type} (d : dict (list V)) (k : string) (x : V) :
  dict_contains d k = true ->
  dict_getitem (dict_append d k x) k = dict_getitem d k ++ [x].
Proof.
  unfold dict_contains. induction d as [|[k' v] d IH]; simpl; [discriminate|].
  destruct (k' =? k)%string eqn:E; simpl; rewrite E; [reflexivity|].
  intros H. now apply IH.
Qed.

Lemma dict_getitem_append_other {V : Type} (d : dict (list V)) (k k' : string) (x : V) :
  k <> k' ->
  dict_getitem (dict_append d k x) k' = dict_getitem d k'.
Proof.
  intros Hk. induction d as [|[k0 v] d IH]; simpl; [reflexivity|].
  destruct (k0 =? k)%string eqn:E; simpl.
  - apply String.eqb_eq in E. subst k0.
    now rewrite (proj2 (String.eqb_neq k k') Hk).
  - now rewrite IH.
Qed.

Lemma group_booking_keys (d : dict (list ResultEntry.t)) (b : LearnerTestBooking.row) :
  map fst (group_booking d b) = map fst d.
Proof.
  unfold group_booking. destruct (dict_contains d _); [apply dict_append_keys|reflexivity].
Qed.

Lemma group_booking_getitem (d : dict (list ResultEntry.t)) (b : LearnerTestBooking.row)
    (k : string) :
  dict_contains d k = true ->
  dict_getitem (group_booking d b) k =
    dict_getitem d k
    ++ (if (LearnerTestBooking.result b =? k)%string then [result_entry b] else []).
Proof.
  intros Hk. unfold group_booking.
  destruct (String.eqb_spec (LearnerTestBooking.result b) k) as [E|E].
  - rewrite E, Hk. now apply dict_getitem_append_same.
  - rewrite app_nil_r.
    destruct (dict_contains d (LearnerTestBooking.result b)); [|reflexivity].
    now apply dict_getitem_append_other.
Qed.

Lemma fold_group_booking_keys (bookings : list LearnerTestBooking.row)
    (d : dict (list ResultEntry.t)) :
  map fst (fold_left group_booking bookings d) = map fst d.
Proof.
  revert d. induction bookings as [|b bookings IH]; intros d; simpl; [reflexivity|].
  now rewrite IH, group_booking_keys.
Qed.

Lemma fold_group_booking_getitem (bookings : list LearnerTestBooking.row)
    (d : dict (list ResultEntry.t)) (k : string) :
  dict_contains d k = true ->
  dict_getitem (fold_left group_booking bookings d) k =
    dict_getitem d k
    ++ map result_entry
         (filter (fun b => (LearnerTestBooking.result b =? k)%string) bookings).
Proof.
  revert d. induction bookings as [|b bookings IH]; intros d Hk; simpl.
  - now rewrite app_nil_r.
  - rewrite IH.
    + rewrite (group_booking_getitem d b k Hk), <- app_assoc. f_equal.
      now destruct (LearnerTestBooking.result b =? k)%string.
    + now rewrite dict_contains_keys, group_booking_keys, <- dict_contains_keys.
Qed.

(** A dict with four distinct keys is the list of its four entries. *)
Lemma dict_of_four_keys {V : Type} (d : dict (list V)) (k1 k2 k3 k4 : string) :
  map fst d = [k1; k2; k3; k4] ->
  k1 <> k2 -> k1 <> k3 -> k1 <> k4 -> k2 <> k3 -> k2 <> k4 -> k3 <> k4 ->
  d = [(k1, dict_getitem d k1); (k2, dict_getitem d k2);
       (k3, dict_getitem d k3); (k4, dict_getitem d k4)].
Proof.
  destruct d as [|[a1 v1] [|[a2 v2] [|[a3 v3] [|[a4 v4] [|? ?]]]]]; try discriminate.
  simpl. intros H. inversion H; subst.
  intros H12 H13 H14 H23 H24 H34.
  rewrite !String.eqb_refl.
  now rewrite (proj2 (String.eqb_neq k1 k2) H12), (proj2 (String.eqb_neq k1 k3) H13),
    (proj2 (String.eqb_neq k1 k4) H14), (proj2 (String.eqb_neq k2 k3) H23),
    (proj2 (String.eqb_neq k2 k4) H24), (proj2 (String.eqb_neq k3 k4) H34).
Qed.

(** Four predicates of which each row satisfies exactly one split a list
    into four parts. *)
Lemma length_filter_four {A : Type} (p1 p2 p3 p4 : A -> bool) (rows : list A) :
  (forall r, In r rows ->
     (p1 r, p2 r, p3 r, p4 r) = (true, false, false, false)
     \/ (p1 r, p2 r, p3 r, p4 r) = (false, true, false, false)
     \/ (p1 r, p2 r, p3 r, p4 r) = (false, false, true, false)
     \/ (p1 r, p2 r, p3 r, p4 r) = (false, false, false, true)) ->
  (List.length rows =
   List.length (filter p1 rows) + List.length (filter p2 rows)
   + List.length (filter p3 rows) + List.length (filter p4 rows))%nat.
Proof.
  induction rows as [|r rows IH]; intros H; [reflexivity|].
  assert (IH' := IH (fun x Hx => H x (or_intror Hx))).
  simpl. destruct (H r (or_introl eq_refl)) as [E|[E|[E|E]]];
    injection E as E1 E2 E3 E4; rewrite E1, E2, E3, E4; simpl; lia.
Qed.

Section ResultsByDateProperties.

Variable date_in : string -> option date.

(** C6. [get_all_results_by_date] raises for a text that is no date: the
    [DataError] of the server, which cannot read it, or the [ValueError] of
    the driver, which does not send a NUL byte.  For one that is read as
    [day], it
    returns the text as it came, the number of bookings whose test date is
    [day] as the total, and under each of "pending", "passed", "failed",
    "absent", in table order, one entry for each booking of that day with
    that result, made of the booking's [booking_id], [learner_id],
    [instructor_id], [result], [license_code], [test_date] and
    [booking_date]; the count of a bucket is its length.  A booking is
    counted exactly when its test date is [day].  When every booking of the
    day has one of the four results, each booking of the day has its entry in
    the bucket of its result and the four counts add up to the total. *)
Theorem get_all_results_by_date_breakdown (date : string) (db : DB) :
  (has_nul date = true ->
   get_all_results_by_date date_in date db = Raise (PythonError "ValueError"))
  /\
  (has_nul date = false -> date_in date = None ->
   get_all_results_by_date date_in date db =
     Raise (DataError "invalid input syntax for type date"))
  /\
  (forall day, has_nul date = false -> date_in date = Some day ->
   let all_bookings :=
     filter (fun b => (LearnerTestBooking.test_date b =? day)%string)
            (learner_test_bookings db) in
   let entry := fun b =>
     ResultEntry.mk (LearnerTestBooking.booking_id b) (LearnerTestBooking.learner_id b)
       (LearnerTestBooking.instructor_id b) (LearnerTestBooking.result b)
       (LearnerTestBooking.license_code b) (LearnerTestBooking.test_date b)
       (LearnerTestBooking.booking_date b) in
   let bucket := fun status : string =>
     map entry
         (filter (fun b => (LearnerTestBooking.result b =? status)%string) all_bookings) in
   get_all_results_by_date date_in date db =
     Return (ResultsByDate.mk date (len all_bookings)
               [("pending", bucket "pending"); ("passed", bucket "passed");
                ("failed", bucket "failed"); ("absent", bucket "absent")]%string
               [("pending", len (bucket "pending")); ("passed", len (bucket "passed"));
                ("failed", len (bucket "failed")); ("absent", len (bucket "absent"))]%string)
   /\ (forall b, In b (learner_test_bookings db) ->
                 (In b all_bookings <-> LearnerTestBooking.test_date b = day))
   /\ ((forall b, In b all_bookings ->
                  In (LearnerTestBooking.result b)
                     ["pending"; "passed"; "failed"; "absent"]%string) ->
       (forall b, In b all_bookings -> In (entry b) (bucket (LearnerTestBooking.result b)))
       /\ len all_bookings =
            len (bucket "pending") + len (bucket "passed")
            + len (bucket "failed") + len (bucket "absent"))).
Proof.
  split; [intros Hnul; unfold get_all_results_by_date, date_parameter; now rewrite Hnul|].
  split; [intros Hnul Hnone; unfold get_all_results_by_date, date_parameter;
          now rewrite Hnul, Hnone|].
  intros day Hnul Hday all_bookings entry bucket.
  change entry with result_entry in bucket.
  assert (Hget : forall k, In k ["pending"; "passed"; "failed"; "absent"]%string ->
            dict_getitem
              (fold_left group_booking all_bookings
                 [("pending", []); ("passed", []); ("failed", []); ("absent", [])]%string) k
            = bucket k).
  { intros k Hk. rewrite fold_group_booking_getitem.
    - simpl in Hk. destruct Hk as [<-|[<-|[<-|[<-|[]]]]]; reflexivity.
    - simpl in Hk. destruct Hk as [<-|[<-|[<-|[<-|[]]]]]; reflexivity. }
  split; [|split].
  - unfold get_all_results_by_date, date_parameter. rewrite Hnul, Hday. fold all_bookings.
    rewrite (dict_of_four_keys
               (fold_left group_booking all_bookings
                  [("pending", []); ("passed", []); ("failed", []); ("absent", [])]%string)
               "pending" "passed" "failed" "absent");
      [|now rewrite fold_group_booking_keys|discriminate..].
    rewrite !Hget; simpl; auto 6.
  - intros b Hb. unfold all_bookings. rewrite filter_In, String.eqb_eq. tauto.
  - intros Hvalid. split.
    + intros b Hb. unfold bucket. apply (in_map result_entry), filter_In.
      split; [assumption|]. apply String.eqb_refl.
    + unfold len, bucket. rewrite !length_map, <- !Nat2Z.inj_add. f_equal.
      apply length_filter_four. intros b Hb. specialize (Hvalid b Hb). simpl in Hvalid.
      destruct Hvalid as [<-|[<-|[<-|[<-|[]]]]]; simpl; tauto.
Qed.

End ResultsByDateProperties.

(** The four results are the only ones the handlers write: the request
    schemas take a [Literal] of the four, and the column default is
    "pending". *)
Lemma Result_str_valid (r : Result.t) :
  In (Result.str r) ["pending"; "passed"; "failed"; "absent"]%string.
Proof. destruct r; simpl; auto. Qed.

Lemma Forall_update_first {A : Type} (P : A -> Prop) (p : A -> bool) (f : A -> A)
    (rows : list A) :
  (forall r, P (f r)) -> Forall P rows -> Forall P (update_first p f rows).
Proof.
  intros Hf H. induction H as [|r rows Hr H IH]; simpl; [constructor|].
  destruct (p r); constructor; auto.
Qed.

Lemma create_test_booking_keeps_results_valid (now : datetime)
    (booking : LearnerTestBookingSchema.t) (db : DB) :
  Forall (fun b => In (LearnerTestBooking.result b)
                      ["pending"; "passed"; "failed"; "absent"]%string)
         (learner_test_bookings db) ->
  Forall (fun b => In (LearnerTestBooking.result b)
                      ["pending"; "passed"; "failed"; "absent"]%string)
         (learner_test_bookings (fst (create_test_booking now booking db))).
Proof.
  intros H. destruct (create_test_booking now booking db) as [db' [response|e]] eqn:E.
  - apply create_test_booking_returns in E. destruct E as [_ [Hrows _]].
    simpl fst. rewrite Hrows. apply Forall_app. split; [assumption|]. constructor; [|constructor].
    unfold created_booking, booking_row. simpl.
    destruct (LearnerTestBookingSchema.result booking) as [r|];
      [apply Result_str_valid|simpl; auto].
  - apply create_test_booking_raises_rows in E. simpl fst. now rewrite E.
Qed.

Lemma update_test_result_keeps_results_valid (booking_id : Z)
    (result_update : ResultUpdateSchema.t) (db : DB) :
  Forall (fun b => In (LearnerTestBooking.result b)
                      ["pending"; "passed"; "failed"; "absent"]%string)
         (learner_test_bookings db) ->
  Forall (fun b => In (LearnerTestBooking.result b)
                      ["pending"; "passed"; "failed"; "absent"]%string)
         (learner_test_bookings (fst (update_test_result booking_id result_update db))).
Proof.
  intros H. unfold update_test_result.
  destruct (find _ (learner_test_bookings db)); [|assumption].
  simpl. apply Forall_update_first; [|assumption].
  intros b. apply Result_str_valid.
Qed.

(** ** Queries whose result is empty *)

Lemma filter_none {A : Type} (p : A -> bool) (rows : list A) :
  (forall r, In r rows -> p r = false) -> filter p rows = [].
Proof.
  induction rows as [|r rows IH]; intros H; simpl; [reflexivity|].
  rewrite (H r (or_introl eq_refl)). apply IH. intros x Hx. apply H. now right.
Qed.

Lemma get_bookings_by_learner_empty (learner_id : Z) (db : DB) :
  (forall b, In b (learner_test_bookings db) ->
             LearnerTestBooking.learner_id b <> learner_id) ->
  get_bookings_by_learner learner_id db =
    Raise (HTTPException 404 "No bookings found for this learner").
Proof.
  intros H. unfold get_bookings_by_learner. rewrite filter_none; [reflexivity|].
  intros b Hb. apply Z.eqb_neq. now apply H.
Qed.

Lemma get_security_answers_by_user_empty (user_id : Z) (db : DB) :
  (forall a, In a (user_security_answers db) -> UserSecurityAnswer.user_id a <> user_id) ->
  get_security_answers_by_user user_id db = Raise (HTTPException 404 "Answers not found").
Proof.
  intros H. unfold get_security_answers_by_user. rewrite filter_none; [reflexivity|].
  intros a Ha. apply Z.eqb_neq. now apply H.
Qed.

(** C7. With no booking stored for a learner id, [get_bookings_by_learner]
    raises 404 instead of returning an empty list, and with no answer stored
    for a user id so does [get_security_answers_by_user]; both look only at
    the child table, so whether the learner profile or the user exists makes
    no difference. *)
Theorem empty_children_raise_not_found (db : DB) :
  (forall learner_id,
     (forall b, In b (learner_test_bookings db) ->
                LearnerTestBooking.learner_id b <> learner_id) ->
     get_bookings_by_learner learner_id db =
       Raise (HTTPException 404 "No bookings found for this learner")
     /\ get_bookings_by_learner learner_id db <> Return [])
  /\
  (forall user_id,
     (forall a, In a (user_security_answers db) ->
                UserSecurityAnswer.user_id a <> user_id) ->
     get_security_answers_by_user user_id db = Raise (HTTPException 404 "Answers not found")
     /\ get_security_answers_by_user user_id db <> Return [])
  /\
  (forall db2 learner_id,
     learner_test_bookings db2 = learner_test_bookings db ->
     get_bookings_by_learner learner_id db2 = get_bookings_by_learner learner_id db)
  /\
  (forall db2 user_id,
     user_security_answers db2 = user_security_answers db ->
     get_security_answers_by_user user_id db2 = get_security_answers_by_user user_id db).
Proof.
  repeat split.
  - now apply get_bookings_by_learner_empty.
  - rewrite get_bookings_by_learner_empty; [discriminate|assumption].
  - now apply get_security_answers_by_user_empty.
  - rewrite get_security_answers_by_user_empty; [discriminate|assumption].
  - intros db2 learner_id E. unfold get_bookings_by_learner. now rewrite E.
  - intros db2 user_id E. unfold get_security_answers_by_user. now rewrite E.
Qed.

Section DateQueryProperties.

Variable date_in : string -> option date.

(** C10. On a date (a text without NUL byte that the server reads as the day
    [day]), [get_pending_learners] and [get_completed_learners] return the
    bookings of that day that are pending, respectively not pending; when no
    booking has that day as its test date, both return the empty list.
    Neither ever raises an [HTTPException], so neither answers 404: what they
    raise, for a text that is no date, is the [DataError] of the server or
    the [ValueError] of the driver.  [get_bookings_by_learner], by contrast,
    raises 404 on a learner that no booking has. *)
Theorem date_queries_return_empty_list (date : string) (db : DB) :
  (forall day, has_nul date = false -> date_in date = Some day ->
     get_pending_learners date_in date db =
       Return (filter (fun b => (LearnerTestBooking.test_date b =? day)%string
                                && (LearnerTestBooking.result b =? "pending")%string)
                      (learner_test_bookings db))
     /\ get_completed_learners date_in date db =
          Return (filter (fun b => (LearnerTestBooking.test_date b =? day)%string
                                   && negb (LearnerTestBooking.result b =? "pending")%string)
                         (learner_test_bookings db))
     /\ ((forall b, In b (learner_test_bookings db) ->
                    LearnerTestBooking.test_date b <> day) ->
         get_pending_learners date_in date db = Return []
         /\ get_completed_learners date_in date db = Return []))
  /\
  (has_nul date = false -> date_in date = None ->
   get_pending_learners date_in date db =
     Raise (DataError "invalid input syntax for type date")
   /\ get_completed_learners date_in date db =
        Raise (DataError "invalid input syntax for type date"))
  /\
  (has_nul date = true ->
   get_pending_learners date_in date db = Raise (PythonError "ValueError")
   /\ get_completed_learners date_in date db = Raise (PythonError "ValueError"))
  /\
  (forall status_code detail,
     get_pending_learners date_in date db <> Raise (HTTPException status_code detail)
     /\ get_completed_learners date_in date db <> Raise (HTTPException status_code detail))
  /\
  (forall learner_id,
     (forall b, In b (learner_test_bookings db) ->
                LearnerTestBooking.learner_id b <> learner_id) ->
     get_bookings_by_learner learner_id db =
       Raise (HTTPException 404 "No bookings found for this learner")).
Proof.
  unfold get_pending_learners, get_completed_learners, date_parameter.
  split; [|split; [|split; [|split]]].
  - intros day Hnul Hday. rewrite Hnul, Hday. split; [reflexivity|]. split; [reflexivity|].
    intros H.
    assert (Hdate : forall b, In b (learner_test_bookings db) ->
                      (LearnerTestBooking.test_date b =? day)%string = false).
    { intros b Hb. apply String.eqb_neq. now apply H. }
    rewrite !filter_none; [now split| |]; intros b Hb; now rewrite (Hdate b Hb).
  - intros Hnul Hnone. rewrite Hnul, Hnone. now split.
  - intros Hnul. rewrite Hnul. now split.
  - intros status_code detail. destruct (has_nul date); [split; discriminate|].
    destruct (date_in date); split; discriminate.
  - intros learner_id Hl. now apply get_bookings_by_learner_empty.
Qed.

End DateQueryProperties.

(** ** Seeding the catalog of security questions *)

Section SeedingProperties.

Lemma question_present_iff (q : string) (db : DB) :
  existsb (fun r => SecurityQuestion.question r =? q)%string (security_questions db) = true
  <-> In q (question_texts db).
Proof.
  unfold question_texts. rewrite existsb_exists, in_map_iff.
  split; intros [r [H1 H2]]; exists r.
  - apply String.eqb_eq in H2. now split.
  - split; [assumption|]. now apply String.eqb_eq.
Qed.

Lemma seed_question_present (db : DB) (q : string) :
  In q (question_texts db) -> seed_question db q = db.
Proof.
  intros H. unfold seed_question.
  now rewrite (proj2 (question_present_iff q db) H).
Qed.

Lemma seed_question_absent (db : DB) (q : string) :
  ~ In q (question_texts db) ->
  seed_question db q = append_security_question q db.
Proof.
  intros H. unfold seed_question.
  destruct (existsb _ (security_questions db)) eqn:E; [|reflexivity].
  now apply question_present_iff in E.
Qed.

Lemma question_texts_insert (db : DB) (q : string) :
  question_texts (append_security_question q db) = question_texts db ++ [q].
Proof. unfold question_texts. simpl. now rewrite map_app. Qed.

(** A turn of the loop keeps every row of the catalog. *)
Lemma seed_question_keeps (db : DB) (q t : string) :
  In t (question_texts db) -> In t (question_texts (seed_question db q)).
Proof.
  intros H. destruct (in_dec string_dec q (question_texts db)) as [Hq|Hq].
  - now rewrite seed_question_present.
  - rewrite seed_question_absent, question_texts_insert by assumption.
    apply in_or_app. now left.
Qed.

Lemma seeding_keeps (qs : list string) (db : DB) (t : string) :
  In t (question_texts db) ->
  In t (question_texts (fold_left seed_question qs db)).
Proof.
  revert db. induction qs as [|q qs IH]; intros db H; simpl; [assumption|].
  apply IH. now apply seed_question_keeps.
Qed.

Lemma seeding_covers (qs : list string) (db : DB) (q : string) :
  In q qs -> In q (question_texts (fold_left seed_question qs db)).
Proof.
  revert db. induction qs as [|q0 qs IH]; intros db H; [destruct H|].
  simpl. destruct H as [->|H]; [|now apply IH].
  apply seeding_keeps.
  destruct (in_dec string_dec q (question_texts db)) as [Hq|Hq].
  - now rewrite seed_question_present.
  - rewrite seed_question_absent, question_texts_insert by assumption.
    apply in_or_app. right. now left.
Qed.

Lemma seeding_nothing_to_add (qs : list string) (db : DB) :
  (forall q, In q qs -> In q (question_texts db)) ->
  fold_left seed_question qs db = db.
Proof.
  induction qs as [|q qs IH]; intros H; simpl; [reflexivity|].
  rewrite seed_question_present by (apply H; now left).
  apply IH. intros q' Hq'. apply H. now right.
Qed.

Lemma seeding_idempotent (qs : list string) (db : DB) :
  fold_left seed_question qs (fold_left seed_question qs db)
  = fold_left seed_question qs db.
Proof. apply seeding_nothing_to_add. intros q Hq. now apply seeding_covers. Qed.

(** The rows that seeding appends: one per text of [qs] that the catalog
    lacked, in the order of [qs]. *)
Lemma seeding_appends (qs : list string) (db : DB) :
  NoDup qs ->
  exists added,
    security_questions (fold_left seed_question qs db)
      = security_questions db ++ added
    /\ map SecurityQuestion.question added
       = filter (fun q => negb (existsb (String.eqb q) (question_texts db))) qs.
Proof.
  revert db. induction qs as [|q qs IH]; intros db Hnd; simpl.
  - exists []. now rewrite app_nil_r.
  - inversion Hnd as [|? ? Hq Hnd']; subst.
    destruct (in_dec string_dec q (question_texts db)) as [Hin|Hout].
    + rewrite seed_question_present by assumption.
      rewrite (proj2 (existsb_eqb_In q (question_texts db)) Hin). simpl.
      now apply IH.
    + rewrite seed_question_absent by assumption.
      replace (existsb (String.eqb q) (question_texts db)) with false.
      2:{ symmetry. apply not_true_is_false. intros E. apply Hout.
          now apply existsb_eqb_In. }
      simpl. destruct (IH (append_security_question q db) Hnd') as [added [Hrows Htexts]].
      exists (SecurityQuestion.mk (security_questions_id_seq db) q :: added). split.
      * rewrite Hrows. simpl. now rewrite <- app_assoc.
      * simpl. f_equal. rewrite Htexts. apply filter_ext_in. intros t Ht.
        rewrite question_texts_insert, existsb_app. simpl.
        replace (t =? q)%string with false; [now rewrite !orb_false_r|].
        symmetry. apply String.eqb_neq. intros ->. now apply Hq.
Qed.


Lemma default_qs_NoDup : NoDup default_qs.
Proof.
  unfold default_qs. repeat constructor; simpl; intuition discriminate.
Qed.

Lemma seed_station_questions (db : DB) (station_data : string * Z) :
  security_questions (seed_station db station_data) = security_questions db
  /\ security_questions_id_seq (seed_station db station_data)
     = security_questions_id_seq db.
Proof.
  unfold seed_station. now destruct (existsb _ (station db)).
Qed.

Lemma seeding_stations_questions (stations : list (string * Z)) (db : DB) :
  security_questions (fold_left seed_station stations db) = security_questions db
  /\ security_questions_id_seq (fold_left seed_station stations db)
     = security_questions_id_seq db.
Proof.
  revert db. induction stations as [|s stations IH]; intros db; simpl; [now split|].
  destruct (IH (seed_station db s)) as [H1 H2].
  destruct (seed_station_questions db s) as [H3 H4].
  split; congruence.
Qed.


Lemma seed_question_frame (db : DB) (q : string) :
  set_security_questions (seed_question db q) (security_questions db)
    (security_questions_id_seq db) = db.
Proof.
  unfold seed_question. destruct (existsb _ (security_questions db)); now destruct db.
Qed.

Lemma seeding_frame (qs : list string) (db : DB) :
  set_security_questions (fold_left seed_question qs db) (security_questions db)
    (security_questions_id_seq db) = db.
Proof.
  revert db. induction qs as [|q qs IH]; intros db; simpl; [now destruct db|].
  transitivity (set_security_questions
                  (set_security_questions
                     (fold_left seed_question qs (seed_question db q))
                     (security_questions (seed_question db q))
                     (security_questions_id_seq (seed_question db q)))
                  (security_questions db) (security_questions_id_seq db));
    [reflexivity|].
  rewrite IH. apply seed_question_frame.
Qed.

(** Ids in use are distinct and below the sequence. *)
Lemma seed_question_ids (db : DB) (q : string) :
  NoDup (map SecurityQuestion.id (security_questions db)) ->
  (forall r, In r (security_questions db) -> SecurityQuestion.id r < security_questions_id_seq db) ->
  NoDup (map SecurityQuestion.id (security_questions (seed_question db q)))
  /\ (forall r, In r (security_questions (seed_question db q)) ->
        SecurityQuestion.id r < security_questions_id_seq (seed_question db q)).
Proof.
  intros Hnd Hseq. unfold seed_question.
  destruct (existsb _ (security_questions db)); [now split|]. simpl. split.
  - rewrite map_app. apply NoDup_snoc; [assumption|]. intros Hin.
    apply in_map_iff in Hin. destruct Hin as [r [Hr Hin]]. simpl in Hr.
    specialize (Hseq r Hin). lia.
  - intros r Hin. apply in_app_or in Hin. destruct Hin as [Hin|[<-|[]]].
    + specialize (Hseq r Hin). lia.
    + simpl. lia.
Qed.

Lemma seeding_ids (qs : list string) (db : DB) :
  NoDup (map SecurityQuestion.id (security_questions db)) ->
  (forall r, In r (security_questions db) -> SecurityQuestion.id r < security_questions_id_seq db) ->
  NoDup (map SecurityQuestion.id (security_questions (fold_left seed_question qs db)))
  /\ (forall r, In r (security_questions (fold_left seed_question qs db)) ->
        SecurityQuestion.id r
        < security_questions_id_seq (fold_left seed_question qs db)).
Proof.
  revert db. induction qs as [|q qs IH]; intros db Hnd Hseq; simpl; [now split|].
  destruct (seed_question_ids db q Hnd Hseq) as [H1 H2]. now apply IH.
Qed.

Lemma station_present_iff (name : string) (db : DB) :
  existsb (fun s => Station.name s =? name)%string (station db) = true
  <-> In name (map Station.name (station db)).
Proof.
  rewrite existsb_exists, in_map_iff. split; intros [s [H1 H2]]; exists s.
  - apply String.eqb_eq in H2. now split.
  - split; [assumption|]. now apply String.eqb_eq.
Qed.

Lemma seed_station_names (db : DB) (station_data : string * Z) :
  (exists added, station (seed_station db station_data) = station db ++ added)
  /\ In (fst station_data) (map Station.name (station (seed_station db station_data))).
Proof.
  unfold seed_station.
  destruct (existsb _ (station db)) eqn:E.
  - split; [exists []; now rewrite app_nil_r|]. now apply station_present_iff.
  - simpl. split; [eauto|]. rewrite map_app. apply in_or_app. right. now left.
Qed.

Lemma seeding_stations_keeps (stations : list (string * Z)) (db : DB) :
  exists added, station (fold_left seed_station stations db) = station db ++ added.
Proof.
  revert db. induction stations as [|sd stations IH]; intros db; simpl.
  - exists []. now rewrite app_nil_r.
  - destruct (IH (seed_station db sd)) as [added2 H2].
    destruct (proj1 (seed_station_names db sd)) as [added1 H1].
    exists (added1 ++ added2). now rewrite H2, H1, app_assoc.
Qed.

Lemma seeding_stations_covers (stations : list (string * Z)) (db : DB) (sd : string * Z) :
  In sd stations ->
  In (fst sd) (map Station.name (station (fold_left seed_station stations db))).
Proof.
  revert db. induction stations as [|sd0 stations IH]; intros db H; [destruct H|].
  simpl. destruct H as [->|H]; [|now apply IH].
  destruct (seeding_stations_keeps stations (seed_station db sd)) as [added Hadded].
  rewrite Hadded, map_app. apply in_or_app. left.
  apply seed_station_names.
Qed.

Lemma seeding_stations_nothing_to_add (stations : list (string * Z)) (db : DB) :
  (forall sd, In sd stations -> In (fst sd) (map Station.name (station db))) ->
  fold_left seed_station stations db = db.
Proof.
  induction stations as [|sd stations IH]; intros H; simpl; [reflexivity|].
  assert (Hstep : seed_station db sd = db).
  { unfold seed_station.
    now rewrite (proj2 (station_present_iff (fst sd) db) (H sd (or_introl eq_refl))). }
  rewrite Hstep. apply IH. intros sd' Hsd'. apply H. now right.
Qed.

Lemma seeding_questions_stations (qs : list string) (db : DB) :
  station (fold_left seed_question qs db) = station db.
Proof.
  rewrite <- (seeding_frame qs db) at 2. reflexivity.
Qed.

(** *** The loops as they run: a refused row ends them *)

Lemma questions_loop_raised (qs : list string) (db : DB) (e : Exn) :
  fold_left add_question_if_absent qs (db, Raise e) = (db, Raise e).
Proof. induction qs as [|q qs IH]; simpl; [reflexivity|exact IH]. Qed.

Lemma stations_loop_raised (stations : list (string * Z)) (db : DB) (e : Exn) :
  fold_left add_station_if_absent stations (db, Raise e) = (db, Raise e).
Proof. induction stations as [|sd stations IH]; simpl; [reflexivity|exact IH]. Qed.

Lemma question_ids_drawn_free (db : DB) :
  question_ids_drawn db ->
  existsb (fun r => SecurityQuestion.id r =? security_questions_id_seq db)
          (security_questions db) = false.
Proof.
  intros H. apply existsb_false_forall. intros r Hr. apply Z.eqb_neq.
  unfold question_ids_drawn in H. rewrite Forall_forall in H. specialize (H r Hr). lia.
Qed.

Lemma station_ids_drawn_free (db : DB) :
  station_ids_drawn db ->
  existsb (fun s => Station.station_id s =? station_station_id_seq db) (station db) = false.
Proof.
  intros H. apply existsb_false_forall. intros r Hr. apply Z.eqb_neq.
  unfold station_ids_drawn in H. rewrite Forall_forall in H. specialize (H r Hr). lia.
Qed.

Lemma question_ids_drawn_seed (db : DB) (q : string) :
  question_ids_drawn db -> question_ids_drawn (seed_question db q).
Proof.
  unfold question_ids_drawn, seed_question. intros H.
  destruct (existsb (fun r => (SecurityQuestion.question r =? q)%string)
                    (security_questions db)); [assumption|].
  simpl. apply Forall_app. split.
  - eapply Forall_impl; [|exact H]. simpl. intros r Hr. lia.
  - constructor; [simpl; lia|constructor].
Qed.

Lemma station_ids_drawn_seed (db : DB) (sd : string * Z) :
  station_ids_drawn db -> station_ids_drawn (seed_station db sd).
Proof.
  unfold station_ids_drawn, seed_station. intros H.
  destruct (existsb (fun s => (Station.name s =? fst sd)%string) (station db));
    [assumption|].
  simpl. apply Forall_app. split.
  - eapply Forall_impl; [|exact H]. simpl. intros r Hr. lia.
  - constructor; [simpl; lia|constructor].
Qed.

Lemma question_ids_drawn_seeding (qs : list string) (db : DB) :
  question_ids_drawn db -> question_ids_drawn (fold_left seed_question qs db).
Proof.
  revert db. induction qs as [|q qs IH]; intros db H; simpl; [assumption|].
  now apply IH, question_ids_drawn_seed.
Qed.

Lemma station_ids_drawn_seeding (stations : list (string * Z)) (db : DB) :
  station_ids_drawn db -> station_ids_drawn (fold_left seed_station stations db).
Proof.
  revert db. induction stations as [|sd stations IH]; intros db H; simpl; [assumption|].
  now apply IH, station_ids_drawn_seed.
Qed.

(** One turn on a session that has raised nothing: it does what
    [seed_question] does, or the INSERT is refused, which takes a key of the
    table that the sequence had not issued. *)
Lemma add_question_if_absent_step (db : DB) (q : string) :
  add_question_if_absent (db, Return tt) q = (seed_question db q, Return tt)
  \/ (add_question_if_absent (db, Return tt) q =
        (set_security_questions db (security_questions db)
           (security_questions_id_seq db + 1),
         Raise (IntegrityError "security_questions_pkey"))
      /\ ~ question_ids_drawn db).
Proof.
  unfold add_question_if_absent, seed_question, insert_security_question.
  destruct (existsb (fun r => (SecurityQuestion.question r =? q)%string)
                    (security_questions db)); [now left|].
  destruct (existsb (fun r => SecurityQuestion.id r =? security_questions_id_seq db)
                    (security_questions db)) eqn:E; [|now left].
  right. split; [reflexivity|]. intros H. apply question_ids_drawn_free in H. congruence.
Qed.

Lemma add_station_if_absent_step (db : DB) (sd : string * Z) :
  add_station_if_absent (db, Return tt) sd = (seed_station db sd, Return tt)
  \/ (add_station_if_absent (db, Return tt) sd =
        (set_station db (station db) (station_station_id_seq db + 1),
         Raise (IntegrityError "station_pkey"))
      /\ ~ station_ids_drawn db).
Proof.
  unfold add_station_if_absent, seed_station, insert_station.
  destruct (existsb (fun s => (Station.name s =? fst sd)%string) (station db)); [now left|].
  destruct (existsb (fun s => Station.station_id s =? station_station_id_seq db)
                    (station db)) eqn:E; [|now left].
  right. split; [reflexivity|]. intros H. apply station_ids_drawn_free in H. congruence.
Qed.

(** A loop that ends without a refusal did what the turns of
    [seed_question] do. *)
Lemma questions_loop_returns (qs : list string) (db db' : DB) (u : unit) :
  fold_left add_question_if_absent qs (db, Return tt) = (db', Return u) ->
  db' = fold_left seed_question qs db.
Proof.
  revert db. induction qs as [|q qs IH]; intros db H; cbn [fold_left] in *.
  - now inversion H.
  - destruct (add_question_if_absent_step db q) as [E|[E _]]; rewrite E in H.
    + now apply IH.
    + rewrite questions_loop_raised in H. discriminate H.
Qed.

Lemma stations_loop_returns (stations : list (string * Z)) (db db' : DB) (u : unit) :
  fold_left add_station_if_absent stations (db, Return tt) = (db', Return u) ->
  db' = fold_left seed_station stations db.
Proof.
  revert db. induction stations as [|sd stations IH]; intros db H; cbn [fold_left] in *.
  - now inversion H.
  - destruct (add_station_if_absent_step db sd) as [E|[E _]]; rewrite E in H.
    + now apply IH.
    + rewrite stations_loop_raised in H. discriminate H.
Qed.

(** With the sequence ahead of every key, no row is refused. *)
Lemma questions_loop_drawn (qs : list string) (db : DB) :
  question_ids_drawn db ->
  fold_left add_question_if_absent qs (db, Return tt)
  = (fold_left seed_question qs db, Return tt).
Proof.
  revert db. induction qs as [|q qs IH]; intros db H; cbn [fold_left]; [reflexivity|].
  destruct (add_question_if_absent_step db q) as [E|[_ C]]; [|now destruct C].
  rewrite E. now apply IH, question_ids_drawn_seed.
Qed.

Lemma stations_loop_drawn (stations : list (string * Z)) (db : DB) :
  station_ids_drawn db ->
  fold_left add_station_if_absent stations (db, Return tt)
  = (fold_left seed_station stations db, Return tt).
Proof.
  revert db. induction stations as [|sd stations IH]; intros db H; cbn [fold_left];
    [reflexivity|].
  destruct (add_station_if_absent_step db sd) as [E|[_ C]]; [|now destruct C].
  rewrite E. now apply IH, station_ids_drawn_seed.
Qed.

(** What a refused loop has raised. *)
Lemma questions_loop_raises (qs : list string) (db db' : DB) (e : Exn) :
  fold_left add_question_if_absent qs (db, Return tt) = (db', Raise e) ->
  e = IntegrityError "security_questions_pkey" /\ ~ question_ids_drawn db.
Proof.
  intros H. split.
  - revert db H. induction qs as [|q qs IH]; intros db H; cbn [fold_left] in *;
      [discriminate H|].
    destruct (add_question_if_absent_step db q) as [E|[E _]]; rewrite E in H.
    + now apply (IH _ H).
    + rewrite questions_loop_raised in H. now inversion H.
  - intros Hd. rewrite (questions_loop_drawn qs db Hd) in H. discriminate H.
Qed.

Lemma stations_loop_raises (stations : list (string * Z)) (db db' : DB) (e : Exn) :
  fold_left add_station_if_absent stations (db, Return tt) = (db', Raise e) ->
  e = IntegrityError "station_pkey" /\ ~ station_ids_drawn db.
Proof.
  intros H. split.
  - revert db H. induction stations as [|sd stations IH]; intros db H; cbn [fold_left] in *;
      [discriminate H|].
    destruct (add_station_if_absent_step db sd) as [E|[E _]]; rewrite E in H.
    + now apply (IH _ H).
    + rewrite stations_loop_raised in H. now inversion H.
  - intros Hd. rewrite (stations_loop_drawn stations db Hd) in H. discriminate H.
Qed.

(** The question loop writes the catalog and its sequence only, the station
    loop the stations and their sequence only. *)
Lemma questions_loop_frame (qs : list string) (session : DB * outcome unit) :
  set_security_questions (fst (fold_left add_question_if_absent qs session))
    (security_questions (fst session)) (security_questions_id_seq (fst session))
  = fst session.
Proof.
  revert session. induction qs as [|q qs IH]; intros session; cbn [fold_left];
    [now destruct (fst session)|].
  assert (Hstep : set_security_questions (fst (add_question_if_absent session q))
                    (security_questions (fst session))
                    (security_questions_id_seq (fst session)) = fst session).
  { destruct session as [db [[]|e]]; unfold add_question_if_absent, insert_security_question;
      simpl; [|now destruct db].
    destruct (existsb (fun r => (SecurityQuestion.question r =? q)%string)
                      (security_questions db)); [now destruct db|].
    destruct (existsb (fun r => SecurityQuestion.id r =? security_questions_id_seq db)
                      (security_questions db)); now destruct db. }
  transitivity (set_security_questions
                  (set_security_questions
                     (fst (fold_left add_question_if_absent qs
                             (add_question_if_absent session q)))
                     (security_questions (fst (add_question_if_absent session q)))
                     (security_questions_id_seq (fst (add_question_if_absent session q))))
                  (security_questions (fst session))
                  (security_questions_id_seq (fst session)));
    [reflexivity|].
  rewrite IH. exact Hstep.
Qed.

Lemma stations_loop_frame (stations : list (string * Z)) (session : DB * outcome unit) :
  set_station (fst (fold_left add_station_if_absent stations session))
    (station (fst session)) (station_station_id_seq (fst session))
  = fst session.
Proof.
  revert session. induction stations as [|sd stations IH]; intros session; cbn [fold_left];
    [now destruct (fst session)|].
  assert (Hstep : set_station (fst (add_station_if_absent session sd))
                    (station (fst session)) (station_station_id_seq (fst session))
                  = fst session).
  { destruct session as [db [[]|e]]; unfold add_station_if_absent, insert_station;
      simpl; [|now destruct db].
    destruct (existsb (fun s => (Station.name s =? fst sd)%string) (station db));
      [now destruct db|].
    destruct (existsb (fun s => Station.station_id s =? station_station_id_seq db)
                      (station db)); now destruct db. }
  transitivity (set_station
                  (set_station
                     (fst (fold_left add_station_if_absent stations
                             (add_station_if_absent session sd)))
                     (station (fst (add_station_if_absent session sd)))
                     (station_station_id_seq (fst (add_station_if_absent session sd))))
                  (station (fst session)) (station_station_id_seq (fst session)));
    [reflexivity|].
  rewrite IH. exact Hstep.
Qed.


(** The two ways [insert_default_questions] ends. *)
Lemma insert_default_questions_cases (db : DB) :
  insert_default_questions db = (seed_questions db, Return tt)
  \/ (exists seq,
        insert_default_questions db =
          (set_security_questions db (security_questions db) seq,
           Raise (IntegrityError "security_questions_pkey"))
        /\ ~ question_ids_drawn db).
Proof.
  unfold insert_default_questions.
  pose proof (questions_loop_frame default_qs (db, Return tt)) as Hframe.
  destruct (fold_left add_question_if_absent default_qs (db, Return tt))
    as [db' [u|e]] eqn:E.
  - left. apply questions_loop_returns in E. now subst.
  - right. apply questions_loop_raises in E. destruct E as [-> Hd].
    exists (security_questions_id_seq db'). split; [|assumption].
    f_equal. simpl in Hframe. destruct db, db'. simpl in *. now inversion Hframe.
Qed.

Lemma insert_default_questions_drawn (db : DB) :
  question_ids_drawn db -> insert_default_questions db = (seed_questions db, Return tt).
Proof.
  intros H. destruct (insert_default_questions_cases db) as [E|[seq [_ C]]];
    [assumption|now destruct C].
Qed.


(** The two ways [init_database] ends. *)
Lemma init_database_cases (db : DB) :
  init_database db =
    (fold_left seed_question default_questions
       (fold_left seed_station default_stations db), Return tt)
  \/ (exists station_seq question_seq,
        init_database db =
          (set_security_questions (set_station db (station db) station_seq)
             (security_questions db) question_seq,
           Raise (PythonError "SystemExit"))
        /\ ~ (station_ids_drawn db /\ question_ids_drawn db)).
Proof.
  unfold init_database.
  pose proof (stations_loop_frame default_stations (db, Return tt)) as Hs.
  destruct (fold_left add_station_if_absent default_stations (db, Return tt))
    as [db1 [[]|e]] eqn:E1.
  - pose proof (questions_loop_frame default_questions (db1, Return tt)) as Hq.
    apply stations_loop_returns in E1.
    destruct (fold_left add_question_if_absent default_questions (db1, Return tt))
      as [db2 [u|e]] eqn:E2.
    + left. apply questions_loop_returns in E2. now subst.
    + right. exists (station_station_id_seq db1), (security_questions_id_seq db2). split.
      * f_equal. simpl in Hs, Hq. destruct db, db1, db2. simpl in *.
        inversion Hs. inversion Hq. now subst.
      * intros [_ Hd]. apply questions_loop_raises in E2. destruct E2 as [_ C]. apply C.
        unfold question_ids_drawn in *. subst db1.
        destruct (seeding_stations_questions default_stations db) as [-> ->]. exact Hd.
  - right. rewrite questions_loop_raised.
    exists (station_station_id_seq db1), (security_questions_id_seq db). split.
    + f_equal. simpl in Hs. destruct db, db1. simpl in *. now inversion Hs.
    + intros [Hd _]. apply stations_loop_raises in E1. now destruct E1 as [_ C].
Qed.


End SeedingProperties.

(** ** create_test_booking: what the caller gets back *)

(** C8. [create_test_booking] returns the request body it was given, not the
    row it stored: on the sample database, a request that leaves
    [booking_id] out is stored as booking 1 (the next value of the sequence)
    and the value returned still has no [booking_id]. *)
Theorem create_test_booking_returns_request :
  create_test_booking 1000 (Sample.booking_request "2024-05-01") Sample.db0
  = (set_learner_test_bookings Sample.db0
       [LearnerTestBooking.mk 1 2 1 1 "2024-05-01" "pending" 1000 None 1000] 2,
     Return (Sample.booking_request "2024-05-01"))
  /\ LearnerTestBookingSchema.booking_id (Sample.booking_request "2024-05-01") = None
  /\ LearnerTestBooking.booking_id
       (created_booking 1000 (Sample.booking_request "2024-05-01") Sample.db0) = 1.
Proof. repeat split. Qed.

(** ** The theorems on the sample data *)



Lemma sample_usernames_unique : NoDup (map User.username (users Sample.db0)).
Proof. repeat constructor; simpl; intuition discriminate. Qed.






Lemma update_test_result_last_write_wins_witness :
  get_test_booking 1 Sample.db_booked
  = Return (LearnerTestBooking.mk 1 2 1 1 "2024-05-01" "pending" 1000 None 1000)
  /\ update_test_result 99 (ResultUpdateSchema.mk Result.passed) Sample.db_booked
     = (Sample.db_booked, Raise (HTTPException 404 "Booking not found"))
  /\ exists db1 db2 message1 message2,
       update_test_result 1 (ResultUpdateSchema.mk Result.passed) Sample.db_booked
       = (db1, Return message1)
       /\ update_test_result 1 (ResultUpdateSchema.mk Result.failed) db1
          = (db2, Return message2)
       /\ get_test_booking 1 db2
          = Return (LearnerTestBooking.mk 1 2 1 1 "2024-05-01" "failed" 1000 None 1000).
Proof.
  split; [reflexivity|]. split.
  - apply (proj2 (update_test_result_last_write_wins 99 Sample.db_booked
                    Result.passed Result.failed)).
    simpl. intros b [<-|[]]. discriminate.
  - destruct (proj1 (update_test_result_last_write_wins 1 Sample.db_booked
                       Result.passed Result.failed)
                _ eq_refl) as [db1 [db2 [m1 [m2 [H1 [_ [H2 [H3 _]]]]]]]].
    exists db1, db2, m1, m2. split; [exact H1|]. split; [exact H2|exact H3].
Defined.

Lemma booking_without_result_is_pending_witness :
  LearnerTestBookingSchema.result (Sample.booking_request "2024-05-01") = None
  /\ create_test_booking 1000 (Sample.booking_request "2024-05-01") Sample.db0
     = (Sample.db_booked, Return (Sample.booking_request "2024-05-01"))
  /\ date_parameter Sample.date_in "2024-5-1" = Return "2024-05-01"%string
  /\ exists pending,
       get_pending_learners Sample.date_in "2024-5-1" Sample.db_booked = Return pending
       /\ In (LearnerTestBooking.mk 1 2 1 1 "2024-05-01" "pending" 1000 None 1000) pending.
Proof.
  split; [reflexivity|]. split; [reflexivity|]. split; [reflexivity|].
  exact (proj1 (proj2 (proj2 (proj2
           (booking_without_result_is_pending Sample.date_in 1000
              (Sample.booking_request "2024-05-01")
              Sample.db0 Sample.db_booked (Sample.booking_request "2024-05-01") "2024-5-1"
              eq_refl eq_refl eq_refl))))).
Defined.

Lemma get_all_results_by_date_breakdown_witness :
  Sample.date_in "20240501" = Some "2024-05-01"%string
  /\ get_all_results_by_date Sample.date_in "20240501" Sample.db_results
     = Return (ResultsByDate.mk "20240501" 4
                 [("pending", [ResultEntry.mk 1 2 1 "pending" None "2024-05-01" 1000;
                               ResultEntry.mk 5 2 1 "pending" None "2024-05-01" 1000]);
                  ("passed", [ResultEntry.mk 2 2 1 "passed" None "2024-05-01" 1000]);
                  ("failed", []);
                  ("absent", [ResultEntry.mk 4 2 1 "absent" None "2024-05-01" 1000])]%string
                 [("pending", 2); ("passed", 1); ("failed", 0); ("absent", 1)]%string)
  /\ get_all_results_by_date Sample.date_in "2024-13-45" Sample.db_results
     = Raise (DataError "invalid input syntax for type date")
  /\ get_all_results_by_date Sample.date_in Sample.nul_text Sample.db_results
     = Raise (PythonError "ValueError").
Proof.
  split; [reflexivity|].
  destruct (get_all_results_by_date_breakdown Sample.date_in "20240501" Sample.db_results)
    as [_ [_ Hday]].
  destruct (get_all_results_by_date_breakdown Sample.date_in "2024-13-45" Sample.db_results)
    as [_ [Hnone _]].
  destruct (get_all_results_by_date_breakdown Sample.date_in Sample.nul_text
              Sample.db_results) as [Hnul _].
  split; [exact (proj1 (Hday "2024-05-01"%string eq_refl eq_refl))|].
  split; [exact (Hnone eq_refl eq_refl)|exact (Hnul eq_refl)].
Defined.

Lemma empty_children_raise_not_found_witness :
  In 2 (learner_profiles Sample.db0)
  /\ get_bookings_by_learner 2 Sample.db0
     = Raise (HTTPException 404 "No bookings found for this learner")
  /\ get_security_answers_by_user 1 Sample.db_seeded
     = Raise (HTTPException 404 "Answers not found").
Proof.
  split; [left; reflexivity|]. split.
  - apply (proj1 (empty_children_raise_not_found Sample.db0) 2). intros b [].
  - apply (proj1 (proj2 (empty_children_raise_not_found Sample.db_seeded)) 1). intros a [].
Defined.

Lemma sample_catalog_drawn : question_ids_drawn Sample.db_catalog.
Proof. repeat constructor. Qed.


Lemma date_queries_return_empty_list_witness :
  Sample.date_in "2024-6-1" = Some "2024-06-01"%string
  /\ get_pending_learners Sample.date_in "2024-6-1" Sample.db_booked = Return []
  /\ get_completed_learners Sample.date_in "2024-6-1" Sample.db_booked = Return []
  /\ get_pending_learners Sample.date_in "2024-13-45" Sample.db_booked
     = Raise (DataError "invalid input syntax for type date").
Proof.
  split; [reflexivity|].
  destruct (date_queries_return_empty_list Sample.date_in "2024-6-1" Sample.db_booked)
    as [Hday _].
  destruct (Hday "2024-06-01"%string eq_refl eq_refl) as [_ [_ Hempty]].
  destruct Hempty as [H1 H2].
  - simpl. intros b [<-|[]]. discriminate.
  - split; [exact H1|]. split; [exact H2|].
    exact (proj1 (proj1 (proj2 (date_queries_return_empty_list Sample.date_in "2024-13-45"
                                  Sample.db_booked)) eq_refl eq_refl)).
Defined.

(** ** More on lists as tables *)

Lemma find_app_present {A : Type} (p : A -> bool) (rows rows' : list A) (r : A) :
  find p rows = Some r -> find p (rows ++ rows') = Some r.
Proof.
  induction rows as [|x rows IH]; simpl; [discriminate|].
  destruct (p x); [trivial|assumption].
Qed.

Lemma find_present {A : Type} (p : A -> bool) (rows : list A) (r : A) :
  In r rows -> p r = true -> exists r', find p rows = Some r'.
Proof.
  intros Hin Hp. destruct (find p rows) as [r'|] eqn:E; [eauto|].
  rewrite (find_none _ _ E r Hin) in Hp. discriminate.
Qed.

Lemma In_update_first {A : Type} (p : A -> bool) (f : A -> A) (rows : list A) (r : A) :
  find p rows = Some r -> In (f r) (update_first p f rows).
Proof.
  induction rows as [|x rows IH]; simpl; [discriminate|].
  destruct (p x).
  - intros H. inversion H; subst. now left.
  - intros H. right. now apply IH.
Qed.

Lemma map_update_first {A K : Type} (key : A -> K) (p : A -> bool) (f : A -> A)
    (rows : list A) :
  (forall x, key (f x) = key x) -> map key (update_first p f rows) = map key rows.
Proof.
  intros H. induction rows as [|x rows IH]; simpl; [reflexivity|].
  destruct (p x); simpl; [now rewrite H|now rewrite IH].
Qed.

Lemma update_first_ext_found {A : Type} (p : A -> bool) (f g : A -> A) (rows : list A)
    (r : A) :
  find p rows = Some r -> f r = g r -> update_first p f rows = update_first p g rows.
Proof.
  induction rows as [|x rows IH]; simpl; [discriminate|].
  destruct (p x).
  - intros H E. inversion H; subst. now rewrite E.
  - intros H E. now rewrite IH.
Qed.

(** Rows that the predicate rejects stay where they are. *)
Lemma In_update_first_other {A : Type} (p : A -> bool) (f : A -> A) (rows : list A) (r : A) :
  In r rows -> p r = false -> In r (update_first p f rows).
Proof.
  induction rows as [|x rows IH]; simpl; [trivial|].
  intros [->|Hin] Hp.
  - rewrite Hp. now left.
  - destruct (p x); right; auto.
Qed.

(** Replacing the key of the one row that has key [k] by a key that no row
    has keeps the keys distinct. *)
Lemma NoDup_update_first_key {A : Type} (key : A -> Z) (k : Z) (row : A) (rows : list A) :
  NoDup (map key rows) ->
  (key row = k \/ ~ In (key row) (map key rows)) ->
  NoDup (map key (update_first (fun x => key x =? k) (fun _ => row) rows)).
Proof.
  intros Hnd Hnew. induction rows as [|x rows IH]; simpl; [constructor|].
  simpl in Hnd. inversion Hnd as [|? ? Hx Hnd']; subst.
  destruct (key x =? k) eqn:E; simpl.
  - apply Z.eqb_eq in E. constructor; [|assumption].
    destruct Hnew as [Hk|Hfree].
    + rewrite Hk, <- E. assumption.
    + intros Hin. apply Hfree. simpl. now right.
  - constructor.
    + intros Hin. apply in_map_iff in Hin. destruct Hin as [y [Hy Hin]].
      assert (Hcases : y = row \/ In y rows).
      { clear - Hin. induction rows as [|z rows IH]; simpl in Hin; [destruct Hin|].
        destruct (key z =? k); simpl in Hin.
        - destruct Hin as [<-|Hin]; [now left|right; now right].
        - destruct Hin as [<-|Hin]; [right; now left|].
          destruct (IH Hin); [now left|right; now right]. }
      destruct Hcases as [->|Hy'].
      * destruct Hnew as [Hk|Hfree].
        -- apply Z.eqb_neq in E. congruence.
        -- apply Hfree. simpl. now left.
      * apply Hx. rewrite <- Hy. now apply in_map.
    + apply IH; [assumption|]. destruct Hnew as [Hk|Hfree]; [now left|right].
      intros Hin. apply Hfree. simpl. now right.
Qed.

Lemma find_update_first_found {A : Type} (p : A -> bool) (f : A -> A) (rows : list A)
    (r : A) :
  find p rows = Some r -> p (f r) = true -> find p (update_first p f rows) = Some (f r).
Proof.
  induction rows as [|x rows IH]; simpl; [discriminate|].
  destruct (p x) eqn:E.
  - intros H Hp. inversion H; subst. simpl. now rewrite Hp.
  - intros H Hp. simpl. rewrite E. now apply IH.
Qed.

Lemma In_update_first_inv {A : Type} (p : A -> bool) (f : A -> A) (rows : list A) (y : A) :
  In y (update_first p f rows) -> (exists r, In r rows /\ p r = true /\ y = f r) \/ In y rows.
Proof.
  induction rows as [|x rows IH]; simpl; [intros []|].
  destruct (p x) eqn:E; simpl.
  - intros [<-|Hin]; [left; exists x; auto|right; now right].
  - intros [<-|Hin]; [right; now left|].
    destruct (IH Hin) as [[r [Hr [Hp Hy]]]|Hy]; [left; exists r; auto|right; now right].
Qed.

(** Replacing the row with id [k] in a table with distinct ids keeps a keyed
    column distinct, when no other row has the new row's value in it. *)
Lemma NoDup_replace_by_id {A K : Type} (id : A -> Z) (key : A -> K) (k : Z) (row : A)
    (rows : list A) :
  NoDup (map id rows) -> NoDup (map key rows) ->
  (forall x, In x rows -> id x <> k -> key x <> key row) ->
  NoDup (map key (update_first (fun x => id x =? k) (fun _ => row) rows)).
Proof.
  intros Hids Hkeys Hother. induction rows as [|x rows IH]; simpl; [constructor|].
  simpl in Hids, Hkeys. inversion Hids as [|? ? Hxid Hids']; subst.
  inversion Hkeys as [|? ? Hxkey Hkeys']; subst.
  destruct (id x =? k) eqn:E; simpl.
  - apply Z.eqb_eq in E. constructor; [|assumption].
    intros Hin. apply in_map_iff in Hin. destruct Hin as [y [Hy Hin]].
    apply (Hother y (or_intror Hin)); [|assumption].
    intros Hyid. apply Hxid. rewrite E, <- Hyid. now apply in_map.
  - apply Z.eqb_neq in E. constructor.
    + intros Hin. apply in_map_iff in Hin. destruct Hin as [y [Hy Hin]].
      apply In_update_first_inv in Hin. destruct Hin as [[r [_ [_ ->]]]|Hin].
      * now apply (Hother x (or_introl eq_refl) E).
      * apply Hxkey. rewrite <- Hy. now apply in_map.
    + apply IH; try assumption. intros y Hy. apply Hother. now right.
Qed.

(** ** Users: lookups, invariants and login after a write *)

Section UserProperties.

Variable pwd_context_hash : string -> string -> string.
Variable pwd_context_verify : string -> string -> outcome bool.

(** X1. The user that [create_user] returns is the one [get_user_by_username]
    finds under the new username; users that were there before are still
    found under their usernames; and when the ids in use are below the
    sequence, [get_user_by_id] finds the new user under its id. *)
Theorem created_user_is_found (salt : string) (now : datetime) (user : UserCreate.t)
    (db db' : DB) (db_user : User.row) :
  create_user pwd_context_hash salt now user db = (db', Return db_user) ->
  get_user_by_username (UserCreate.username user) db' = Return db_user
  /\ (forall u, In u (users db) ->
        get_user_by_username (User.username u) db'
        = get_user_by_username (User.username u) db)
  /\ ((forall u, In u (users db) -> User.id u < users_id_seq db) ->
      User.id db_user = users_id_seq db
      /\ get_user_by_id (User.id db_user) db' = Return db_user).
Proof.
  intros Hrun. apply create_user_returns in Hrun. destruct Hrun as [Hfresh [Hrow ->]].
  split; [|split].
  - unfold get_user_by_username. simpl. rewrite find_app_absent.
    + simpl. rewrite Hrow. simpl. now rewrite String.eqb_refl.
    + apply find_none_forall. intros u Hu. apply String.eqb_neq. now apply Hfresh.
  - intros u Hu. unfold get_user_by_username. simpl.
    destruct (find_present (fun x => (User.username x =? User.username u)%string)
                (users db) u Hu (String.eqb_refl _)) as [u' Hu'].
    now rewrite (find_app_present _ _ _ _ Hu'), Hu'.
  - intros Hids. split; [now rewrite Hrow|].
    unfold get_user_by_id. simpl. rewrite find_app_absent.
    + simpl. now rewrite Z.eqb_refl.
    + apply find_none_forall. intros u Hu. apply Z.eqb_neq.
      rewrite Hrow. simpl. specialize (Hids u Hu). lia.
Qed.

Lemma update_user_row_users (user_id : Z) (row : User.row) (db db' : DB) :
  update_user_row user_id row db = Return db' ->
  users db' = update_first (fun u => User.id u =? user_id) (fun _ => row) (users db)
  /\ users_id_seq db' = users_id_seq db.
Proof.
  unfold update_user_row.
  destruct (existsb _ (users db)); [discriminate|].
  destruct (existsb _ (users db)); [discriminate|].
  intros H. inversion H. now split.
Qed.

(** What [update_user] does, case by case. *)
Lemma update_user_cases (salt : string) (user_id : Z) (user : UserCreate.t) (db : DB) :
  update_user pwd_context_hash salt user_id user db =
    match find (fun u => User.id u =? user_id) (users db) with
    | None => (db, Raise (HTTPException 404 "User not found"))
    | Some existing_user =>
        if existsb (fun u => ((User.username u =? UserCreate.username user)%string
                              || (User.email u =? UserCreate.email user)%string)
                             && negb (User.id u =? user_id)) (users db) then
          (db, Raise (HTTPException 400 "Username or email already exists"))
        else
          let updated :=
            set_user_fields (UserCreate.username user)
              (pwd_context_hash salt (UserCreate.password user)) (UserCreate.email user)
              (Role.str (UserCreate.role user)) (UserCreate.is_active user) existing_user in
          (set_users db
             (update_first (fun u => User.id u =? user_id) (fun _ => updated) (users db))
             (users_id_seq db),
           Return updated)
    end.
Proof.
  unfold update_user, update_user_row, get_password_hash.
  destruct (find _ (users db)) as [existing|]; [|reflexivity].
  destruct (existsb _ (users db)) eqn:E; [reflexivity|].
  cbv zeta. simpl User.username. simpl User.email.
  assert (H := proj1 (existsb_false_forall _ _) E).
  replace (existsb (fun u => (User.username u =? UserCreate.username user)%string
                             && negb (User.id u =? user_id)) (users db)) with false.
  2:{ symmetry. apply existsb_false_forall. intros u Hu. specialize (H u Hu). simpl in H.
      destruct (User.username u =? UserCreate.username user)%string; [|reflexivity].
      exact H. }
  replace (existsb (fun u => (User.email u =? UserCreate.email user)%string
                             && negb (User.id u =? user_id)) (users db)) with false.
  2:{ symmetry. apply existsb_false_forall. intros u Hu. specialize (H u Hu). simpl in H.
      destruct (User.email u =? UserCreate.email user)%string; [|reflexivity].
      now rewrite orb_true_r in H. }
  reflexivity.
Qed.

(** X2. [create_user] keeps the users table well formed: usernames, emails
    and ids stay unique and every id stays below the sequence, whether the
    call succeeds or raises. *)
Theorem create_user_keeps_users_well_formed (salt : string) (now : datetime)
    (user : UserCreate.t) (db : DB) :
  users_well_formed db ->
  users_well_formed (fst (create_user pwd_context_hash salt now user db)).
Proof.
  intros [Hnames [Hemails [Hids Hseq]]].
  destruct (create_user pwd_context_hash salt now user db) as [db' [row|e]] eqn:E.
  - apply create_user_returns in E. destruct E as [Hfresh [Hrow ->]]. simpl.
    unfold users_well_formed. simpl. rewrite !map_app. simpl.
    split; [|split; [|split]].
    + apply NoDup_snoc; [assumption|]. intros Hin. apply in_map_iff in Hin.
      destruct Hin as [u [Hu Hin]]. rewrite Hrow in Hu. simpl in Hu.
      now apply (proj1 (Hfresh u Hin)).
    + apply NoDup_snoc; [assumption|]. intros Hin. apply in_map_iff in Hin.
      destruct Hin as [u [Hu Hin]]. rewrite Hrow in Hu. simpl in Hu.
      now apply (proj2 (Hfresh u Hin)).
    + apply NoDup_snoc; [assumption|]. intros Hin. apply in_map_iff in Hin.
      destruct Hin as [u [Hu Hin]]. rewrite Hrow in Hu. simpl in Hu.
      specialize (Hseq u Hin). lia.
    + intros u Hin. apply in_app_or in Hin. destruct Hin as [Hin|[<-|[]]].
      * specialize (Hseq u Hin). lia.
      * rewrite Hrow. simpl. lia.
  - assert (db' = db); [|subst; now repeat split].
    unfold create_user, insert_user in E.
    repeat match type of E with
           | context [if ?c then _ else _] => destruct c
           end; now inversion E.
Qed.

(** X3. Logging in with the username of a successful [create_user]: a
    password for which verifying against the stored hash answers False gets
    401; one for which verifying raises gets 500 (or the error itself, were it
    an [HTTPException]); one for which it answers True gets past the
    credential check, and then a learner is refused with 403, an inactive
    user with 403, and otherwise the identity of the new user comes back. *)
Theorem login_after_create_user (salt : string) (now : datetime) (user : UserCreate.t)
    (db db' : DB) (db_user : User.row) (password role_hint : string) :
  create_user pwd_context_hash salt now user db = (db', Return db_user) ->
  let req := LoginRequest.mk (UserCreate.username user) password role_hint in
  let verifies :=
    pwd_context_verify password (pwd_context_hash salt (UserCreate.password user)) in
  (verifies = Return false ->
   login pwd_context_verify req db' = Raise (HTTPException 401 "Invalid credentials"))
  /\
  (forall e, verifies = Raise e ->
   login pwd_context_verify req db' =
     match e with
     | HTTPException _ _ => Raise e
     | _ => Raise (HTTPException 500 "Internal Server Error")
     end)
  /\
  (verifies = Return true ->
   login pwd_context_verify req db' =
     match UserCreate.role user with
     | Role.learner =>
         Raise (HTTPException 403
                  "Only instructors, admins, and super admins can access this application")
     | _ =>
         if UserCreate.is_active user then
           Return (Identity.mk (users_id_seq db) (UserCreate.username user)
                     (Role.str (UserCreate.role user)) (UserCreate.email user))
         else Raise (HTTPException 403 "User inactive")
     end).
Proof.
  intros Hrun req verifies. apply create_user_returns in Hrun.
  destruct Hrun as [Hfresh [Hrow ->]].
  assert (Htry : login_try pwd_context_verify req
                   (set_users db (users db ++ [db_user]) (users_id_seq db + 1)) =
                 match verifies with
                 | Raise e => Raise e
                 | Return verified =>
                     if negb verified
                     then Raise (HTTPException 401 "Invalid credentials")
                     else match UserCreate.role user with
                          | Role.learner =>
                              Raise (HTTPException 403
                                "Only instructors, admins, and super admins can access this application")
                          | _ =>
                              if UserCreate.is_active user then
                                Return (Identity.mk (users_id_seq db)
                                          (UserCreate.username user)
                                          (Role.str (UserCreate.role user))
                                          (UserCreate.email user))
                              else Raise (HTTPException 403 "User inactive")
                          end
                 end).
  { unfold login_try. simpl users. rewrite find_app_absent.
    - rewrite Hrow. unfold created_user, get_password_hash, verify_password. simpl.
      rewrite String.eqb_refl. unfold verifies. cbn [User.password].
      destruct (pwd_context_verify password
                  (pwd_context_hash salt (UserCreate.password user))) as [[|]|e];
        simpl; [|reflexivity|reflexivity].
      destruct (UserCreate.role user); simpl; try reflexivity;
        destruct (UserCreate.is_active user); reflexivity.
    - apply find_none_forall. intros u Hu. apply String.eqb_neq. now apply Hfresh. }
  split; [|split].
  - intros Hv. rewrite Hv in Htry. simpl in Htry.
    apply login_reraises; [assumption|exact I].
  - intros e Hv. rewrite Hv in Htry. unfold login. rewrite Htry. now destruct e.
  - intros Hv. rewrite Hv in Htry. simpl in Htry.
    apply login_reraises; [assumption|].
    destruct (UserCreate.role user); try exact I;
      destruct (UserCreate.is_active user); exact I.
Qed.


(** X5. A successful [update_user] replaces the row of that id: the updated
    user keeps its id and creation time, carries the hash of the password of
    the request, and is what [get_user_by_id] then returns; the other users
    are still in the table; and a well formed users table stays well
    formed. *)
Theorem update_user_replaces_row (salt : string) (user_id : Z) (user : UserCreate.t)
    (db db' : DB) (updated : User.row) :
  users_well_formed db ->
  update_user pwd_context_hash salt user_id user db = (db', Return updated) ->
  (exists existing,
     get_user_by_id user_id db = Return existing
     /\ User.id updated = User.id existing
     /\ User.created_at updated = User.created_at existing)
  /\ User.id updated = user_id
  /\ User.username updated = UserCreate.username user
  /\ User.email updated = UserCreate.email user
  /\ User.password updated = pwd_context_hash salt (UserCreate.password user)
  /\ get_user_by_id user_id db' = Return updated
  /\ (forall u, In u (users db) -> User.id u <> user_id -> In u (users db'))
  /\ users_well_formed db'.
Proof.
  intros [Hnames [Hemails [Hids Hseq]]]. rewrite update_user_cases.
  destruct (find _ (users db)) as [existing|] eqn:Hfind; [|discriminate].
  destruct (existsb _ (users db)) eqn:Hcheck; [discriminate|].
  cbv zeta. intros H. inversion H as [[Hdb Hupdated]]. clear H.
  pose proof (find_some _ _ Hfind) as [Hexin Hexid]. apply Z.eqb_eq in Hexid.
  assert (Hother : forall u, In u (users db) -> User.id u <> user_id ->
            User.username u <> UserCreate.username user
            /\ User.email u <> UserCreate.email user).
  { intros u Hu Hid. pose proof (proj1 (existsb_false_forall _ _) Hcheck u Hu) as Hc.
    simpl in Hc. rewrite (proj2 (Z.eqb_neq _ _) Hid), andb_true_r in Hc.
    apply orb_false_iff in Hc. destruct Hc as [H1 H2].
    split; now apply String.eqb_neq. }
  split; [exists existing; unfold get_user_by_id; rewrite Hfind; now repeat split|].
  split; [assumption|]. split; [reflexivity|]. split; [reflexivity|].
  split; [reflexivity|]. split; [|split].
  - unfold get_user_by_id. simpl.
    rewrite (find_update_first_found _ _ _ existing); [reflexivity|assumption|].
    simpl. now apply Z.eqb_eq.
  - intros u Hu Hid. simpl. apply In_update_first_other; [assumption|].
    now apply Z.eqb_neq.
  - unfold users_well_formed. simpl. split; [|split; [|split]].
    + apply NoDup_replace_by_id; try assumption.
      intros x Hx Hid. simpl. now apply Hother.
    + apply NoDup_replace_by_id; try assumption.
      intros x Hx Hid. simpl. now apply Hother.
    + apply NoDup_replace_by_id; try assumption.
      intros x Hx Hid. simpl. congruence.
    + intros u Hu. apply In_update_first_inv in Hu.
      destruct Hu as [[r [_ [_ ->]]]|Hu]; [|now apply Hseq].
      simpl. now apply Hseq.
Qed.

Lemma update_user_is_active_users (user_id : Z) (value : bool) (db : DB) :
  users (fst (update_user_is_active user_id value db))
  = update_first (fun u => User.id u =? user_id) (set_is_active value) (users db).
Proof.
  unfold update_user_is_active.
  destruct (find _ (users db)) eqn:E; [reflexivity|].
  simpl. symmetry. now apply update_first_absent.
Qed.

(** X6. [update_user_is_active] on an id that no user has raises 404 and
    changes nothing; on an existing user it returns the id with the new
    flag, [get_user_is_active] then returns the same, setting the same
    value again changes nothing more, and no username or password
    changes. *)
Theorem update_user_is_active_round_trip (user_id : Z) (value : bool) (db : DB) :
  ((forall u, In u (users db) -> User.id u <> user_id) ->
   update_user_is_active user_id value db = (db, Raise (HTTPException 404 "User not found"))
   /\ get_user_is_active user_id db = Raise (HTTPException 404 "User not found"))
  /\
  (forall existing,
     get_user_by_id user_id db = Return existing ->
     exists db',
       update_user_is_active user_id value db
       = (db', Return (UserIsActive.mk user_id value))
       /\ get_user_is_active user_id db' = Return (UserIsActive.mk user_id value)
       /\ get_user_by_id user_id db' = Return (set_is_active value existing)
       /\ fst (update_user_is_active user_id value db') = db'
       /\ map User.username (users db') = map User.username (users db)
       /\ map User.password (users db') = map User.password (users db)).
Proof.
  split.
  - intros H. unfold update_user_is_active, get_user_is_active.
    rewrite find_none_forall; [now split|].
    intros u Hu. apply Z.eqb_neq. now apply H.
  - unfold get_user_by_id. intros existing Hget.
    destruct (find _ (users db)) as [u|] eqn:Hfind; [|discriminate].
    inversion Hget; subst u. clear Hget.
    pose proof (find_some _ _ Hfind) as [Hexin Hexid]. apply Z.eqb_eq in Hexid.
    assert (Hfind' : find (fun u => User.id u =? user_id)
                       (update_first (fun u => User.id u =? user_id)
                          (set_is_active value) (users db))
                     = Some (set_is_active value existing))
      by (apply find_update_first; [reflexivity|assumption]).
    eexists. split; [|split; [|split; [|split; [|split]]]].
    + unfold update_user_is_active. rewrite Hfind, Hexid. reflexivity.
    + unfold get_user_is_active. simpl. rewrite Hfind'. simpl. now rewrite Hexid.
    + simpl. now rewrite Hfind'.
    + unfold update_user_is_active. simpl. rewrite Hfind'. simpl.
      rewrite update_first_same; [reflexivity|reflexivity|now intros []].
    + simpl. now apply map_update_first.
    + simpl. now apply map_update_first.
Qed.

(** X7. Once [update_user_is_active] has switched a user off, a login with
    the right password is refused with 403 "User inactive"; switched on
    again, the same login returns the identity.  (Usernames unique, the
    password verifies, the role is one of the three that may log in.) *)
Theorem login_follows_is_active (user_id : Z) (db : DB) (user : User.row)
    (password role_hint : string) :
  NoDup (map User.username (users db)) ->
  get_user_by_id user_id db = Return user ->
  pwd_context_verify password (User.password user) = Return true ->
  In (User.role user) ["instructor"; "admin"; "super_admin"]%string ->
  let req := LoginRequest.mk (User.username user) password role_hint in
  login pwd_context_verify req (fst (update_user_is_active user_id false db))
  = Raise (HTTPException 403 "User inactive")
  /\ login pwd_context_verify req (fst (update_user_is_active user_id true db))
     = Return (Identity.mk (User.id user) (User.username user) (User.role user)
                 (User.email user)).
Proof.
  intros Hnd Hget Hverify Hrole req. unfold get_user_by_id in Hget.
  destruct (find _ (users db)) as [u|] eqn:Hfind; [|discriminate].
  inversion Hget; subst u. clear Hget.
  assert (Hlogin : forall value,
            login_try pwd_context_verify req (fst (update_user_is_active user_id value db))
            = if value
              then Return (Identity.mk (User.id user) (User.username user) (User.role user)
                             (User.email user))
              else Raise (HTTPException 403 "User inactive")).
  { intros value.
    rewrite (login_known_username pwd_context_verify req _ (set_is_active value user)).
    - unfold verify_password, req.
      change (LoginRequest.password (LoginRequest.mk (User.username user) password role_hint))
        with password.
      change (User.password (set_is_active value user)) with (User.password user).
      change (User.role (set_is_active value user)) with (User.role user).
      rewrite Hverify, (proj2 (existsb_eqb_In _ _) Hrole). simpl. now destruct value.
    - rewrite update_user_is_active_users, map_update_first; [assumption|reflexivity].
    - rewrite update_user_is_active_users. now apply In_update_first.
    - reflexivity. }
  split; apply login_reraises; try exact I; apply Hlogin.
Qed.

End UserProperties.

(** ** Bookings: lookups after a write, refusals, deletion *)

Lemma find_filter_other {A : Type} (p q : A -> bool) (rows : list A) :
  (forall r, p r = true -> q r = true) ->
  find p (filter q rows) = find p rows.
Proof.
  intros H. induction rows as [|r rows IH]; simpl; [reflexivity|].
  destruct (q r) eqn:Eq; simpl.
  - destruct (p r); [reflexivity|assumption].
  - destruct (p r) eqn:Ep; [|assumption].
    rewrite (H r Ep) in Eq. discriminate.
Qed.

Lemma find_filter_removed {A : Type} (p : A -> bool) (rows : list A) :
  find p (filter (fun r => negb (p r)) rows) = None.
Proof.
  apply find_none_forall. intros r Hr. apply filter_In in Hr.
  destruct Hr as [_ Hr]. now apply negb_true_iff.
Qed.

(** X8. The booking that a successful [create_test_booking] stored is what
    [get_test_booking] returns under its id, it is the last entry of
    [get_all_test_bookings], and every booking that could be read before
    reads the same. *)
Theorem created_booking_is_found (now : datetime) (booking : LearnerTestBookingSchema.t)
    (db db' : DB) (response : LearnerTestBookingSchema.t) :
  create_test_booking now booking db = (db', Return response) ->
  let row := created_booking now booking db in
  get_test_booking (LearnerTestBooking.booking_id row) db' = Return row
  /\ get_all_test_bookings db' = Return (learner_test_bookings db ++ [row])
  /\ forall booking_id b,
       get_test_booking booking_id db = Return b ->
       get_test_booking booking_id db' = Return b.
Proof.
  intros Hrun row. apply create_test_booking_returns in Hrun.
  destruct Hrun as [_ [Hrows Hfree]]. fold row in Hrows, Hfree.
  split; [|split].
  - unfold get_test_booking. rewrite Hrows, (find_app_absent _ _ _ Hfree). simpl.
    now rewrite Z.eqb_refl.
  - unfold get_all_test_bookings. now rewrite Hrows.
  - intros booking_id b. unfold get_test_booking. rewrite Hrows.
    destruct (find (fun b0 => LearnerTestBooking.booking_id b0 =? booking_id)
                (learner_test_bookings db)) as [b'|] eqn:E;
      [|intros H; discriminate H].
    intros H. now rewrite (find_app_present _ _ _ _ E).
Qed.

(** X9. [create_test_booking] checks nothing itself: it succeeds exactly when
    the license code has no NUL byte, the integers of the request fit their
    columns, the booking id is free and the learner profile, the instructor
    profile and the station it names exist.  Otherwise it is never the
    handler that raises: the driver raises [ValueError] for the NUL byte, the
    database a [DataError] for an integer beyond 32 bits, else an
    [IntegrityError], after which the sequence of the booking ids stands
    where the refused INSERT left it (one further when the id was to be
    generated).  In every case no booking is stored and no other table is
    touched. *)
Theorem create_test_booking_refusals (now : datetime) (booking : LearnerTestBookingSchema.t)
    (db : DB) :
  let sendable :=
    match LearnerTestBookingSchema.license_code booking with
    | Some code => negb (has_nul code)
    | None => true
    end in
  let accepted :=
    sendable = true
    /\ booking_fits booking = true
    /\ (forall b, In b (learner_test_bookings db) ->
          LearnerTestBooking.booking_id b
          <> match LearnerTestBookingSchema.booking_id booking with
             | Some id => id
             | None => learner_test_bookings_booking_id_seq db
             end)
    /\ In (LearnerTestBookingSchema.learner_id booking) (learner_profiles db)
    /\ In (LearnerTestBookingSchema.instructor_id booking) (instructor_profile db)
    /\ (exists s, In s (station db)
                  /\ Station.station_id s = LearnerTestBookingSchema.station_id booking) in
  (accepted <-> exists db', create_test_booking now booking db = (db', Return booking))
  /\ (forall db' e,
        create_test_booking now booking db = (db', Raise e) ->
        learner_test_bookings db' = learner_test_bookings db
        /\ set_learner_test_bookings db' (learner_test_bookings db)
             (learner_test_bookings_booking_id_seq db) = db
        /\ (forall status_code detail, e <> HTTPException status_code detail)
        /\ ((sendable = false /\ e = PythonError "ValueError")
            \/ (sendable = true /\ booking_fits booking = false
                /\ e = DataError "integer out of range")
            \/ (sendable = true /\ booking_fits booking = true
                /\ (exists constraint, e = IntegrityError constraint)
                /\ learner_test_bookings_booking_id_seq db' =
                     match LearnerTestBookingSchema.booking_id booking with
                     | Some _ => learner_test_bookings_booking_id_seq db
                     | None => learner_test_bookings_booking_id_seq db + 1
                     end))).
Proof.
  intros sendable accepted. change sendable with (booking_sendable booking) in *.
  change (match LearnerTestBookingSchema.booking_id booking with
          | Some id => id
          | None => learner_test_bookings_booking_id_seq db
          end)
    with (LearnerTestBooking.booking_id (created_booking now booking db)) in accepted.
  split; [split|].
  - intros [Hsend [Hfits [Hpk [Hl [Hi Hs]]]]]. now apply create_test_booking_accepts.
  - intros [db' Hrun]. unfold accepted.
    destruct (create_test_booking_returns_db _ _ _ _ _ Hrun) as [Hsend [Hfits _]].
    destruct (create_test_booking_returns_keys _ _ _ _ _ Hrun) as [Hl [Hi Hs]].
    destruct (create_test_booking_returns _ _ _ _ _ Hrun) as [_ [_ Hfree]].
    repeat (split; [assumption|]). split; [|now repeat split].
    intros b Hb. apply Z.eqb_neq. exact (find_none _ _ Hfree b Hb).
  - intros db' e Hrun. apply create_test_booking_raises in Hrun.
    destruct Hrun as [[-> [[-> Hsend]|[-> [Hsend Hfits]]]]|[c [-> [-> [Hsend Hfits]]]]].
    + split; [reflexivity|]. split; [now destruct db|]. split; [discriminate|].
      left. now split.
    + split; [reflexivity|]. split; [now destruct db|]. split; [discriminate|].
      right. left. now repeat split.
    + split; [reflexivity|]. split; [now destruct db|]. split; [discriminate|].
      right. right. split; [assumption|]. split; [assumption|]. split; [eauto|reflexivity].
Qed.

(** X10. [delete_test_booking] raises 404 "Booking not found" for an id that
    no booking has and changes nothing.  Otherwise it answers "Deleted";
    the id then reads as not found, deleting it again raises 404, every
    other id reads as before, and no other table changes. *)
Theorem delete_test_booking_removes (booking_id : Z) (db : DB) :
  ((forall b, In b (learner_test_bookings db) -> LearnerTestBooking.booking_id b <> booking_id) ->
   delete_test_booking booking_id db = (db, Raise (HTTPException 404 "Booking not found")))
  /\
  (forall booking,
     get_test_booking booking_id db = Return booking ->
     exists db',
       delete_test_booking booking_id db = (db', Return "Deleted"%string)
       /\ get_test_booking booking_id db' = Raise (HTTPException 404 "Booking not found")
       /\ delete_test_booking booking_id db'
          = (db', Raise (HTTPException 404 "Booking not found"))
       /\ (forall other, other <> booking_id ->
             get_test_booking other db' = get_test_booking other db)
       /\ (forall b, In b (learner_test_bookings db') <->
                     In b (learner_test_bookings db)
                     /\ LearnerTestBooking.booking_id b <> booking_id)
       /\ set_learner_test_bookings db' (learner_test_bookings db)
            (learner_test_bookings_booking_id_seq db) = db).
Proof.
  split.
  - intros H. unfold delete_test_booking. rewrite find_none_forall; [reflexivity|].
    intros b Hb. apply Z.eqb_neq. now apply H.
  - unfold get_test_booking. intros booking Hget.
    destruct (find _ (learner_test_bookings db)) as [b|] eqn:Hfind; [|discriminate].
    eexists. split; [unfold delete_test_booking; rewrite Hfind; reflexivity|].
    split; [|split; [|split; [|split]]].
    + simpl. now rewrite find_filter_removed.
    + unfold delete_test_booking. simpl. now rewrite find_filter_removed.
    + intros other Hother. simpl. rewrite find_filter_other; [reflexivity|].
      intros r Hr. apply Z.eqb_eq in Hr. apply negb_true_iff, Z.eqb_neq. congruence.
    + intros r. simpl. rewrite filter_In, negb_true_iff, Z.eqb_neq. tauto.
    + now destruct db.
Qed.

(** ** Bookings: update_test_booking *)

Lemma update_booking_row_bookings (booking_id : Z) (row : LearnerTestBooking.row)
    (db db' : DB) :
  update_booking_row booking_id row db = Return db' ->
  db' = set_learner_test_bookings db
          (update_first (fun b => LearnerTestBooking.booking_id b =? booking_id)
             (fun _ => row) (learner_test_bookings db))
          (learner_test_bookings_booking_id_seq db)
  /\ (LearnerTestBooking.booking_id row = booking_id
      \/ forall b, In b (learner_test_bookings db) ->
                   LearnerTestBooking.booking_id b <> LearnerTestBooking.booking_id row).
Proof.
  unfold update_booking_row.
  destruct (negb (LearnerTestBooking.booking_id row =? booking_id)
            && existsb _ (learner_test_bookings db)) eqn:Epk; [discriminate|].
  destruct (negb (existsb _ (learner_profiles db))); [discriminate|].
  destruct (negb (existsb _ (instructor_profile db))); [discriminate|].
  destruct (negb (existsb _ (station db))); [discriminate|].
  intros H. inversion H. split; [reflexivity|].
  apply andb_false_iff in Epk. destruct Epk as [E|E].
  - left. apply negb_false_iff in E. now apply Z.eqb_eq.
  - right. intros b Hb. apply Z.eqb_neq.
    exact (proj1 (existsb_false_forall _ _) E b Hb).
Qed.

(** X11. [update_test_booking] raises 404 for an id that no booking has.  On
    success the booking takes the learner, instructor, station and test date
    of the request and keeps each optional field that the request leaves
    out; with the id left out it is then read back under the same id.  A
    request that repeats the booking's own required fields and carries only
    a result has the effect of [update_test_result] with that result. *)
Theorem update_test_booking_partial (booking_id : Z) (booking : LearnerTestBookingSchema.t)
    (db : DB) :
  ((forall b, In b (learner_test_bookings db) -> LearnerTestBooking.booking_id b <> booking_id) ->
   update_test_booking booking_id booking db
   = (db, Raise (HTTPException 404 "Booking not found")))
  /\
  (forall existing db' updated,
     get_test_booking booking_id db = Return existing ->
     update_test_booking booking_id booking db = (db', Return updated) ->
     LearnerTestBooking.learner_id updated = LearnerTestBookingSchema.learner_id booking
     /\ LearnerTestBooking.instructor_id updated = LearnerTestBookingSchema.instructor_id booking
     /\ LearnerTestBooking.station_id updated = LearnerTestBookingSchema.station_id booking
     /\ LearnerTestBooking.test_date updated = LearnerTestBookingSchema.test_date booking
     /\ (LearnerTestBookingSchema.result booking = None ->
         LearnerTestBooking.result updated = LearnerTestBooking.result existing)
     /\ (LearnerTestBookingSchema.license_code booking = None ->
         LearnerTestBooking.license_code updated = LearnerTestBooking.license_code existing)
     /\ (LearnerTestBookingSchema.booking_date booking = None ->
         LearnerTestBooking.booking_date updated = LearnerTestBooking.booking_date existing)
     /\ (LearnerTestBookingSchema.registered_on booking = None ->
         LearnerTestBooking.registered_on updated = LearnerTestBooking.registered_on existing)
     /\ (LearnerTestBookingSchema.booking_id booking = None ->
         get_test_booking booking_id db' = Return updated))
  /\
  (forall existing r,
     get_test_booking booking_id db = Return existing ->
     In (LearnerTestBooking.learner_id existing) (learner_profiles db) ->
     In (LearnerTestBooking.instructor_id existing) (instructor_profile db) ->
     (exists s, In s (station db)
                /\ Station.station_id s = LearnerTestBooking.station_id existing) ->
     update_test_booking booking_id
       (LearnerTestBookingSchema.mk None
          (LearnerTestBooking.learner_id existing) (LearnerTestBooking.instructor_id existing)
          (LearnerTestBooking.station_id existing) (LearnerTestBooking.test_date existing)
          (Some r) None None None) db
     = (fst (update_test_result booking_id (ResultUpdateSchema.mk r) db),
        Return (set_result (Result.str r) existing))).
Proof.
  split; [|split].
  - intros H. unfold update_test_booking. rewrite find_none_forall; [reflexivity|].
    intros b Hb. apply Z.eqb_neq. now apply H.
  - unfold get_test_booking, update_test_booking. intros existing db' updated.
    destruct (find (fun b => LearnerTestBooking.booking_id b =? booking_id)
                (learner_test_bookings db)) as [b|] eqn:Hfind;
      [|intros Hget; discriminate Hget].
    intros Hget. inversion Hget; subst b. clear Hget.
    destruct (update_booking_row booking_id (set_booking_fields booking existing) db)
      as [db''|e] eqn:Hrow; [|discriminate].
    intros H. inversion H; subst db'' updated. clear H.
    apply update_booking_row_bookings in Hrow. destruct Hrow as [-> _].
    repeat split; try (intros E; unfold set_booking_fields; simpl; now rewrite E).
    intros E. simpl.
    rewrite (find_update_first_found _ _ _ existing); [reflexivity|assumption|].
    unfold set_booking_fields. simpl. rewrite E.
    apply find_some in Hfind. apply Hfind.
  - unfold get_test_booking. intros existing r.
    destruct (find (fun b => LearnerTestBooking.booking_id b =? booking_id)
                (learner_test_bookings db)) as [b|] eqn:Hfind;
      [|intros Hget; discriminate Hget].
    intros Hget Hl Hi [s [Hs Hsid]]. inversion Hget; subst b. clear Hget.
    pose proof (find_some _ _ Hfind) as [_ Hid]. apply Z.eqb_eq in Hid.
    unfold update_test_booking, update_test_result. rewrite Hfind.
    assert (Hsame : set_booking_fields
                      (LearnerTestBookingSchema.mk None
                         (LearnerTestBooking.learner_id existing)
                         (LearnerTestBooking.instructor_id existing)
                         (LearnerTestBooking.station_id existing)
                         (LearnerTestBooking.test_date existing)
                         (Some r) None None None) existing
                    = set_result (Result.str r) existing)
      by now destruct existing.
    cbv zeta. rewrite Hsame. unfold update_booking_row.
    change (LearnerTestBooking.booking_id (set_result (Result.str r) existing))
      with (LearnerTestBooking.booking_id existing).
    change (LearnerTestBooking.learner_id (set_result (Result.str r) existing))
      with (LearnerTestBooking.learner_id existing).
    change (LearnerTestBooking.instructor_id (set_result (Result.str r) existing))
      with (LearnerTestBooking.instructor_id existing).
    change (LearnerTestBooking.station_id (set_result (Result.str r) existing))
      with (LearnerTestBooking.station_id existing).
    rewrite Hid, Z.eqb_refl. simpl negb at 1. rewrite andb_false_l.
    replace (existsb (Z.eqb (LearnerTestBooking.learner_id existing)) (learner_profiles db))
      with true.
    2:{ symmetry. apply existsb_exists. eexists. split; [exact Hl|apply Z.eqb_refl]. }
    replace (existsb (Z.eqb (LearnerTestBooking.instructor_id existing))
               (instructor_profile db)) with true.
    2:{ symmetry. apply existsb_exists. eexists. split; [exact Hi|apply Z.eqb_refl]. }
    replace (existsb (fun s0 => Station.station_id s0
                                =? LearnerTestBooking.station_id existing) (station db))
      with true.
    2:{ symmetry. apply existsb_exists. exists s. split; [exact Hs|]. now apply Z.eqb_eq. }
    simpl. f_equal. f_equal.
    now apply (update_first_ext_found _ _ _ _ existing).
Qed.

(** ** Bookings: what every writer keeps *)

Lemma NoDup_map_filter {A K : Type} (key : A -> K) (q : A -> bool) (rows : list A) :
  NoDup (map key rows) -> NoDup (map key (filter q rows)).
Proof.
  induction rows as [|r rows IH]; simpl; [trivial|].
  intros H. inversion H as [|? ? Hr Hnd]; subst.
  destruct (q r); simpl; [|now apply IH].
  constructor; [|now apply IH]. intros Hin. apply Hr.
  apply in_map_iff in Hin. destruct Hin as [x [Hx Hin]].
  apply filter_In in Hin. rewrite <- Hx. apply in_map. apply Hin.
Qed.

(** X12. Booking ids stay unique under every handler that writes the
    bookings table: [create_test_booking], [update_test_result],
    [update_test_booking] (which may move a booking to a new id) and
    [delete_test_booking]. *)
Theorem booking_ids_stay_unique (now : datetime) (booking_id : Z)
    (booking : LearnerTestBookingSchema.t) (result_update : ResultUpdateSchema.t) (db : DB) :
  NoDup (map LearnerTestBooking.booking_id (learner_test_bookings db)) ->
  NoDup (map LearnerTestBooking.booking_id
           (learner_test_bookings (fst (create_test_booking now booking db))))
  /\ NoDup (map LearnerTestBooking.booking_id
              (learner_test_bookings (fst (update_test_result booking_id result_update db))))
  /\ NoDup (map LearnerTestBooking.booking_id
              (learner_test_bookings (fst (update_test_booking booking_id booking db))))
  /\ NoDup (map LearnerTestBooking.booking_id
              (learner_test_bookings (fst (delete_test_booking booking_id db)))).
Proof.
  intros Hnd. split; [|split; [|split]].
  - destruct (create_test_booking now booking db) as [db' [response|e]] eqn:E.
    + apply create_test_booking_returns in E. destruct E as [_ [Hrows Hfree]].
      simpl fst. rewrite Hrows, map_app. apply NoDup_snoc; [assumption|].
      intros Hin. apply in_map_iff in Hin. destruct Hin as [b [Hb Hin]].
      pose proof (find_none _ _ Hfree b Hin) as Hne. apply Z.eqb_neq in Hne.
      now apply Hne.
    + apply create_test_booking_raises_rows in E. simpl fst. now rewrite E.
  - unfold update_test_result.
    destruct (find _ (learner_test_bookings db)); [|assumption].
    simpl. rewrite map_update_first; [assumption|reflexivity].
  - unfold update_test_booking.
    destruct (find _ (learner_test_bookings db)) as [existing|]; [|assumption].
    destruct (update_booking_row booking_id (set_booking_fields booking existing) db)
      as [db'|e] eqn:E; [|assumption].
    apply update_booking_row_bookings in E. destruct E as [-> Hkey]. simpl.
    apply NoDup_update_first_key; [assumption|].
    destruct Hkey as [Hk|Hfree]; [now left|right].
    intros Hin. apply in_map_iff in Hin. destruct Hin as [b [Hb Hin]].
    now apply (Hfree b Hin).
  - unfold delete_test_booking.
    destruct (find _ (learner_test_bookings db)); [|assumption].
    simpl. now apply NoDup_map_filter.
Qed.

(** X13. Every stored result stays one of "pending", "passed", "failed",
    "absent" under every handler that writes the bookings table. *)
Theorem booking_results_stay_valid (now : datetime) (booking_id : Z)
    (booking : LearnerTestBookingSchema.t) (result_update : ResultUpdateSchema.t) (db : DB) :
  let valid := fun rows : list LearnerTestBooking.row =>
    Forall (fun b => In (LearnerTestBooking.result b)
                        ["pending"; "passed"; "failed"; "absent"]%string) rows in
  valid (learner_test_bookings db) ->
  valid (learner_test_bookings (fst (create_test_booking now booking db)))
  /\ valid (learner_test_bookings (fst (update_test_result booking_id result_update db)))
  /\ valid (learner_test_bookings (fst (update_test_booking booking_id booking db)))
  /\ valid (learner_test_bookings (fst (delete_test_booking booking_id db))).
Proof.
  intros valid H. unfold valid in *. split; [|split; [|split]].
  - now apply create_test_booking_keeps_results_valid.
  - now apply update_test_result_keeps_results_valid.
  - unfold update_test_booking.
    destruct (find _ (learner_test_bookings db)) as [existing|] eqn:Hfind; [|assumption].
    destruct (update_booking_row booking_id (set_booking_fields booking existing) db)
      as [db'|e] eqn:E; [|assumption].
    apply update_booking_row_bookings in E. destruct E as [-> _]. simpl.
    apply Forall_update_first; [|assumption].
    intros _. unfold set_booking_fields. simpl.
    destruct (LearnerTestBookingSchema.result booking) as [r|]; [apply Result_str_valid|].
    apply find_some in Hfind. destruct Hfind as [Hin _].
    exact (proj1 (Forall_forall _ _) H existing Hin).
  - unfold delete_test_booking.
    destruct (find _ (learner_test_bookings db)); [|assumption].
    simpl. apply Forall_forall. intros b Hb. apply filter_In in Hb.
    exact (proj1 (Forall_forall _ _) H b (proj1 Hb)).
Qed.

(** ** Security answers: lookups after a write, refusals, one answer per question *)

Section MoreSecurityAnswerProperties.

Variable pwd_context_hash : string -> string -> string.

(** X14. After a [create_security_answer] that succeeded,
    [get_security_answers_by_user] returns for that user the answers it had,
    followed by the new one; for every other user it returns what it
    returned before. *)
Theorem recorded_answer_is_listed (salt : string) (now : datetime)
    (answer : SecurityAnswerCreate.t) (db db' : DB) (message : string) :
  create_security_answer pwd_context_hash salt now answer db = (db', Return message) ->
  get_security_answers_by_user (SecurityAnswerCreate.user_id answer) db'
  = Return (filter (fun a => UserSecurityAnswer.user_id a
                             =? SecurityAnswerCreate.user_id answer)
                   (user_security_answers db)
            ++ [created_answer pwd_context_hash salt now answer db])
  /\ forall other, other <> SecurityAnswerCreate.user_id answer ->
       get_security_answers_by_user other db' = get_security_answers_by_user other db.
Proof.
  intros Hrun. apply create_security_answer_returns in Hrun.
  destruct Hrun as [_ [_ [_ [-> _]]]]. split.
  - unfold get_security_answers_by_user. simpl. rewrite filter_app. simpl.
    rewrite Z.eqb_refl.
    destruct (filter _ (user_security_answers db)); reflexivity.
  - intros other Hother. unfold get_security_answers_by_user. simpl.
    rewrite filter_app. simpl.
    rewrite (proj2 (Z.eqb_neq _ _) (not_eq_sym Hother)). now rewrite app_nil_r.
Qed.


(** X16. No user ever has two stored answers to the same question: when the
    pairs (user, question) of the stored answers are distinct,
    they still are after [create_security_answer], whether it succeeds or
    raises. *)
Theorem one_answer_per_user_and_question (salt : string) (now : datetime)
    (answer : SecurityAnswerCreate.t) (db : DB) :
  let pairs := fun db : DB =>
    map (fun a => (UserSecurityAnswer.user_id a, UserSecurityAnswer.question_id a))
        (user_security_answers db) in
  NoDup (pairs db) ->
  NoDup (pairs (fst (create_security_answer pwd_context_hash salt now answer db))).
Proof.
  intros pairs Hnd. unfold pairs in *.
  destruct (create_security_answer pwd_context_hash salt now answer db)
    as [db' [message|e]] eqn:E.
  - apply create_security_answer_returns in E.
    destruct E as [_ [_ [Hnew [-> _]]]]. simpl. rewrite map_app. simpl.
    apply NoDup_snoc; [assumption|]. intros Hin. apply in_map_iff in Hin.
    destruct Hin as [a [Ha Hin]]. inversion Ha as [[H1 H2]].
    assert (answered (SecurityAnswerCreate.user_id answer)
              (SecurityAnswerCreate.question_id answer) db = true)
      by (apply answered_iff; eauto).
    congruence.
  - apply create_security_answer_raises in E.
    destruct E as [[_ [-> _]]|[c [_ [-> _]]]]; assumption.
Qed.

End MoreSecurityAnswerProperties.

(** ** Seeding: the rest of the database, ids, and init_database as a whole *)

(** X17. [insert_default_questions] writes the catalog only: every other
    table and sequence is as before, whether the run returns or is refused.
    When the ids of the catalog are distinct and below the sequence they
    still are afterwards, and then [get_question_by_id] returns each question
    of the catalog, old or new, under its id. *)
Theorem insert_default_questions_writes_catalog_only (db : DB) :
  let seeded := fst (insert_default_questions db) in
  set_security_questions seeded (security_questions db) (security_questions_id_seq db) = db
  /\ (NoDup (map SecurityQuestion.id (security_questions db)) ->
      (forall r, In r (security_questions db) ->
                 SecurityQuestion.id r < security_questions_id_seq db) ->
      NoDup (map SecurityQuestion.id (security_questions seeded))
      /\ (forall r, In r (security_questions seeded) ->
                    SecurityQuestion.id r < security_questions_id_seq seeded)
      /\ (forall r, In r (security_questions seeded) ->
                    get_question_by_id (SecurityQuestion.id r) seeded = Return r)).
Proof.
  intros seeded. split.
  { unfold seeded. destruct (insert_default_questions_cases db) as [E|[seq [E _]]];
      rewrite E; simpl fst; [apply seeding_frame|now destruct db]. }
  intros Hnd Hseq.
  assert (Hdrawn : question_ids_drawn db) by (apply Forall_forall; exact Hseq).
  assert (Hseeded : seeded = seed_questions db)
    by (unfold seeded; now rewrite (insert_default_questions_drawn db Hdrawn)).
  destruct (seeding_ids default_qs db Hnd Hseq) as [H1 H2].
  fold (seed_questions db) in H1, H2. rewrite <- Hseeded in H1, H2.
  split; [assumption|]. split; [assumption|].
  intros r Hr. unfold get_question_by_id.
  now rewrite (find_unique_key SecurityQuestion.id Z.eqb Z.eqb_eq _ r H1 Hr).
Qed.

(** X18. [init_database] returns whenever the sequences of the station ids
    and of the question ids are ahead of every id in use.  A run that
    returns leaves every default station name and every default question
    present, with the stations and questions that were there before still
    there, first; a further run returns and changes nothing.  The only other
    way for a run to end is [SystemExit], for a station or a question stored
    under an id that its sequence has yet to issue: then the session is
    rolled back, no station and no question is added, and nothing but the
    two sequences has moved. *)
Theorem init_database_idempotent (db : DB) :
  (station_ids_drawn db -> question_ids_drawn db ->
   exists db', init_database db = (db', Return tt)
               /\ station_ids_drawn db' /\ question_ids_drawn db')
  /\ (forall db', init_database db = (db', Return tt) ->
        init_database db' = (db', Return tt)
        /\ (forall station_data, In station_data default_stations ->
              In (fst station_data) (map Station.name (station db')))
        /\ (forall q, In q default_questions -> In q (question_texts db'))
        /\ (exists added, station db' = station db ++ added)
        /\ (exists added, security_questions db' = security_questions db ++ added))
  /\ (forall db' e, init_database db = (db', Raise e) ->
        e = PythonError "SystemExit"
        /\ station db' = station db
        /\ security_questions db' = security_questions db
        /\ set_security_questions
             (set_station db' (station db) (station_station_id_seq db))
             (security_questions db) (security_questions_id_seq db) = db
        /\ ~ (station_ids_drawn db /\ question_ids_drawn db)).
Proof.
  set (seeded := fold_left seed_question default_questions
                   (fold_left seed_station default_stations db)).
  assert (Hstations : forall station_data, In station_data default_stations ->
            In (fst station_data) (map Station.name (station seeded))).
  { intros sd Hsd. unfold seeded. rewrite seeding_questions_stations.
    now apply seeding_stations_covers. }
  assert (Hquestions : forall q, In q default_questions -> In q (question_texts seeded)).
  { intros q Hq. unfold seeded. now apply seeding_covers. }
  assert (Hagain : init_database seeded = (seeded, Return tt)).
  { unfold init_database.
    assert (E1 : forall stations,
              (forall sd, In sd stations -> In (fst sd) (map Station.name (station seeded))) ->
              fold_left add_station_if_absent stations (seeded, Return tt)
              = (seeded, Return tt)).
    { induction stations as [|sd stations IH]; intros H; cbn [fold_left]; [reflexivity|].
      unfold add_station_if_absent at 2.
      rewrite (proj2 (station_present_iff (fst sd) seeded) (H sd (or_introl eq_refl))).
      apply IH. intros sd' Hsd'. apply H. now right. }
    assert (E2 : forall qs,
              (forall q, In q qs -> In q (question_texts seeded)) ->
              fold_left add_question_if_absent qs (seeded, Return tt)
              = (seeded, Return tt)).
    { induction qs as [|q qs IH]; intros H; cbn [fold_left]; [reflexivity|].
      unfold add_question_if_absent at 2.
      rewrite (proj2 (question_present_iff q seeded) (H q (or_introl eq_refl))).
      apply IH. intros q' Hq'. apply H. now right. }
    now rewrite (E1 default_stations Hstations), (E2 default_questions Hquestions). }
  split; [|split].
  - intros Hs Hq. exists seeded.
    assert (Hseeded_s : station_ids_drawn seeded).
    { assert (Hseq : station_station_id_seq seeded
                     = station_station_id_seq (fold_left seed_station default_stations db))
        by exact (f_equal station_station_id_seq
                    (seeding_frame default_questions
                       (fold_left seed_station default_stations db))).
      unfold station_ids_drawn. rewrite Hseq. unfold seeded.
      rewrite seeding_questions_stations. now apply station_ids_drawn_seeding. }
    assert (Hseeded_q : question_ids_drawn seeded).
    { unfold seeded. apply question_ids_drawn_seeding. unfold question_ids_drawn.
      destruct (seeding_stations_questions default_stations db) as [-> ->]. exact Hq. }
    split; [|now split].
    destruct (init_database_cases db) as [E|[s1 [s2 [_ C]]]]; [exact E|].
    destruct C. now split.
  - intros db' H. destruct (init_database_cases db) as [E|[s1 [s2 [E _]]]];
      rewrite E in H; [|discriminate H].
    assert (Hdb : db' = seeded) by (unfold seeded; congruence). rewrite Hdb.
    split; [assumption|]. split; [assumption|]. split; [assumption|]. split.
    + unfold seeded. rewrite seeding_questions_stations. apply seeding_stations_keeps.
    + unfold seeded.
      destruct (seeding_appends default_questions
                  (fold_left seed_station default_stations db) default_qs_NoDup)
        as [added [Hrows _]].
      exists added. rewrite Hrows.
      now rewrite (proj1 (seeding_stations_questions default_stations db)).
  - intros db' e H. destruct (init_database_cases db) as [E|[s1 [s2 [E Hnot]]]];
      rewrite E in H; [discriminate H|].
    inversion H; subst. split; [reflexivity|]. split; [reflexivity|].
    split; [reflexivity|]. split; [now destruct db|assumption].
Qed.

(** ** Instructor profiles *)

Lemma find_by_id_some {A : Type} (id : A -> Z) (k : Z) (rows : list A) :
  (exists r, In r rows /\ id r = k) <-> exists r, find (fun x => id x =? k) rows = Some r.
Proof.
  split.
  - intros [r [Hin Hid]]. apply (find_present _ rows r Hin). now apply Z.eqb_eq.
  - intros [r Hfind]. apply find_some in Hfind. exists r. split; [apply Hfind|].
    now apply Z.eqb_eq, Hfind.
Qed.

Lemma find_by_id_none {A : Type} (id : A -> Z) (k : Z) (rows : list A) :
  (forall r, In r rows -> id r <> k) <-> find (fun x => id x =? k) rows = None.
Proof.
  split.
  - intros H. apply find_none_forall. intros r Hr. apply Z.eqb_neq. now apply H.
  - intros H r Hr. apply Z.eqb_neq. exact (find_none _ _ H r Hr).
Qed.

Lemma existsb_find {A : Type} (p : A -> bool) (rows : list A) :
  existsb p rows = match find p rows with Some _ => true | None => false end.
Proof.
  induction rows as [|r rows IH]; simpl; [reflexivity|].
  destruct (p r); [reflexivity|assumption].
Qed.

(** What [create_instructor_profile] does, case by case: once its four
    checks have passed, the insert cannot fail. *)
Lemma create_instructor_profile_cases (profile : InstructorProfileSchema.t) (fdb : FullDB) :
  create_instructor_profile profile fdb =
    if negb (existsb (fun p => UserProfile.user_id p =? InstructorProfileSchema.user_id profile)
                     (user_profiles fdb)) then
      (fdb, Raise (HTTPException 404 "User profile not found"))
    else if negb (existsb (fun s => Station.station_id s
                                    =? InstructorProfileSchema.station_id profile)
                          (station (core fdb))) then
      (fdb, Raise (HTTPException 404 "Selected station does not exist"))
    else if existsb (fun p => InstructorProfile.user_id p
                              =? InstructorProfileSchema.user_id profile)
                    (instructor_profile_rows fdb) then
      (fdb, Raise (HTTPException 400 "Instructor profile already exists"))
    else if existsb (fun p => (InstructorProfile.inf_nr p
                               =? InstructorProfileSchema.inf_nr profile)%string)
                    (instructor_profile_rows fdb) then
      (fdb, Raise (HTTPException 400 "Instructor number already exists"))
    else
      (set_instructor_profile fdb
         (instructor_profile_rows fdb ++ [InstructorProfile_of profile]),
       Return profile).
Proof.
  unfold create_instructor_profile, insert_instructor_profile.
  change (InstructorProfile.user_id (InstructorProfile_of profile))
    with (InstructorProfileSchema.user_id profile).
  change (InstructorProfile.inf_nr (InstructorProfile_of profile))
    with (InstructorProfileSchema.inf_nr profile).
  change (InstructorProfile.station_id (InstructorProfile_of profile))
    with (InstructorProfileSchema.station_id profile).
  rewrite (existsb_find _ (user_profiles fdb)), (existsb_find _ (station (core fdb))).
  destruct (find _ (user_profiles fdb)); [|reflexivity].
  destruct (find _ (station (core fdb))); [|reflexivity].
  simpl negb. cbv iota.
  destruct (existsb _ (instructor_profile_rows fdb)); [reflexivity|].
  destruct (existsb _ (instructor_profile_rows fdb)); reflexivity.
Qed.


(** X20. An instructor profile that [create_instructor_profile] accepted is
    what [get_instructor_profile] returns for that user; its user id is now
    among the keys that bookings may refer to; and the table keeps one
    profile per user and one profile per instructor number, with the key
    column in step with the rows. *)
Theorem created_instructor_profile_is_kept (profile response : InstructorProfileSchema.t)
    (fdb fdb' : FullDB) :
  create_instructor_profile profile fdb = (fdb', Return response) ->
  response = profile
  /\ get_instructor_profile (InstructorProfileSchema.user_id profile) fdb'
     = Return (InstructorProfile_of profile)
  /\ In (InstructorProfileSchema.user_id profile) (instructor_profile (core fdb'))
  /\ (NoDup (map InstructorProfile.user_id (instructor_profile_rows fdb)) ->
      NoDup (map InstructorProfile.user_id (instructor_profile_rows fdb')))
  /\ (NoDup (map InstructorProfile.inf_nr (instructor_profile_rows fdb)) ->
      NoDup (map InstructorProfile.inf_nr (instructor_profile_rows fdb')))
  /\ (coherent fdb -> coherent fdb').
Proof.
  rewrite create_instructor_profile_cases.
  destruct (existsb _ (user_profiles fdb)); simpl; [|discriminate].
  destruct (existsb _ (station (core fdb))); simpl; [|discriminate].
  destruct (existsb (fun p => InstructorProfile.user_id p
                              =? InstructorProfileSchema.user_id profile)
              (instructor_profile_rows fdb)) eqn:E3; [discriminate|].
  destruct (existsb (fun p => (InstructorProfile.inf_nr p
                               =? InstructorProfileSchema.inf_nr profile)%string)
              (instructor_profile_rows fdb)) eqn:E4; [discriminate|].
  intros H. injection H as Hf Hr. subst fdb' response.
  assert (Hfree : find (fun p => InstructorProfile.user_id p
                                 =? InstructorProfileSchema.user_id profile)
                    (instructor_profile_rows fdb) = None).
  { apply find_none_forall. now apply existsb_false_forall. }
  split; [reflexivity|]. split; [|split; [|split; [|split]]].
  - unfold get_instructor_profile. simpl. rewrite (find_app_absent _ _ _ Hfree). simpl.
    now rewrite Z.eqb_refl.
  - simpl. rewrite map_app. apply in_or_app. right. now left.
  - intros Hnd. simpl. rewrite map_app. apply NoDup_snoc; [assumption|].
    intros Hin. apply in_map_iff in Hin. destruct Hin as [p [Hp Hin]].
    pose proof (proj1 (existsb_false_forall _ _) E3 p Hin) as Hne.
    apply Z.eqb_neq in Hne. now apply Hne.
  - intros Hnd. simpl. rewrite map_app. apply NoDup_snoc; [assumption|].
    intros Hin. apply in_map_iff in Hin. destruct Hin as [p [Hp Hin]].
    pose proof (proj1 (existsb_false_forall _ _) E4 p Hin) as Hne.
    apply String.eqb_neq in Hne. now apply Hne.
  - intros [_ Hl]. split; [reflexivity|exact Hl].
Qed.


(** X22. [delete_instructor_profile] raises 404 for a user without instructor
    profile.  A profile that some booking names as its instructor is not
    deleted: the commit raises an [IntegrityError] and nothing changes.
    Otherwise the profile is gone, reads as not found, and from then on a
    booking that names this instructor is refused (with an [IntegrityError],
    or before that with a [DataError] when an integer of the request does
    not fit or a [ValueError] when its license code has a NUL byte) and
    stores no row. *)
Theorem delete_instructor_profile_guarded (user_id : Z) (fdb : FullDB) :
  ((forall p, In p (instructor_profile_rows fdb) -> InstructorProfile.user_id p <> user_id) ->
   delete_instructor_profile user_id fdb
   = (fdb, Raise (HTTPException 404 "Instructor profile not found")))
  /\
  (forall existing booking,
     get_instructor_profile user_id fdb = Return existing ->
     In booking (learner_test_bookings (core fdb)) ->
     LearnerTestBooking.instructor_id booking = user_id ->
     delete_instructor_profile user_id fdb
     = (fdb, Raise (IntegrityError "learner_test_bookings_instructor_id_fkey")))
  /\
  (forall existing,
     get_instructor_profile user_id fdb = Return existing ->
     (forall booking, In booking (learner_test_bookings (core fdb)) ->
        LearnerTestBooking.instructor_id booking <> user_id) ->
     exists fdb',
       delete_instructor_profile user_id fdb = (fdb', Return "Deleted"%string)
       /\ get_instructor_profile user_id fdb'
          = Raise (HTTPException 404 "Instructor profile not found")
       /\ (coherent fdb -> coherent fdb')
       /\ forall now request,
            LearnerTestBookingSchema.instructor_id request = user_id ->
            exists db' e,
              create_test_booking now request (core fdb') = (db', Raise e)
              /\ learner_test_bookings db' = learner_test_bookings (core fdb')
              /\ (e = PythonError "ValueError"
                  \/ e = DataError "integer out of range"
                  \/ exists constraint, e = IntegrityError constraint)).
Proof.
  split; [|split].
  - intros H. unfold delete_instructor_profile.
    now rewrite (proj1 (find_by_id_none InstructorProfile.user_id user_id _) H).
  - unfold get_instructor_profile, delete_instructor_profile. intros existing booking.
    destruct (find (fun p => InstructorProfile.user_id p =? user_id)
                (instructor_profile_rows fdb)) as [p|]; [|intros H; discriminate H].
    intros _ Hin Hid. unfold delete_instructor_profile_row.
    replace (existsb _ (learner_test_bookings (core fdb))) with true; [reflexivity|].
    symmetry. apply existsb_exists. exists booking. split; [assumption|].
    now apply Z.eqb_eq.
  - unfold get_instructor_profile, delete_instructor_profile. intros existing.
    destruct (find (fun p => InstructorProfile.user_id p =? user_id)
                (instructor_profile_rows fdb)) as [p|] eqn:Hfind;
      [|intros H; discriminate H].
    intros _ Hfree. unfold delete_instructor_profile_row.
    replace (existsb _ (learner_test_bookings (core fdb))) with false.
    2:{ symmetry. apply existsb_false_forall. intros b Hb. apply Z.eqb_neq.
        now apply Hfree. }
    eexists. split; [reflexivity|]. split; [|split].
    + simpl. now rewrite find_filter_removed.
    + intros [_ Hl]. split; [reflexivity|exact Hl].
    + intros now request Hid.
      match goal with
      | |- exists db' e, create_test_booking now request ?d = _ /\ _ =>
          destruct (create_test_booking now request d) as [db' [response|e]] eqn:E
      end.
      * exfalso. apply create_test_booking_returns_keys in E.
        destruct E as [_ [Hk _]]. simpl in Hk.
        apply in_map_iff in Hk. destruct Hk as [q [Hq Hk]]. apply filter_In in Hk.
        destruct Hk as [_ Hk]. apply negb_true_iff, Z.eqb_neq in Hk. congruence.
      * exists db', e. split; [reflexivity|].
        split; [exact (create_test_booking_raises_rows _ _ _ _ _ E)|].
        apply create_test_booking_raises in E.
        destruct E as [[_ [[-> _]|[-> _]]]|[c [-> _]]];
          [now left|right; now left|right; right; eauto].
Qed.

(** X23. [delete_learner_profile] raises 404 for a user without learner
    profile.  Otherwise the profile is deleted together with every booking
    of that learner: the profile reads as not found,
    [get_bookings_by_learner] raises 404 for the learner, and the bookings of
    every other learner are listed as before. *)
Theorem delete_learner_profile_cascades (user_id : Z) (fdb : FullDB) :
  ((forall p, In p (learner_profile_rows fdb) -> LearnerProfile.user_id p <> user_id) ->
   delete_learner_profile user_id fdb = (fdb, Raise (HTTPException 404 "Profile not found")))
  /\
  (forall existing,
     get_learner_profile user_id fdb = Return existing ->
     exists fdb',
       delete_learner_profile user_id fdb = (fdb', Return "Deleted"%string)
       /\ get_learner_profile user_id fdb' = Raise (HTTPException 404 "Profile not found")
       /\ get_bookings_by_learner user_id (core fdb')
          = Raise (HTTPException 404 "No bookings found for this learner")
       /\ (forall other, other <> user_id ->
             get_bookings_by_learner other (core fdb')
             = get_bookings_by_learner other (core fdb))
       /\ (coherent fdb -> coherent fdb')).
Proof.
  split.
  - intros H. unfold delete_learner_profile.
    now rewrite (proj1 (find_by_id_none LearnerProfile.user_id user_id _) H).
  - unfold get_learner_profile, delete_learner_profile. intros existing.
    destruct (find (fun p => LearnerProfile.user_id p =? user_id)
                (learner_profile_rows fdb)) as [p|] eqn:Hfind;
      [|intros H; discriminate H].
    intros _. eexists. split; [reflexivity|]. split; [|split; [|split]].
    + simpl. now rewrite find_filter_removed.
    + apply get_bookings_by_learner_empty. simpl. intros b Hb.
      apply filter_In in Hb. destruct Hb as [_ Hb].
      now apply negb_true_iff, Z.eqb_neq in Hb.
    + intros other Hother. unfold get_bookings_by_learner. simpl.
      replace (filter (fun b => LearnerTestBooking.learner_id b =? other)
                 (filter (fun b => negb (LearnerTestBooking.learner_id b =? user_id))
                    (learner_test_bookings (core fdb))))
        with (filter (fun b => LearnerTestBooking.learner_id b =? other)
                (learner_test_bookings (core fdb))); [reflexivity|].
      induction (learner_test_bookings (core fdb)) as [|b l IH]; simpl; [reflexivity|].
      destruct (Z.eqb_spec (LearnerTestBooking.learner_id b) other) as [E|E].
      * rewrite (proj2 (Z.eqb_neq (LearnerTestBooking.learner_id b) user_id)) by congruence.
        simpl. rewrite (proj2 (Z.eqb_eq _ _) E). now rewrite IH.
      * destruct (negb _); simpl; [|exact IH].
        now rewrite (proj2 (Z.eqb_neq _ _) E).
    + intros [Hi _]. split; [exact Hi|reflexivity].
Qed.

(** ** User profiles and learner profiles *)

(** X24. [create_user_profile] checks nothing itself: it succeeds exactly when
    no text of the profile has a NUL byte, the user id fits its column, the
    user exists, has no profile yet and the id number is not in use.  It then
    returns the request and stores one row with the ten fields of the
    request, which is what [get_user_profile] returns from then on.
    Otherwise it is never the handler that raises: the driver raises
    [ValueError] for the NUL byte, the database a [DataError] for an id
    beyond 32 bits, else an [IntegrityError]; nothing is stored. *)
Theorem create_user_profile_refusals (profile : UserProfileSchema.t) (fdb : FullDB) :
  let stored :=
    UserProfile.mk
      (UserProfileSchema.user_id profile) (UserProfileSchema.name profile)
      (UserProfileSchema.surname profile) (UserProfileSchema.date_of_birth profile)
      (UserProfileSchema.gender profile) (UserProfileSchema.nationality profile)
      (UserProfileSchema.id_number profile) (UserProfileSchema.contact_number profile)
      (UserProfileSchema.physical_address profile) (UserProfileSchema.race profile) in
  let sendable :=
    negb (has_nul (UserProfileSchema.name profile)
          || has_nul (UserProfileSchema.surname profile)
          || has_nul (UserProfileSchema.gender profile)
          || has_nul (UserProfileSchema.nationality profile)
          || has_nul (UserProfileSchema.id_number profile)
          || has_nul (UserProfileSchema.contact_number profile)
          || has_nul (UserProfileSchema.physical_address profile)
          || has_nul (UserProfileSchema.race profile)) in
  let fits := fits_integer (UserProfileSchema.user_id profile) in
  let accepted :=
    sendable = true
    /\ fits = true
    /\ (exists u, In u (users (core fdb)) /\ User.id u = UserProfileSchema.user_id profile)
    /\ (forall p, In p (user_profiles fdb) ->
          UserProfile.user_id p <> UserProfileSchema.user_id profile
          /\ UserProfile.id_number p <> UserProfileSchema.id_number profile) in
  (accepted ->
   create_user_profile profile fdb
   = (set_user_profiles fdb (user_profiles fdb ++ [stored]), Return profile)
   /\ get_user_profile (UserProfileSchema.user_id profile)
        (set_user_profiles fdb (user_profiles fdb ++ [stored]))
      = Return stored)
  /\ ((exists fdb' response, create_user_profile profile fdb = (fdb', Return response))
      -> accepted)
  /\ (forall fdb' e,
        create_user_profile profile fdb = (fdb', Raise e) ->
        fdb' = fdb
        /\ (forall status_code detail, e <> HTTPException status_code detail)
        /\ ((sendable = false /\ e = PythonError "ValueError")
            \/ (sendable = true /\ fits = false /\ e = DataError "integer out of range")
            \/ (sendable = true /\ fits = true
                /\ exists constraint, e = IntegrityError constraint))).
Proof.
  intros stored sendable fits accepted.
  unfold create_user_profile, insert_user_profile.
  change (UserProfile_of profile) with stored.
  change (profile_sendable stored) with sendable.
  change (UserProfile.user_id stored) with (UserProfileSchema.user_id profile).
  change (UserProfile.id_number stored) with (UserProfileSchema.id_number profile).
  fold fits.
  split; [|split].
  - intros [Hsend [Hfits [[u [Hu Hid]] Hfree]]].
    assert (Hpk : existsb (fun p => UserProfile.user_id p =? UserProfileSchema.user_id profile)
                    (user_profiles fdb) = false).
    { apply existsb_false_forall. intros p Hp. apply Z.eqb_neq. now apply Hfree. }
    rewrite Hsend, Hfits, Hpk.
    replace (existsb _ (users (core fdb))) with true.
    2:{ symmetry. apply existsb_exists. exists u. split; [assumption|now apply Z.eqb_eq]. }
    replace (existsb (fun p => (UserProfile.id_number p
                                =? UserProfileSchema.id_number profile)%string)
               (user_profiles fdb)) with false.
    2:{ symmetry. apply existsb_false_forall. intros p Hp. apply String.eqb_neq.
        now apply Hfree. }
    simpl. split; [reflexivity|].
    unfold get_user_profile. simpl. rewrite find_app_absent.
    + simpl. now rewrite Z.eqb_refl.
    + apply find_none_forall. now apply existsb_false_forall.
  - intros [fdb' [response Hrun]]. unfold accepted.
    destruct sendable; simpl negb in Hrun; cbv iota in Hrun; [|discriminate Hrun].
    destruct fits; simpl negb in Hrun; cbv iota in Hrun; [|discriminate Hrun].
    destruct (existsb (fun p => UserProfile.user_id p =? UserProfileSchema.user_id profile)
                (user_profiles fdb)) eqn:Epk; [discriminate|].
    destruct (existsb (fun p => (UserProfile.id_number p
                                 =? UserProfileSchema.id_number profile)%string)
                (user_profiles fdb)) eqn:Eid; [discriminate|].
    destruct (existsb _ (users (core fdb))) eqn:Eu; [|discriminate].
    split; [reflexivity|]. split; [reflexivity|]. split.
    + apply existsb_exists in Eu. destruct Eu as [u [Hu E]]. exists u.
      split; [assumption|now apply Z.eqb_eq].
    + intros p Hp. split.
      * apply Z.eqb_neq. exact (proj1 (existsb_false_forall _ _) Epk p Hp).
      * apply String.eqb_neq. exact (proj1 (existsb_false_forall _ _) Eid p Hp).
  - intros fdb' e.
    destruct sendable; simpl negb; cbv iota;
      [|intros H; inversion H; split; [reflexivity|]; split; [discriminate|];
        left; now split].
    destruct fits; simpl negb; cbv iota;
      [|intros H; inversion H; split; [reflexivity|]; split; [discriminate|];
        right; left; now repeat split].
    destruct (existsb (fun p => UserProfile.user_id p =? UserProfileSchema.user_id profile)
                (user_profiles fdb));
      [intros H; inversion H; split; [reflexivity|]; split; [discriminate|];
       right; right; repeat split; eauto|].
    destruct (existsb (fun p => (UserProfile.id_number p
                                 =? UserProfileSchema.id_number profile)%string)
                (user_profiles fdb));
      [intros H; inversion H; split; [reflexivity|]; split; [discriminate|];
       right; right; repeat split; eauto|].
    destruct (negb (existsb _ (users (core fdb))));
      intros H; inversion H; split; [reflexivity|]; split; [discriminate|];
        right; right; repeat split; eauto.
Qed.

(** X25. [delete_user_profile] raises 404 for a user without profile.  When
    the user is an instructor whom some booking names, the profile is not
    deleted: the commit raises an [IntegrityError] and nothing changes.
    Otherwise the user profile is deleted together with the instructor
    profile of that user, and both read as not found. *)
Theorem delete_user_profile_cascades (user_id : Z) (fdb : FullDB) :
  ((forall p, In p (user_profiles fdb) -> UserProfile.user_id p <> user_id) ->
   delete_user_profile user_id fdb = (fdb, Raise (HTTPException 404 "Profile not found")))
  /\
  (forall existing instructor booking,
     get_user_profile user_id fdb = Return existing ->
     get_instructor_profile user_id fdb = Return instructor ->
     In booking (learner_test_bookings (core fdb)) ->
     LearnerTestBooking.instructor_id booking = user_id ->
     delete_user_profile user_id fdb
     = (fdb, Raise (IntegrityError "learner_test_bookings_instructor_id_fkey")))
  /\
  (forall existing,
     get_user_profile user_id fdb = Return existing ->
     (forall booking, In booking (learner_test_bookings (core fdb)) ->
        LearnerTestBooking.instructor_id booking <> user_id) ->
     exists fdb',
       delete_user_profile user_id fdb = (fdb', Return "Deleted"%string)
       /\ get_user_profile user_id fdb' = Raise (HTTPException 404 "Profile not found")
       /\ get_instructor_profile user_id fdb'
          = Raise (HTTPException 404 "Instructor profile not found")
       /\ (coherent fdb -> coherent fdb')).
Proof.
  split; [|split].
  - intros H. unfold delete_user_profile.
    now rewrite (proj1 (find_by_id_none UserProfile.user_id user_id _) H).
  - unfold get_user_profile, get_instructor_profile, delete_user_profile.
    intros existing instructor booking.
    destruct (find (fun p => UserProfile.user_id p =? user_id) (user_profiles fdb))
      as [p|]; [|intros H; discriminate H].
    intros _.
    destruct (find (fun p => InstructorProfile.user_id p =? user_id)
                (instructor_profile_rows fdb)) as [i|] eqn:Hi;
      [|intros H; discriminate H].
    intros _ Hin Hid. unfold delete_user_profile_row.
    rewrite (existsb_find _ (instructor_profile_rows fdb)), Hi.
    replace (existsb _ (learner_test_bookings (core fdb))) with true; [reflexivity|].
    symmetry. apply existsb_exists. exists booking. split; [assumption|].
    now apply Z.eqb_eq.
  - unfold get_user_profile, delete_user_profile. intros existing.
    destruct (find (fun p => UserProfile.user_id p =? user_id) (user_profiles fdb))
      as [p|]; [|intros H; discriminate H].
    intros _ Hfree. unfold delete_user_profile_row.
    replace (existsb _ (learner_test_bookings (core fdb))) with false.
    2:{ symmetry. apply existsb_false_forall. intros b Hb. apply Z.eqb_neq.
        now apply Hfree. }
    rewrite andb_false_r.
    eexists. split; [reflexivity|]. split; [|split].
    + simpl. now rewrite find_filter_removed.
    + unfold get_instructor_profile. simpl. now rewrite find_filter_removed.
    + intros [_ Hl]. split; [reflexivity|exact Hl].
Qed.



(** ** The further theorems on the sample data *)

Lemma sample_users_well_formed : users_well_formed Sample.db0.
Proof.
  unfold users_well_formed. simpl.
  repeat split; try (repeat constructor; simpl; intuition (discriminate || lia)).
  intros u [<-|[<-|[<-|[]]]]; simpl; lia.
Qed.

Lemma created_user_is_found_witness :
  create_user Sample.bcrypt_hash Sample.salt2 200 SampleProfiles.dave Sample.db0
  = (fst (create_user Sample.bcrypt_hash Sample.salt2 200 SampleProfiles.dave Sample.db0),
     Return (created_user Sample.bcrypt_hash Sample.salt2 200 SampleProfiles.dave Sample.db0))
  /\ get_user_by_username "dave"
       (fst (create_user Sample.bcrypt_hash Sample.salt2 200 SampleProfiles.dave Sample.db0))
     = Return (created_user Sample.bcrypt_hash Sample.salt2 200 SampleProfiles.dave
                 Sample.db0).
Proof.
  split; [reflexivity|].
  exact (proj1 (created_user_is_found Sample.bcrypt_hash Sample.salt2 200 SampleProfiles.dave
                  Sample.db0 _ _ eq_refl)).
Defined.

Lemma create_user_keeps_users_well_formed_witness :
  users_well_formed Sample.db0
  /\ users_well_formed
       (fst (create_user Sample.bcrypt_hash Sample.salt2 200 SampleProfiles.dave Sample.db0)).
Proof.
  split; [exact sample_users_well_formed|].
  exact (create_user_keeps_users_well_formed Sample.bcrypt_hash Sample.salt2 200
           SampleProfiles.dave Sample.db0 sample_users_well_formed).
Defined.

Lemma login_after_create_user_witness :
  Sample.bcrypt_verify "hunter2" (Sample.bcrypt_hash Sample.salt2 "hunter2") = Return true
  /\ login Sample.bcrypt_verify (LoginRequest.mk "dave" "hunter2" "admin")
       (fst (create_user Sample.bcrypt_hash Sample.salt2 200 SampleProfiles.dave Sample.db0))
     = Return (Identity.mk 4 "dave" "admin" "dave@example.org")
  /\ login Sample.bcrypt_verify (LoginRequest.mk "dave" "hunter3" "admin")
       (fst (create_user Sample.bcrypt_hash Sample.salt2 200 SampleProfiles.dave Sample.db0))
     = Raise (HTTPException 401 "Invalid credentials")
  /\ login Sample.bcrypt_verify (LoginRequest.mk "dave" Sample.nul_text "admin")
       (fst (create_user Sample.bcrypt_hash Sample.salt2 200 SampleProfiles.dave Sample.db0))
     = Raise (HTTPException 500 "Internal Server Error").
Proof.
  split; [reflexivity|].
  split; [|split].
  - exact (proj2 (proj2 (login_after_create_user Sample.bcrypt_hash Sample.bcrypt_verify
                           Sample.salt2 200 SampleProfiles.dave Sample.db0 _ _
                           "hunter2" "admin" eq_refl)) eq_refl).
  - exact (proj1 (login_after_create_user Sample.bcrypt_hash Sample.bcrypt_verify
                    Sample.salt2 200 SampleProfiles.dave Sample.db0 _ _
                    "hunter3" "admin" eq_refl) eq_refl).
  - exact (proj1 (proj2 (login_after_create_user Sample.bcrypt_hash Sample.bcrypt_verify
                           Sample.salt2 200 SampleProfiles.dave Sample.db0 _ _
                           Sample.nul_text "admin" eq_refl))
             (PythonError "ValueError") eq_refl).
Defined.


Lemma update_user_replaces_row_witness :
  users_well_formed Sample.db0
  /\ get_user_by_id 2
       (fst (update_user Sample.bcrypt_hash Sample.salt1 2
               (UserCreate.mk "bobby" "brick" "bob@example.org" Role.learner true)
               Sample.db0))
     = Return (User.mk 2 "bobby" (Sample.bcrypt_hash Sample.salt1 "brick") "bob@example.org"
                 "learner" true 110).
Proof.
  split; [exact sample_users_well_formed|].
  exact (proj1 (proj2 (proj2 (proj2 (proj2 (proj2
           (update_user_replaces_row Sample.bcrypt_hash Sample.salt1 2
              (UserCreate.mk "bobby" "brick" "bob@example.org" Role.learner true)
              Sample.db0 _ _ sample_users_well_formed eq_refl))))))).
Defined.

Lemma update_user_is_active_round_trip_witness :
  get_user_by_id 1 Sample.db0 = Return Sample.alice
  /\ exists db',
       update_user_is_active 1 false Sample.db0 = (db', Return (UserIsActive.mk 1 false))
       /\ get_user_is_active 1 db' = Return (UserIsActive.mk 1 false).
Proof.
  split; [reflexivity|].
  destruct (proj2 (update_user_is_active_round_trip 1 false Sample.db0) Sample.alice eq_refl)
    as [db' [H1 [H2 _]]].
  exists db'. split; [exact H1|exact H2].
Defined.

Lemma login_follows_is_active_witness :
  NoDup (map User.username (users Sample.db0))
  /\ login Sample.bcrypt_verify (LoginRequest.mk "alice" "wonderland" "instructor")
       (fst (update_user_is_active 1 false Sample.db0))
     = Raise (HTTPException 403 "User inactive").
Proof.
  split; [exact sample_usernames_unique|].
  refine (proj1 (login_follows_is_active Sample.bcrypt_verify 1 Sample.db0 Sample.alice
                   "wonderland" "instructor" sample_usernames_unique eq_refl eq_refl _)).
  left. reflexivity.
Defined.

Lemma created_booking_is_found_witness :
  create_test_booking 1000 (Sample.booking_request "2024-05-01") Sample.db0
  = (Sample.db_booked, Return (Sample.booking_request "2024-05-01"))
  /\ get_test_booking 1 Sample.db_booked
     = Return (LearnerTestBooking.mk 1 2 1 1 "2024-05-01" "pending" 1000 None 1000).
Proof.
  split; [reflexivity|].
  exact (proj1 (created_booking_is_found 1000 (Sample.booking_request "2024-05-01")
                  Sample.db0 Sample.db_booked _ eq_refl)).
Defined.

Lemma create_test_booking_refusals_witness :
  create_test_booking 1000
    (LearnerTestBookingSchema.mk None 99 1 1 "2024-05-01" None None None None) Sample.db0
  = (set_learner_test_bookings Sample.db0 [] 2,
     Raise (IntegrityError "learner_test_bookings_learner_id_fkey"))
  /\ learner_test_bookings_booking_id_seq (set_learner_test_bookings Sample.db0 [] 2)
     = learner_test_bookings_booking_id_seq Sample.db0 + 1
  /\ create_test_booking 1000
       (LearnerTestBookingSchema.mk (Some 2147483648) 2 1 1 "2024-05-01" None None None None)
       Sample.db0
     = (Sample.db0, Raise (DataError "integer out of range"))
  /\ create_test_booking 1000
       (LearnerTestBookingSchema.mk None 2 1 1 "2024-05-01" None None
          (Some Sample.nul_text) None)
       Sample.db0
     = (Sample.db0, Raise (PythonError "ValueError")).
Proof.
  split; [reflexivity|].
  destruct (proj2 (create_test_booking_refusals 1000
                     (LearnerTestBookingSchema.mk None 99 1 1 "2024-05-01"
                        None None None None) Sample.db0)
              (set_learner_test_bookings Sample.db0 [] 2) _ eq_refl)
    as [_ [_ [_ [[C _]|[[_ [C _]]|[_ [_ [_ Hseq]]]]]]]]; [discriminate C..|].
  split; [exact Hseq|]. split; reflexivity.
Defined.

Lemma delete_test_booking_removes_witness :
  get_test_booking 1 Sample.db_booked
  = Return (LearnerTestBooking.mk 1 2 1 1 "2024-05-01" "pending" 1000 None 1000)
  /\ exists db',
       delete_test_booking 1 Sample.db_booked = (db', Return "Deleted"%string)
       /\ get_test_booking 1 db' = Raise (HTTPException 404 "Booking not found").
Proof.
  split; [reflexivity|].
  destruct (proj2 (delete_test_booking_removes 1 Sample.db_booked) _ eq_refl)
    as [db' [H1 [H2 _]]].
  exists db'. split; [exact H1|exact H2].
Defined.

Lemma update_test_booking_partial_witness :
  get_test_booking 1 Sample.db_booked
  = Return (LearnerTestBooking.mk 1 2 1 1 "2024-05-01" "pending" 1000 None 1000)
  /\ update_test_booking 1
       (LearnerTestBookingSchema.mk None 2 1 1 "2024-05-01" (Some Result.passed)
          None None None) Sample.db_booked
     = (fst (update_test_result 1 (ResultUpdateSchema.mk Result.passed) Sample.db_booked),
        Return (LearnerTestBooking.mk 1 2 1 1 "2024-05-01" "passed" 1000 None 1000)).
Proof.
  split; [reflexivity|].
  refine (proj2 (proj2 (update_test_booking_partial 1
                          (LearnerTestBookingSchema.mk None 2 1 1 "2024-05-01"
                             (Some Result.passed) None None None) Sample.db_booked))
            (LearnerTestBooking.mk 1 2 1 1 "2024-05-01" "pending" 1000 None 1000)
            Result.passed eq_refl _ _ _).
  - left. reflexivity.
  - left. reflexivity.
  - exists Sample.main_station. split; [left; reflexivity|reflexivity].
Defined.

Lemma sample_booking_ids_unique :
  NoDup (map LearnerTestBooking.booking_id (learner_test_bookings Sample.db_results)).
Proof. repeat constructor; simpl; intuition discriminate. Qed.

Lemma booking_ids_stay_unique_witness :
  NoDup (map LearnerTestBooking.booking_id (learner_test_bookings Sample.db_results))
  /\ NoDup (map LearnerTestBooking.booking_id
              (learner_test_bookings
                 (fst (update_test_booking 2
                         (LearnerTestBookingSchema.mk (Some 9) 2 1 1 "2024-05-03" None
                            None None None) Sample.db_results)))).
Proof.
  split; [exact sample_booking_ids_unique|].
  exact (proj1 (proj2 (proj2 (booking_ids_stay_unique 1000 2
           (LearnerTestBookingSchema.mk (Some 9) 2 1 1 "2024-05-03" None None None None)
           (ResultUpdateSchema.mk Result.passed) Sample.db_results
           sample_booking_ids_unique)))).
Defined.

Lemma sample_results_valid :
  Forall (fun b => In (LearnerTestBooking.result b)
                      ["pending"; "passed"; "failed"; "absent"]%string)
         (learner_test_bookings Sample.db_results).
Proof. repeat (apply Forall_cons; [simpl; auto 6|]). apply Forall_nil. Qed.

Lemma booking_results_stay_valid_witness :
  Forall (fun b => In (LearnerTestBooking.result b)
                      ["pending"; "passed"; "failed"; "absent"]%string)
         (learner_test_bookings Sample.db_results)
  /\ Forall (fun b => In (LearnerTestBooking.result b)
                         ["pending"; "passed"; "failed"; "absent"]%string)
            (learner_test_bookings
               (fst (update_test_result 1 (ResultUpdateSchema.mk Result.failed)
                       Sample.db_results))).
Proof.
  split; [exact sample_results_valid|].
  exact (proj1 (proj2 (booking_results_stay_valid 1000 1
           (Sample.booking_request "2024-05-01") (ResultUpdateSchema.mk Result.failed)
           Sample.db_results sample_results_valid))).
Defined.

Lemma recorded_answer_is_listed_witness :
  create_security_answer Sample.bcrypt_hash Sample.salt1 300 Sample.first_pet Sample.db_seeded
  = (Sample.db_answered, Return "Answer saved"%string)
  /\ get_security_answers_by_user 1 Sample.db_answered
     = Return [UserSecurityAnswer.mk 1 1 1 (Sample.bcrypt_hash Sample.salt1 "Rex") 300].
Proof.
  split; [reflexivity|].
  exact (proj1 (recorded_answer_is_listed Sample.bcrypt_hash Sample.salt1 300
                  Sample.first_pet Sample.db_seeded Sample.db_answered _ eq_refl)).
Defined.


Lemma one_answer_per_user_and_question_witness :
  NoDup (map (fun a => (UserSecurityAnswer.user_id a, UserSecurityAnswer.question_id a))
             (user_security_answers Sample.db_answered))
  /\ NoDup (map (fun a => (UserSecurityAnswer.user_id a, UserSecurityAnswer.question_id a))
                (user_security_answers
                   (fst (create_security_answer Sample.bcrypt_hash Sample.salt2 310
                           (SecurityAnswerCreate.mk 1 2 "Mini") Sample.db_answered)))).
Proof.
  assert (H : NoDup (map (fun a => (UserSecurityAnswer.user_id a,
                                    UserSecurityAnswer.question_id a))
                         (user_security_answers Sample.db_answered)))
    by (repeat constructor; simpl; intuition discriminate).
  split; [exact H|].
  exact (one_answer_per_user_and_question Sample.bcrypt_hash Sample.salt2 310
           (SecurityAnswerCreate.mk 1 2 "Mini") Sample.db_answered H).
Defined.

Lemma sample_catalog_ids :
  NoDup (map SecurityQuestion.id (security_questions Sample.db_catalog))
  /\ forall r, In r (security_questions Sample.db_catalog) ->
               SecurityQuestion.id r < security_questions_id_seq Sample.db_catalog.
Proof.
  split; [repeat constructor; simpl; intuition discriminate|].
  simpl. intros r [<-|[<-|[]]]; simpl; lia.
Qed.

Lemma insert_default_questions_writes_catalog_only_witness :
  NoDup (map SecurityQuestion.id (security_questions Sample.db_catalog))
  /\ get_question_by_id 3 (fst (insert_default_questions Sample.db_catalog))
     = Return (SecurityQuestion.mk 3 "What is the name of your first pet?").
Proof.
  split; [exact (proj1 sample_catalog_ids)|].
  refine (proj2 (proj2 (proj2 (insert_default_questions_writes_catalog_only Sample.db_catalog)
                          (proj1 sample_catalog_ids) (proj2 sample_catalog_ids)))
            (SecurityQuestion.mk 3 "What is the name of your first pet?") _).
  right. right. left. reflexivity.
Defined.

Lemma init_database_idempotent_witness :
  station_ids_drawn Sample.db_catalog
  /\ question_ids_drawn Sample.db_catalog
  /\ snd (init_database Sample.db_catalog) = Return tt
  /\ init_database (fst (init_database Sample.db_catalog))
     = (fst (init_database Sample.db_catalog), Return tt)
  /\ In "North Station"%string
        (map Station.name (station (fst (init_database Sample.db_catalog))))
  /\ init_database Sample.db_foreign_station
     = (set_station Sample.db_foreign_station
          [Sample.main_station; Station.mk 2 "Depot" 1] 3,
        Raise (PythonError "SystemExit"))
  /\ ~ station_ids_drawn Sample.db_foreign_station.
Proof.
  assert (Hs : station_ids_drawn Sample.db_catalog) by (repeat constructor).
  split; [exact Hs|]. split; [exact sample_catalog_drawn|].
  destruct (init_database_idempotent Sample.db_catalog) as [Hreturns [Hreturned _]].
  destruct (init_database_idempotent Sample.db_foreign_station) as [_ [_ Hrefused]].
  destruct (Hreturns Hs sample_catalog_drawn) as [db' [E _]].
  assert (Hsnd : snd (init_database Sample.db_catalog) = Return tt) by now rewrite E.
  split; [exact Hsnd|].
  assert (Hfst : init_database Sample.db_catalog
                 = (fst (init_database Sample.db_catalog), Return tt))
    by (rewrite E; reflexivity).
  destruct (Hreturned _ Hfst) as [Hagain [Hstations _]].
  split; [exact Hagain|].
  split; [apply (Hstations ("North Station"%string, 3)); right; left; reflexivity|].
  assert (Hrun : init_database Sample.db_foreign_station
                 = (set_station Sample.db_foreign_station
                      [Sample.main_station; Station.mk 2 "Depot" 1] 3,
                    Raise (PythonError "SystemExit")))
    by (vm_compute; reflexivity).
  split; [exact Hrun|].
  destruct (Hrefused _ _ Hrun) as [_ [_ [_ [_ Hnot]]]].
  intros Hd. apply Hnot. split; [exact Hd|]. constructor.
Defined.


Lemma created_instructor_profile_is_kept_witness :
  create_instructor_profile (InstructorProfileSchema.mk 2 "INF-002" 1) SampleProfiles.fdb0
  = (fst (create_instructor_profile (InstructorProfileSchema.mk 2 "INF-002" 1)
            SampleProfiles.fdb0),
     Return (InstructorProfileSchema.mk 2 "INF-002" 1))
  /\ get_instructor_profile 2
       (fst (create_instructor_profile (InstructorProfileSchema.mk 2 "INF-002" 1)
               SampleProfiles.fdb0))
     = Return (InstructorProfile.mk 2 "INF-002" 1).
Proof.
  split; [reflexivity|].
  exact (proj1 (proj2 (created_instructor_profile_is_kept
                         (InstructorProfileSchema.mk 2 "INF-002" 1) _
                         SampleProfiles.fdb0 _ eq_refl))).
Defined.


Lemma delete_instructor_profile_guarded_witness :
  get_instructor_profile 1 SampleProfiles.fdb_booked
  = Return (InstructorProfile.mk 1 "INF-001" 1)
  /\ delete_instructor_profile 1 SampleProfiles.fdb_booked
     = (SampleProfiles.fdb_booked,
        Raise (IntegrityError "learner_test_bookings_instructor_id_fkey")).
Proof.
  split; [reflexivity|].
  refine (proj1 (proj2 (delete_instructor_profile_guarded 1 SampleProfiles.fdb_booked))
            (InstructorProfile.mk 1 "INF-001" 1)
            (LearnerTestBooking.mk 1 2 1 1 "2024-05-01" "pending" 1000 None 1000)
            eq_refl _ eq_refl).
  left. reflexivity.
Defined.

Lemma delete_learner_profile_cascades_witness :
  get_learner_profile 2 SampleProfiles.fdb_booked
  = Return (LearnerProfile.mk 2 None "pending" 50 None)
  /\ exists fdb',
       delete_learner_profile 2 SampleProfiles.fdb_booked = (fdb', Return "Deleted"%string)
       /\ get_bookings_by_learner 2 (core fdb')
          = Raise (HTTPException 404 "No bookings found for this learner").
Proof.
  split; [reflexivity|].
  destruct (proj2 (delete_learner_profile_cascades 2 SampleProfiles.fdb_booked) _ eq_refl)
    as [fdb' [H1 [_ [H2 _]]]].
  exists fdb'. split; [exact H1|exact H2].
Defined.

Lemma create_user_profile_refusals_witness :
  create_user_profile SampleProfiles.carol_profile SampleProfiles.fdb0
  = (set_user_profiles SampleProfiles.fdb0
       [SampleProfiles.alice_profile; SampleProfiles.bob_profile;
        UserProfile.mk 3 "Carol" "Singer" "1985-12-24" "F" "ZA" "8512240000003"
          "0820000003" "3 Choir Street" "n/a"],
     Return SampleProfiles.carol_profile)
  /\ get_user_profile 3
       (set_user_profiles SampleProfiles.fdb0
          [SampleProfiles.alice_profile; SampleProfiles.bob_profile;
           UserProfile.mk 3 "Carol" "Singer" "1985-12-24" "F" "ZA" "8512240000003"
             "0820000003" "3 Choir Street" "n/a"])
     = Return (UserProfile.mk 3 "Carol" "Singer" "1985-12-24" "F" "ZA" "8512240000003"
                 "0820000003" "3 Choir Street" "n/a").
Proof.
  apply (proj1 (create_user_profile_refusals SampleProfiles.carol_profile SampleProfiles.fdb0)).
  split; [reflexivity|]. split; [reflexivity|]. split.
  - exists Sample.carol. split; [right; right; left; reflexivity|reflexivity].
  - simpl. intros p [<-|[<-|[]]]; split; discriminate.
Defined.

Lemma delete_user_profile_cascades_witness :
  get_user_profile 1 SampleProfiles.fdb0 = Return SampleProfiles.alice_profile
  /\ exists fdb',
       delete_user_profile 1 SampleProfiles.fdb0 = (fdb', Return "Deleted"%string)
       /\ get_instructor_profile 1 fdb'
          = Raise (HTTPException 404 "Instructor profile not found").
Proof.
  split; [reflexivity|].
  destruct (proj2 (proj2 (delete_user_profile_cascades 1 SampleProfiles.fdb0))
              SampleProfiles.alice_profile eq_refl) as [fdb' [H1 [_ [H2 _]]]].
  - simpl. intros booking [].
  - exists fdb'. split; [exact H1|exact H2].
Defined.

